(** * Marine central-cooling controller: the control core of
      [new_AI_UI_0314.py] (class [CoolingSystemController]) and the
      parts of [new_AI_UI_0313_1.py] that differ from it.

    Python floats are modelled as exact rationals ([Q]): the control
    laws below only add, scale, divide, compare and clamp, and every
    threshold of the source is a short decimal.  The one test that
    sits on the edge of a rounding, the 0.05 deadband of
    [adjust_sw_pump_frequency], computes its two thresholds in
    binary64 ([binary64_add], [binary64_sub]).  Python [int]s (pump
    counts) are [Z].  Numerical equality of floats ([==], [!=] in the
    source) is [Qeq]; a Leibniz equality between rationals is stated
    only where the source copies a value unchanged.

    Methods that neither read the clock nor draw random numbers are
    pure functions [controller -> controller] (the mutated [self] is
    the result).  Methods that call [time.time()] or
    [np.random.randn()] run in a small state monad over the ambient
    [world].  Logging calls are not modelled. *)

From Stdlib Require Import String.
From Stdlib Require Import QArith Qabs Lqa ZArith List Bool Lia.
Import ListNotations.
Open Scope Q_scope.

(** ** Python numerics on rationals *)

(** [a < b] as a test. *)
Definition Qlt_bool (a b : Q) : bool := negb (Qle_bool b a).

(** Python's two-argument [min]: the first argument unless the second
    is strictly smaller. *)
Definition py_min (a b : Q) : Q := if Qlt_bool b a then b else a.

(** Python's two-argument [max]: the first argument unless the second
    is strictly larger. *)
Definition py_max (a b : Q) : Q := if Qlt_bool a b then b else a.

(** Python's [xs[-n:]]: the last [n] elements, the whole list when it
    is shorter. *)
Definition last_n {A : Type} (n : nat) (xs : list A) : list A :=
  skipn (length xs - n) xs.

(** ** Data model *)

(** The strings ['up'] and ['down']; Python's [None] is the [None] of
    [option direction]. *)
Inductive direction : Type := up | down.

Definition direction_eqb (a b : direction) : bool :=
  match a, b with
  | up, up | down, down => true
  | _, _ => false
  end.

(** [a != b] on values that are [None], ['up'] or ['down']. *)
Definition opt_direction_neb (a b : option direction) : bool :=
  match a, b with
  | None, None => false
  | Some x, Some y => negb (direction_eqb x y)
  | _, _ => true
  end.

(** The four attributes that [adjust_sw_pump_frequency] creates on its
    first call (guarded there by [hasattr(self, 'sw_base_freq')]). *)
Record sw_memory : Type := {
  sw_base_freq : Q;
  prev_t5 : Q;
  t5_direction : option direction;
  last_adjustment : option direction
}.

(** [alarm_message].  The source formats the offending reading into
    the text; the constructor carries that reading, [NoAlarmText] is
    the empty string. *)
Inductive alarm_text : Type :=
| NoAlarmText
| FW_outlet_temperature_high (t5 : Q)
| SW_outlet_temperature_high (t2 : Q)
| SW_inlet_pressure_low (dp1 : Q)
| SW_inlet_pressure_high (dp1 : Q).

Definition alarm_text_is_empty (m : alarm_text) : bool :=
  match m with NoAlarmText => true | _ => false end.

(** One dictionary appended to [data_log] by [update_system]. *)
Record data_point : Type := {
  dp_Time : Q; dp_T1 : Q; dp_T2 : Q; dp_T4 : Q; dp_T5 : Q; dp_DP1 : Q;
  dp_FW_FREQ : Q; dp_SW_FREQ : Q; dp_FW_COUNT : Z; dp_SW_COUNT : Z;
  dp_EFFICIENCY : Q; dp_ENGINE_LOAD : Q; dp_FW_FLOW : Q; dp_SW_FLOW : Q
}.

(** The twelve parallel column lists of the controller. *)
Record series : Type := {
  time_data : list Q;
  t1_data : list Q;
  t2_data : list Q;
  t4_data : list Q;
  t5_data : list Q;
  dp1_data : list Q;
  fw_freq_data : list Q;
  sw_freq_data : list Q;
  fw_count_data : list Z;
  sw_count_data : list Z;
  efficiency_data : list Q;
  engine_load_data : list Q
}.

(** The attributes of a [CoolingSystemController] instance. *)
Record controller : Type := {
  T1 : Q;
  T2 : Q;
  T4 : Q;
  T5 : Q;
  DP1 : Q;
  fw_pump_freq : Q;
  sw_pump_freq : Q;
  fw_pump_count : Z;
  sw_pump_count : Z;
  m_FW : Q;
  m_SW : Q;
  heat_exchanger_efficiency : Q;
  engine_load : Q;
  alarm_active : bool;
  alarm_message : alarm_text;
  simulation_mode : bool;
  user_input_mode : bool;
  last_update_time : Q;
  operating_hours : Q;
  columns : series;
  data_log : list data_point;
  memory : option sw_memory
}.

(** *** Attribute assignment *)

Definition set_T1 (v : Q) (c : controller) : controller :=
  {| T1 := v; T2 := T2 c; T4 := T4 c; T5 := T5 c; DP1 := DP1 c;
     fw_pump_freq := fw_pump_freq c; sw_pump_freq := sw_pump_freq c;
     fw_pump_count := fw_pump_count c; sw_pump_count := sw_pump_count c;
     m_FW := m_FW c; m_SW := m_SW c;
     heat_exchanger_efficiency := heat_exchanger_efficiency c;
     engine_load := engine_load c;
     alarm_active := alarm_active c; alarm_message := alarm_message c;
     simulation_mode := simulation_mode c;
     user_input_mode := user_input_mode c;
     last_update_time := last_update_time c;
     operating_hours := operating_hours c;
     columns := columns c; data_log := data_log c; memory := memory c |}.

Definition set_T2 (v : Q) (c : controller) : controller :=
  {| T1 := T1 c; T2 := v; T4 := T4 c; T5 := T5 c; DP1 := DP1 c;
     fw_pump_freq := fw_pump_freq c; sw_pump_freq := sw_pump_freq c;
     fw_pump_count := fw_pump_count c; sw_pump_count := sw_pump_count c;
     m_FW := m_FW c; m_SW := m_SW c;
     heat_exchanger_efficiency := heat_exchanger_efficiency c;
     engine_load := engine_load c;
     alarm_active := alarm_active c; alarm_message := alarm_message c;
     simulation_mode := simulation_mode c;
     user_input_mode := user_input_mode c;
     last_update_time := last_update_time c;
     operating_hours := operating_hours c;
     columns := columns c; data_log := data_log c; memory := memory c |}.

Definition set_T4 (v : Q) (c : controller) : controller :=
  {| T1 := T1 c; T2 := T2 c; T4 := v; T5 := T5 c; DP1 := DP1 c;
     fw_pump_freq := fw_pump_freq c; sw_pump_freq := sw_pump_freq c;
     fw_pump_count := fw_pump_count c; sw_pump_count := sw_pump_count c;
     m_FW := m_FW c; m_SW := m_SW c;
     heat_exchanger_efficiency := heat_exchanger_efficiency c;
     engine_load := engine_load c;
     alarm_active := alarm_active c; alarm_message := alarm_message c;
     simulation_mode := simulation_mode c;
     user_input_mode := user_input_mode c;
     last_update_time := last_update_time c;
     operating_hours := operating_hours c;
     columns := columns c; data_log := data_log c; memory := memory c |}.

Definition set_T5 (v : Q) (c : controller) : controller :=
  {| T1 := T1 c; T2 := T2 c; T4 := T4 c; T5 := v; DP1 := DP1 c;
     fw_pump_freq := fw_pump_freq c; sw_pump_freq := sw_pump_freq c;
     fw_pump_count := fw_pump_count c; sw_pump_count := sw_pump_count c;
     m_FW := m_FW c; m_SW := m_SW c;
     heat_exchanger_efficiency := heat_exchanger_efficiency c;
     engine_load := engine_load c;
     alarm_active := alarm_active c; alarm_message := alarm_message c;
     simulation_mode := simulation_mode c;
     user_input_mode := user_input_mode c;
     last_update_time := last_update_time c;
     operating_hours := operating_hours c;
     columns := columns c; data_log := data_log c; memory := memory c |}.

Definition set_DP1 (v : Q) (c : controller) : controller :=
  {| T1 := T1 c; T2 := T2 c; T4 := T4 c; T5 := T5 c; DP1 := v;
     fw_pump_freq := fw_pump_freq c; sw_pump_freq := sw_pump_freq c;
     fw_pump_count := fw_pump_count c; sw_pump_count := sw_pump_count c;
     m_FW := m_FW c; m_SW := m_SW c;
     heat_exchanger_efficiency := heat_exchanger_efficiency c;
     engine_load := engine_load c;
     alarm_active := alarm_active c; alarm_message := alarm_message c;
     simulation_mode := simulation_mode c;
     user_input_mode := user_input_mode c;
     last_update_time := last_update_time c;
     operating_hours := operating_hours c;
     columns := columns c; data_log := data_log c; memory := memory c |}.

Definition set_fw_pump_freq (v : Q) (c : controller) : controller :=
  {| T1 := T1 c; T2 := T2 c; T4 := T4 c; T5 := T5 c; DP1 := DP1 c;
     fw_pump_freq := v; sw_pump_freq := sw_pump_freq c;
     fw_pump_count := fw_pump_count c; sw_pump_count := sw_pump_count c;
     m_FW := m_FW c; m_SW := m_SW c;
     heat_exchanger_efficiency := heat_exchanger_efficiency c;
     engine_load := engine_load c;
     alarm_active := alarm_active c; alarm_message := alarm_message c;
     simulation_mode := simulation_mode c;
     user_input_mode := user_input_mode c;
     last_update_time := last_update_time c;
     operating_hours := operating_hours c;
     columns := columns c; data_log := data_log c; memory := memory c |}.

Definition set_sw_pump_freq (v : Q) (c : controller) : controller :=
  {| T1 := T1 c; T2 := T2 c; T4 := T4 c; T5 := T5 c; DP1 := DP1 c;
     fw_pump_freq := fw_pump_freq c; sw_pump_freq := v;
     fw_pump_count := fw_pump_count c; sw_pump_count := sw_pump_count c;
     m_FW := m_FW c; m_SW := m_SW c;
     heat_exchanger_efficiency := heat_exchanger_efficiency c;
     engine_load := engine_load c;
     alarm_active := alarm_active c; alarm_message := alarm_message c;
     simulation_mode := simulation_mode c;
     user_input_mode := user_input_mode c;
     last_update_time := last_update_time c;
     operating_hours := operating_hours c;
     columns := columns c; data_log := data_log c; memory := memory c |}.

Definition set_fw_pump_count (v : Z) (c : controller) : controller :=
  {| T1 := T1 c; T2 := T2 c; T4 := T4 c; T5 := T5 c; DP1 := DP1 c;
     fw_pump_freq := fw_pump_freq c; sw_pump_freq := sw_pump_freq c;
     fw_pump_count := v; sw_pump_count := sw_pump_count c;
     m_FW := m_FW c; m_SW := m_SW c;
     heat_exchanger_efficiency := heat_exchanger_efficiency c;
     engine_load := engine_load c;
     alarm_active := alarm_active c; alarm_message := alarm_message c;
     simulation_mode := simulation_mode c;
     user_input_mode := user_input_mode c;
     last_update_time := last_update_time c;
     operating_hours := operating_hours c;
     columns := columns c; data_log := data_log c; memory := memory c |}.

Definition set_sw_pump_count (v : Z) (c : controller) : controller :=
  {| T1 := T1 c; T2 := T2 c; T4 := T4 c; T5 := T5 c; DP1 := DP1 c;
     fw_pump_freq := fw_pump_freq c; sw_pump_freq := sw_pump_freq c;
     fw_pump_count := fw_pump_count c; sw_pump_count := v;
     m_FW := m_FW c; m_SW := m_SW c;
     heat_exchanger_efficiency := heat_exchanger_efficiency c;
     engine_load := engine_load c;
     alarm_active := alarm_active c; alarm_message := alarm_message c;
     simulation_mode := simulation_mode c;
     user_input_mode := user_input_mode c;
     last_update_time := last_update_time c;
     operating_hours := operating_hours c;
     columns := columns c; data_log := data_log c; memory := memory c |}.

Definition set_flows (fw sw : Q) (c : controller) : controller :=
  {| T1 := T1 c; T2 := T2 c; T4 := T4 c; T5 := T5 c; DP1 := DP1 c;
     fw_pump_freq := fw_pump_freq c; sw_pump_freq := sw_pump_freq c;
     fw_pump_count := fw_pump_count c; sw_pump_count := sw_pump_count c;
     m_FW := fw; m_SW := sw;
     heat_exchanger_efficiency := heat_exchanger_efficiency c;
     engine_load := engine_load c;
     alarm_active := alarm_active c; alarm_message := alarm_message c;
     simulation_mode := simulation_mode c;
     user_input_mode := user_input_mode c;
     last_update_time := last_update_time c;
     operating_hours := operating_hours c;
     columns := columns c; data_log := data_log c; memory := memory c |}.

Definition set_heat_exchanger_efficiency (v : Q) (c : controller)
  : controller :=
  {| T1 := T1 c; T2 := T2 c; T4 := T4 c; T5 := T5 c; DP1 := DP1 c;
     fw_pump_freq := fw_pump_freq c; sw_pump_freq := sw_pump_freq c;
     fw_pump_count := fw_pump_count c; sw_pump_count := sw_pump_count c;
     m_FW := m_FW c; m_SW := m_SW c;
     heat_exchanger_efficiency := v;
     engine_load := engine_load c;
     alarm_active := alarm_active c; alarm_message := alarm_message c;
     simulation_mode := simulation_mode c;
     user_input_mode := user_input_mode c;
     last_update_time := last_update_time c;
     operating_hours := operating_hours c;
     columns := columns c; data_log := data_log c; memory := memory c |}.

Definition set_engine_load (v : Q) (c : controller) : controller :=
  {| T1 := T1 c; T2 := T2 c; T4 := T4 c; T5 := T5 c; DP1 := DP1 c;
     fw_pump_freq := fw_pump_freq c; sw_pump_freq := sw_pump_freq c;
     fw_pump_count := fw_pump_count c; sw_pump_count := sw_pump_count c;
     m_FW := m_FW c; m_SW := m_SW c;
     heat_exchanger_efficiency := heat_exchanger_efficiency c;
     engine_load := v;
     alarm_active := alarm_active c; alarm_message := alarm_message c;
     simulation_mode := simulation_mode c;
     user_input_mode := user_input_mode c;
     last_update_time := last_update_time c;
     operating_hours := operating_hours c;
     columns := columns c; data_log := data_log c; memory := memory c |}.

Definition set_alarm (a : bool) (m : alarm_text) (c : controller)
  : controller :=
  {| T1 := T1 c; T2 := T2 c; T4 := T4 c; T5 := T5 c; DP1 := DP1 c;
     fw_pump_freq := fw_pump_freq c; sw_pump_freq := sw_pump_freq c;
     fw_pump_count := fw_pump_count c; sw_pump_count := sw_pump_count c;
     m_FW := m_FW c; m_SW := m_SW c;
     heat_exchanger_efficiency := heat_exchanger_efficiency c;
     engine_load := engine_load c;
     alarm_active := a; alarm_message := m;
     simulation_mode := simulation_mode c;
     user_input_mode := user_input_mode c;
     last_update_time := last_update_time c;
     operating_hours := operating_hours c;
     columns := columns c; data_log := data_log c; memory := memory c |}.

Definition set_clock_fields (t h : Q) (c : controller) : controller :=
  {| T1 := T1 c; T2 := T2 c; T4 := T4 c; T5 := T5 c; DP1 := DP1 c;
     fw_pump_freq := fw_pump_freq c; sw_pump_freq := sw_pump_freq c;
     fw_pump_count := fw_pump_count c; sw_pump_count := sw_pump_count c;
     m_FW := m_FW c; m_SW := m_SW c;
     heat_exchanger_efficiency := heat_exchanger_efficiency c;
     engine_load := engine_load c;
     alarm_active := alarm_active c; alarm_message := alarm_message c;
     simulation_mode := simulation_mode c;
     user_input_mode := user_input_mode c;
     last_update_time := t;
     operating_hours := h;
     columns := columns c; data_log := data_log c; memory := memory c |}.

Definition set_columns (v : series) (c : controller) : controller :=
  {| T1 := T1 c; T2 := T2 c; T4 := T4 c; T5 := T5 c; DP1 := DP1 c;
     fw_pump_freq := fw_pump_freq c; sw_pump_freq := sw_pump_freq c;
     fw_pump_count := fw_pump_count c; sw_pump_count := sw_pump_count c;
     m_FW := m_FW c; m_SW := m_SW c;
     heat_exchanger_efficiency := heat_exchanger_efficiency c;
     engine_load := engine_load c;
     alarm_active := alarm_active c; alarm_message := alarm_message c;
     simulation_mode := simulation_mode c;
     user_input_mode := user_input_mode c;
     last_update_time := last_update_time c;
     operating_hours := operating_hours c;
     columns := v; data_log := data_log c; memory := memory c |}.

Definition set_data_log (v : list data_point) (c : controller)
  : controller :=
  {| T1 := T1 c; T2 := T2 c; T4 := T4 c; T5 := T5 c; DP1 := DP1 c;
     fw_pump_freq := fw_pump_freq c; sw_pump_freq := sw_pump_freq c;
     fw_pump_count := fw_pump_count c; sw_pump_count := sw_pump_count c;
     m_FW := m_FW c; m_SW := m_SW c;
     heat_exchanger_efficiency := heat_exchanger_efficiency c;
     engine_load := engine_load c;
     alarm_active := alarm_active c; alarm_message := alarm_message c;
     simulation_mode := simulation_mode c;
     user_input_mode := user_input_mode c;
     last_update_time := last_update_time c;
     operating_hours := operating_hours c;
     columns := columns c; data_log := v; memory := memory c |}.

Definition set_memory (v : option sw_memory) (c : controller)
  : controller :=
  {| T1 := T1 c; T2 := T2 c; T4 := T4 c; T5 := T5 c; DP1 := DP1 c;
     fw_pump_freq := fw_pump_freq c; sw_pump_freq := sw_pump_freq c;
     fw_pump_count := fw_pump_count c; sw_pump_count := sw_pump_count c;
     m_FW := m_FW c; m_SW := m_SW c;
     heat_exchanger_efficiency := heat_exchanger_efficiency c;
     engine_load := engine_load c;
     alarm_active := alarm_active c; alarm_message := alarm_message c;
     simulation_mode := simulation_mode c;
     user_input_mode := user_input_mode c;
     last_update_time := last_update_time c;
     operating_hours := operating_hours c;
     columns := columns c; data_log := data_log c; memory := v |}.

(** ** The thermal solver *)

Definition cp_fw : Q := 4200.
Definition cp_sw : Q := 4000.
Definition rho_fw : Q := 1000.
Definition rho_sw : Q := 1025.
Definition epsilon : Q := 0.75.

(** [calculate_t5] of [new_AI_UI_0314.py]. *)
Definition calculate_t5 (c : controller) : controller :=
  let C_fw := m_FW c * rho_fw * cp_fw / 3600 in
  let C_sw := m_SW c * rho_sw * cp_sw / 3600 in
  let c1 :=
    if Qle_bool C_fw 0 || Qle_bool C_sw 0 then set_T5 (T4 c) c
    else
      let C_min := py_min C_fw C_sw in
      if Qeq_bool C_min C_fw
      then set_T5 (T4 c - epsilon * (T4 c - T1 c)) c
      else set_T5 (T4 c - (epsilon * C_sw * (T4 c - T1 c)) / C_fw) c in
  let c2 := set_T5 (py_min (T4 c1) (T5 c1)) c1 in
  let c3 := set_T5 (py_max (T1 c2) (T5 c2)) c2 in
  if Qlt_bool 0 C_sw then
    let original_t2 := T1 c3 + (C_fw * (T4 c3 - T5 c3)) / C_sw in
    let c4 := set_T2 original_t2 c3 in
    if Qlt_bool (T4 c4) (T2 c4)
    then set_T2 (py_min (T4 c4) (T2 c4)) c4
    else c4
  else set_T2 (T1 c3) c3.

(** [calculate_t2] only delegates. *)
Definition calculate_t2 (c : controller) : controller := calculate_t5 c.

(** [calculate_t5] of [new_AI_UI_0313_1.py]: the same law, with the
    upper clamp of [T2] applied without a guarding test. *)
Definition calculate_t5_0313 (c : controller) : controller :=
  let C_fw := m_FW c * rho_fw * cp_fw / 3600 in
  let C_sw := m_SW c * rho_sw * cp_sw / 3600 in
  let c1 :=
    if Qle_bool C_fw 0 || Qle_bool C_sw 0 then set_T5 (T4 c) c
    else
      let C_min := py_min C_fw C_sw in
      if Qeq_bool C_min C_fw
      then set_T5 (T4 c - epsilon * (T4 c - T1 c)) c
      else set_T5 (T4 c - (epsilon * C_sw * (T4 c - T1 c)) / C_fw) c in
  let c2 := set_T5 (py_min (T4 c1) (T5 c1)) c1 in
  let c3 := set_T5 (py_max (T1 c2) (T5 c2)) c2 in
  if Qlt_bool 0 C_sw then
    let c4 := set_T2 (T1 c3 + (C_fw * (T4 c3 - T5 c3)) / C_sw) c3 in
    set_T2 (py_min (T4 c4) (T2 c4)) c4
  else set_T2 (T1 c3) c3.

Definition calculate_t2_0313 (c : controller) : controller :=
  calculate_t5_0313 c.

(** ** Flow model *)

(** [update_flow_rates]. *)
Definition update_flow_rates (c : controller) : controller :=
  let base_fw_flow := 1290.0 in
  let base_sw_flow := 1500.0 in
  set_flows
    (base_fw_flow * (fw_pump_freq c / 60.0) * inject_Z (fw_pump_count c))
    (base_sw_flow * (sw_pump_freq c / 60.0) * inject_Z (sw_pump_count c))
    c.

(** [update_heat_exchanger_efficiency]. *)
Definition update_heat_exchanger_efficiency (c : controller) : controller :=
  set_heat_exchanger_efficiency 0.75 c.

(** ** The ambient world: wall clock and random source *)

(** [clock k] is the value of the [k]-th call of [time.time()],
    [randn k] the [k]-th sample of [np.random.randn()]; the two
    counters say how many have been consumed. *)
Record world : Type := {
  clock : nat -> Q;
  clock_reads : nat;
  randn : nat -> Q;
  randn_draws : nat
}.

Definition M (A : Type) : Type := world -> A * world.

Definition ret {A : Type} (a : A) : M A := fun w => (a, w).

Definition bind {A B : Type} (m : M A) (f : A -> M B) : M B :=
  fun w => let (a, w') := m w in f a w'.

Declare Scope world_scope.
Delimit Scope world_scope with world.
Notation "x <- m ;; k" := (bind m (fun x => k))
  (at level 61, m at next level, right associativity) : world_scope.
Open Scope world_scope.

Definition time_time : M Q :=
  fun w => (clock w (clock_reads w),
            {| clock := clock w; clock_reads := S (clock_reads w);
               randn := randn w; randn_draws := randn_draws w |}).

Definition np_random_randn : M Q :=
  fun w => (randn w (randn_draws w),
            {| clock := clock w; clock_reads := clock_reads w;
               randn := randn w; randn_draws := S (randn_draws w) |}).

(** ** Binary64 addition

    The attributes are doubles.  A sum or difference of two doubles is
    the exact result rounded to the nearest double, ties to even.
    [round_half_even n d] is the integer nearest to [n / d] for
    [d > 0]; [binary64_round] rounds a rational to the nearest double
    (53-bit significand, exponent of the last place at least -1074).
    An overflow to infinity is not represented: magnitudes of
    [2 ^ 1024] and above do not occur among the temperatures. *)

Definition round_half_even (n d : Z) : Z :=
  let q := (n / d)%Z in
  let r := (n mod d)%Z in
  match (2 * r ?= d)%Z with
  | Lt => q
  | Gt => (q + 1)%Z
  | Eq => if Z.even q then q else (q + 1)%Z
  end.

(** The exponent [e] of the last place of the double nearest to
    [n / d], for [n, d > 0]: [2 ^ 52 <= (n / d) / 2 ^ e < 2 ^ 53],
    or [e = -1074] for a subnormal. *)
Definition binary64_exponent (n d : Z) : Z :=
  let e0 := (Z.log2 n - Z.log2 d - 52)%Z in
  let e1 :=
    if (n * 2 ^ Z.max 0 (- e0) <? d * 2 ^ Z.max 0 e0 * 2 ^ 52)%Z
    then (e0 - 1)%Z else e0 in
  Z.max e1 (-1074).

Definition binary64_round_pos (n d : Z) : Q :=
  let e := binary64_exponent n d in
  let m := round_half_even (n * 2 ^ Z.max 0 (- e)) (d * 2 ^ Z.max 0 e) in
  Qmake (m * 2 ^ Z.max 0 e) (Z.to_pos (2 ^ Z.max 0 (- e))).

Definition binary64_round (x : Q) : Q :=
  match Qnum x with
  | Z0 => 0
  | Zpos p => binary64_round_pos (Zpos p) (Zpos (Qden x))
  | Zneg p => - binary64_round_pos (Zpos p) (Zpos (Qden x))
  end.

(** [a + b] and [a - b] on doubles. *)
Definition binary64_add (a b : Q) : Q := binary64_round (a + b).
Definition binary64_sub (a b : Q) : Q := binary64_round (a - b).

(** ** Frequency controllers *)

(** The target computed by [adjust_fw_pump_frequency] (its local
    [desired_freq] after the clamp). *)
Definition fw_desired_freq (t4 : Q) : Q :=
  let delta_t := t4 - 36.0 in
  let desired_freq :=
    if Qle_bool 17.0 delta_t then 60.0
    else if Qle_bool delta_t 0 then 40.0
    else 40.0 + (delta_t / 17.0) * 20.0 in
  py_max 40.0 (py_min 60.0 desired_freq).

(** [adjust_fw_pump_frequency]. *)
Definition adjust_fw_pump_frequency (c : controller) : M controller :=
  current_time <- time_time ;;
  let elapsed_time := current_time - last_update_time c in
  let desired_freq := fw_desired_freq (T4 c) in
  ret (if negb (Qeq_bool (fw_pump_freq c) desired_freq)
       then set_fw_pump_freq desired_freq c
       else c).

(** The first-call branch of [adjust_sw_pump_frequency]: the state and
    the memory the rest of the method works on. *)
Definition sw_first_call (c : controller) : controller * sw_memory :=
  match memory c with
  | Some m => (c, m)
  | None =>
      (set_sw_pump_freq 60.0 c,
       {| sw_base_freq := 60.0; prev_t5 := T5 c;
          t5_direction := None; last_adjustment := None |})
  end.

(** Local [current_direction].  The two thresholds
    [self.prev_t5 + 0.05] and [self.prev_t5 - 0.05] are computed in
    binary64, the literal being the double nearest to 0.05; the
    comparisons themselves are exact. *)
Definition sw_current_direction (t5 : Q) (m : sw_memory)
  : option direction :=
  if Qlt_bool (binary64_add (prev_t5 m) (binary64_round 0.05)) t5
  then Some up
  else if Qlt_bool t5 (binary64_sub (prev_t5 m) (binary64_round 0.05))
  then Some down
  else t5_direction m.

Definition is_not_None {A : Type} (o : option A) : bool :=
  match o with Some _ => true | None => false end.

(** Local [direction_changed]. *)
Definition sw_direction_changed (m : sw_memory)
  (current_direction : option direction) : bool :=
  is_not_None (t5_direction m) && is_not_None current_direction
  && opt_direction_neb (t5_direction m) current_direction.

(** The three-way decision on [T5]: the local [desired_freq] before
    the clamp, and the value of [last_adjustment] afterwards. *)
Definition sw_decision (t5 sw_freq : Q) (m : sw_memory)
  (direction_changed : bool) : Q * option direction :=
  if Qlt_bool 36.0 t5 then
    if opt_direction_neb (last_adjustment m) (Some up)
       || negb direction_changed
    then (sw_freq + 2.0, Some up)
    else (sw_freq, last_adjustment m)
  else if Qlt_bool t5 34.0 then
    if opt_direction_neb (last_adjustment m) (Some down)
       || negb direction_changed
    then (sw_freq - 2.0, Some down)
    else (sw_freq, last_adjustment m)
  else (sw_freq, last_adjustment m).

(** The part of [adjust_sw_pump_frequency] after the clock read. *)
Definition sw_step (c : controller) : controller :=
  let (c0, m) := sw_first_call c in
  let current_direction := sw_current_direction (T5 c0) m in
  let direction_changed := sw_direction_changed m current_direction in
  let (desired_freq0, adjustment) :=
    sw_decision (T5 c0) (sw_pump_freq c0) m direction_changed in
  let desired_freq := py_max 35.0 (py_min 60.0 desired_freq0) in
  let c1 :=
    if negb (Qeq_bool (sw_pump_freq c0) desired_freq)
    then set_sw_pump_freq desired_freq c0
    else c0 in
  set_memory
    (Some {| sw_base_freq := sw_base_freq m; prev_t5 := T5 c1;
             t5_direction := current_direction;
             last_adjustment := adjustment |})
    c1.

(** [adjust_sw_pump_frequency]. *)
Definition adjust_sw_pump_frequency (c : controller) : M controller :=
  current_time <- time_time ;;
  ret (sw_step c).

(** ** Pump-count scheduler *)

(** [adjust_pump_count_by_load]. *)
Definition adjust_pump_count_by_load (c : controller) : controller :=
  let c2 :=
    if Qlt_bool (engine_load c) 10.0 then
      let c1 :=
        if (1 <? fw_pump_count c)%Z then set_fw_pump_count 1%Z c else c in
      if (1 <? sw_pump_count c1)%Z then set_sw_pump_count 1%Z c1 else c1
    else
      let c1 :=
        if (fw_pump_count c <? 2)%Z then set_fw_pump_count 2%Z c else c in
      if (sw_pump_count c1 <? 2)%Z then set_sw_pump_count 2%Z c1 else c1 in
  let c3 :=
    if Qlt_bool 60.0 (fw_pump_freq c2) then set_fw_pump_freq 60.0 c2
    else c2 in
  if Qlt_bool 60.0 (sw_pump_freq c3) then set_sw_pump_freq 60.0 c3
  else c3.

(** ** Alarm monitor *)

(** [check_alarm_conditions]. *)
Definition check_alarm_conditions (c : controller) : controller :=
  let c0 := set_alarm false NoAlarmText c in
  let c1 :=
    if Qlt_bool 40.0 (T5 c0)
    then set_alarm true (FW_outlet_temperature_high (T5 c0)) c0
    else c0 in
  let c2 :=
    if Qlt_bool 49.0 (T2 c1)
    then set_alarm true (SW_outlet_temperature_high (T2 c1)) c1
    else c1 in
  if Qlt_bool (DP1 c2) 0.5
  then set_alarm true (SW_inlet_pressure_low (DP1 c2)) c2
  else if Qlt_bool 2.5 (DP1 c2)
  then set_alarm true (SW_inlet_pressure_high (DP1 c2)) c2
  else c2.

(** ** Update loop *)

(** [simulate_temperature_changes]. *)
Definition simulate_temperature_changes (c : controller) : M controller :=
  current_time <- time_time ;;
  r1 <- np_random_randn ;;
  r2 <- np_random_randn ;;
  let t1_change := 0.05 * r1 in
  let t4_change := 0.05 * r2 in
  let c1 := set_T1 (T1 c + t1_change) c in
  let c2 := set_T4 (T4 c1 + t4_change) c1 in
  let c3 := set_T1 (py_max 0 (py_min 36 (T1 c2))) c2 in
  let c4 := set_T4 (py_max 36 (py_min 53 (T4 c3))) c3 in
  let age_factor := py_max 0.6 (1.0 - operating_hours c4 / 10000.0) in
  ret (set_heat_exchanger_efficiency (0.85 * age_factor) c4).

(** The body of [for i in range(3)] with its early [break], for a
    given solver; [passes] is the number of passes left. *)
Fixpoint refinement_loop (solve : controller -> controller)
  (passes : nat) (c : controller) : controller :=
  match passes with
  | O => c
  | S passes' =>
      let old_t2 := T2 c in
      let c1 := solve c in
      let old_t5 := T5 c1 in
      let c2 := solve c1 in
      if Qlt_bool (Qabs (T2 c2 - old_t2)) 0.01
         && Qlt_bool (Qabs (T5 c2 - old_t5)) 0.01
      then c2
      else refinement_loop solve passes' c2
  end.

(** The guard on an "initial" state found in front of the loop in
    [manual_update] and in the [update_system] of
    [new_AI_UI_0313_1.py]. *)
Definition initial_state_guard (c : controller) : controller :=
  if Qlt_bool (Qabs (T5 c - T4 c)) 0.1
  then set_T5 (T4 c - 2.0) c
  else c.

Definition append_columns (current_time : Q) (c : controller) : series :=
  let s := columns c in
  {| time_data := time_data s ++ [current_time];
     t1_data := t1_data s ++ [T1 c];
     t2_data := t2_data s ++ [T2 c];
     t4_data := t4_data s ++ [T4 c];
     t5_data := t5_data s ++ [T5 c];
     dp1_data := dp1_data s ++ [DP1 c];
     fw_freq_data := fw_freq_data s ++ [fw_pump_freq c];
     sw_freq_data := sw_freq_data s ++ [sw_pump_freq c];
     fw_count_data := fw_count_data s ++ [fw_pump_count c];
     sw_count_data := sw_count_data s ++ [sw_pump_count c];
     efficiency_data := efficiency_data s ++ [heat_exchanger_efficiency c];
     engine_load_data := engine_load_data s ++ [engine_load c] |}.

Definition snapshot (current_time : Q) (c : controller) : data_point :=
  {| dp_Time := current_time;
     dp_T1 := T1 c; dp_T2 := T2 c; dp_T4 := T4 c; dp_T5 := T5 c;
     dp_DP1 := DP1 c;
     dp_FW_FREQ := fw_pump_freq c; dp_SW_FREQ := sw_pump_freq c;
     dp_FW_COUNT := fw_pump_count c; dp_SW_COUNT := sw_pump_count c;
     dp_EFFICIENCY := heat_exchanger_efficiency c;
     dp_ENGINE_LOAD := engine_load c;
     dp_FW_FLOW := m_FW c; dp_SW_FLOW := m_SW c |}.

Definition max_data_points : nat := 1000.

(** The size limit at the end of [update_system]: every column is cut
    when [time_data] is too long. *)
Definition limit_columns (s : series) : series :=
  if (max_data_points <? length (time_data s))%nat then
    {| time_data := last_n max_data_points (time_data s);
       t1_data := last_n max_data_points (t1_data s);
       t2_data := last_n max_data_points (t2_data s);
       t4_data := last_n max_data_points (t4_data s);
       t5_data := last_n max_data_points (t5_data s);
       dp1_data := last_n max_data_points (dp1_data s);
       fw_freq_data := last_n max_data_points (fw_freq_data s);
       sw_freq_data := last_n max_data_points (sw_freq_data s);
       fw_count_data := last_n max_data_points (fw_count_data s);
       sw_count_data := last_n max_data_points (sw_count_data s);
       efficiency_data := last_n max_data_points (efficiency_data s);
       engine_load_data := last_n max_data_points (engine_load_data s) |}
  else s.

(** [update_system] up to the refinement loop: the state the loop
    starts from ([new_AI_UI_0314.py]). *)
Definition update_system_before_loop (c : controller) : M controller :=
  if simulation_mode c && negb (user_input_mode c)
  then simulate_temperature_changes c
  else ret c.

(** [update_system] of [new_AI_UI_0314.py]; the result is the returned
    triple [(T5, T2, DP1)] and the mutated controller. *)
Definition update_system (c : controller) : M (Q * Q * Q * controller) :=
  current_time <- time_time ;;
  c1 <- update_system_before_loop c ;;
  let c2 := refinement_loop calculate_t5 3 c1 in
  let c3 := update_flow_rates c2 in
  let c4 := update_heat_exchanger_efficiency c3 in
  c5 <- adjust_fw_pump_frequency c4 ;;
  c6 <- adjust_sw_pump_frequency c5 ;;
  let c7 := adjust_pump_count_by_load c6 in
  let c8 := check_alarm_conditions c7 in
  let c9 := set_columns (append_columns current_time c8) c8 in
  let c10 := set_data_log (data_log c9 ++ [snapshot current_time c9]) c9 in
  let c11 :=
    set_clock_fields current_time
      (operating_hours c10
       + (current_time - last_update_time c10) / 3600.0) c10 in
  let c12 := set_columns (limit_columns (columns c11)) c11 in
  ret (T5 c12, T2 c12, DP1 c12, c12).

(** [manual_update] up to the refinement loop. *)
Definition manual_update_before_loop (t4 t1 dp1 load : Q) (c : controller)
  : controller :=
  let c1 := set_T4 t4 c in
  let c2 := set_T1 t1 c1 in
  let c3 := set_DP1 dp1 c2 in
  let c4 := set_engine_load load c3 in
  initial_state_guard c4.

(** [manual_update] of [new_AI_UI_0314.py]. *)
Definition manual_update (t4 t1 dp1 load : Q) (c : controller)
  : M (Q * Q * Q * controller) :=
  let c1 := manual_update_before_loop t4 t1 dp1 load c in
  let c2 := refinement_loop calculate_t5 3 c1 in
  let c3 := update_flow_rates c2 in
  c4 <- adjust_fw_pump_frequency c3 ;;
  c5 <- adjust_sw_pump_frequency c4 ;;
  let c6 := adjust_pump_count_by_load c5 in
  let c7 := check_alarm_conditions c6 in
  ret (T5 c7, T2 c7, DP1 c7, c7).

(** [update_system] of [new_AI_UI_0313_1.py] up to the refinement
    loop: the clock fields are updated first, and the initial-state
    guard runs after the simulation step. *)
Definition update_system_before_loop_0313 (current_time : Q)
  (c : controller) : M controller :=
  let elapsed_time := current_time - last_update_time c in
  let c1 :=
    set_clock_fields current_time
      (operating_hours c + elapsed_time / 3600.0) c in
  c2 <- (if simulation_mode c1 && negb (user_input_mode c1)
         then simulate_temperature_changes c1
         else ret c1) ;;
  ret (initial_state_guard c2).

(** [update_system] of [new_AI_UI_0313_1.py] (that version keeps no
    [data_log]). *)
Definition update_system_0313 (c : controller)
  : M (Q * Q * Q * controller) :=
  current_time <- time_time ;;
  c2 <- update_system_before_loop_0313 current_time c ;;
  let c3 := refinement_loop calculate_t5_0313 3 c2 in
  let c4 := update_flow_rates c3 in
  let c5 := update_heat_exchanger_efficiency c4 in
  c6 <- adjust_fw_pump_frequency c5 ;;
  c7 <- adjust_sw_pump_frequency c6 ;;
  let c8 := adjust_pump_count_by_load c7 in
  let c9 := check_alarm_conditions c8 in
  let c10 := set_columns (append_columns current_time c9) c9 in
  let c11 := set_columns (limit_columns (columns c10)) c10 in
  ret (T5 c11, T2 c11, DP1 c11, c11).

Definition empty_columns : series :=
  {| time_data := []; t1_data := []; t2_data := []; t4_data := [];
     t5_data := []; dp1_data := []; fw_freq_data := [];
     sw_freq_data := []; fw_count_data := []; sw_count_data := [];
     efficiency_data := []; engine_load_data := [] |}.

(** [__init__] of [new_AI_UI_0314.py]. *)
Definition new_controller : M controller :=
  now <- time_time ;;
  ret (update_flow_rates
         {| T1 := 25.0; T2 := 30.0; T4 := 36.0; T5 := 32.0; DP1 := 1.5;
            fw_pump_freq := 45.0; sw_pump_freq := 60.0;
            fw_pump_count := 2; sw_pump_count := 2;
            m_FW := 0.0; m_SW := 0.0;
            heat_exchanger_efficiency := 0.75;
            engine_load := 75.0;
            alarm_active := false; alarm_message := NoAlarmText;
            simulation_mode := true; user_input_mode := false;
            last_update_time := now; operating_hours := 0.0;
            columns := empty_columns; data_log := [];
            memory := None |}).

(** [n] consecutive periodic ticks. *)
Fixpoint run_ticks (n : nat) (c : controller) : M controller :=
  match n with
  | O => ret c
  | S n' =>
      r <- update_system c ;;
      run_ticks n' (snd r)
  end.

(** ** Reference laws and sample states used in the statements *)

(** The fresh-water law in the words of the specification, as a
    function of [delta = T4 - 36]: 60 Hz from 17 K up, 40 Hz up to 0 K,
    linear interpolation in between. *)
Definition spec_fw_law (delta : Q) : Q :=
  if Qle_bool 17 delta then 60
  else if Qle_bool delta 0 then 40
  else 40 + (delta / 17) * 20.

(** "The last true condition in the list wins": the message of the
    last entry whose condition holds, the empty text when none does. *)
Fixpoint spec_last_true (l : list (bool * alarm_text)) : alarm_text :=
  match l with
  | [] => NoAlarmText
  | (b, m) :: l' =>
      match spec_last_true l' with
      | NoAlarmText => if b then m else NoAlarmText
      | m' => m'
      end
  end.

(** The four alarm conditions of the specification, in its order. *)
Definition spec_alarm_table (c : controller) : list (bool * alarm_text) :=
  [ (Qlt_bool 40 (T5 c), FW_outlet_temperature_high (T5 c));
    (Qlt_bool 49 (T2 c), SW_outlet_temperature_high (T2 c));
    (Qlt_bool (DP1 c) 0.5, SW_inlet_pressure_low (DP1 c));
    (Qlt_bool 2.5 (DP1 c), SW_inlet_pressure_high (DP1 c)) ].

(** A world whose clock advances by half a second per reading and
    whose random source is constant. *)
Definition still_world (r : Q) : world :=
  {| clock := fun k => inject_Z (Z.of_nat k) / 2; clock_reads := 0;
     randn := fun _ => r; randn_draws := 0 |}.

(** The controller as built by the constructor. *)
Definition fresh_controller : controller :=
  fst (new_controller (still_world 0)).

(** A cold-inlet state without fresh-water flow: [T1 = 30 > T4 = 20]. *)
Definition inverted_inlets : controller :=
  set_flows 0 3000 (set_T1 30 (set_T4 20 fresh_controller)).

(** The data-model invariant on the two pump counts. *)
Definition counts_in_range (c : controller) : Prop :=
  (1 <= fw_pump_count c <= 2)%Z /\ (1 <= sw_pump_count c <= 2)%Z.


(** A controller whose sea-water memory exists, at 36 Hz with a cold
    fresh-water outlet: [T5 = 30], last adjustment ['down'], no
    recorded direction. *)
Definition cold_at_36Hz : controller :=
  set_memory
    (Some {| sw_base_freq := 60; prev_t5 := 30; t5_direction := None;
             last_adjustment := Some down |})
    (set_sw_pump_freq 36 (set_T5 30 fresh_controller)).

(** A controller that has been raising the sea-water frequency while
    [T5] rose, and now sees [T5] fall from 39 to 38: 50 Hz, last
    adjustment ['up'], recorded direction ['up']. *)
Definition reversal_at_50Hz : controller :=
  set_memory
    (Some {| sw_base_freq := 60; prev_t5 := 39; t5_direction := Some up;
             last_adjustment := Some up |})
    (set_sw_pump_freq 50 (set_T5 38 fresh_controller)).

(** The tolerance of the deadband thresholds for temperatures of
    magnitude at most 1000: [2 ^ -43]. *)
Definition deadband_tolerance : Q := 1 # 8796093022208.

(** [n] consecutive manual updates with the same readings, in a
    still world; the world is threaded from call to call. *)
Fixpoint manual_updates (n : nat) (t4 t1 dp1 load : Q) (c : controller)
  : M controller :=
  match n with
  | O => ret c
  | S n' =>
      r <- manual_update t4 t1 dp1 load c ;;
      manual_updates n' t4 t1 dp1 load (snd r)
  end.


(** The state left by one manual update with both inlets at 36: the
    solver ends with [T5 = T4 = 36]. *)
Definition equal_inlets_state : controller :=
  snd (fst (manual_update 36 36 1.5 75 fresh_controller (still_world 0))).


(** [c'] has the history of [c]: same columns, same [data_log]. *)
Definition keeps_history (c c' : controller) : Prop :=
  columns c' = columns c /\ data_log c' = data_log c.

(** The controller after one periodic tick. *)
Definition tick (c : controller) (w : world) : controller :=
  snd (fst (update_system c w)).


(** [c'] has the pump counts of [c]. *)
Definition keeps_counts (c c' : controller) : Prop :=
  fw_pump_count c' = fw_pump_count c /\ sw_pump_count c' = sw_pump_count c.


(** ** Pure cores of the entry points *)

(** The assignment at the end of [adjust_fw_pump_frequency]. *)
Definition fw_step (c : controller) : controller :=
  if negb (Qeq_bool (fw_pump_freq c) (fw_desired_freq (T4 c)))
  then set_fw_pump_freq (fw_desired_freq (T4 c)) c
  else c.

(** The controller left by [manual_update]. *)
Definition after_manual_update (t4 t1 dp1 load : Q) (c : controller)
  (w : world) : controller :=
  snd (fst (manual_update t4 t1 dp1 load c w)).



(** Ranges of the actuators and of the flows they produce. *)
Definition actuators_in_range (c : controller) : Prop :=
  counts_in_range c
  /\ 40 <= fw_pump_freq c <= 60
  /\ 35 <= sw_pump_freq c <= 60.

Definition flows_in_range (c : controller) : Prop :=
  860 <= m_FW c <= 2580 /\ 875 <= m_SW c <= 3000.


(** The two values [calculate_t5] stores in [T5] and [T2], as a
    function of the four attributes it reads (see
    [calculate_t5_factored]). *)
Definition heat_exchanger (t1 t4 mfw msw : Q) : Q * Q :=
  let C_fw := mfw * rho_fw * cp_fw / 3600 in
  let C_sw := msw * rho_sw * cp_sw / 3600 in
  let x :=
    if Qle_bool C_fw 0 || Qle_bool C_sw 0 then t4
    else if Qeq_bool (py_min C_fw C_sw) C_fw
         then t4 - epsilon * (t4 - t1)
         else t4 - (epsilon * C_sw * (t4 - t1)) / C_fw in
  let t5 := py_max t1 (py_min t4 x) in
  let t2 :=
    if Qlt_bool 0 C_sw then
      let original_t2 := t1 + (C_fw * (t4 - t5)) / C_sw in
      if Qlt_bool t4 original_t2 then py_min t4 original_t2
      else original_t2
    else t1 in
  (t5, t2).


(** The four control steps run by both entry points after the flows
    have been recomputed (the clock reads of the two frequency
    controllers are discarded, see [adjust_sw_is_sw_step]). *)
Definition control_stage (c : controller) : controller :=
  check_alarm_conditions
    (adjust_pump_count_by_load (sw_step (fw_step c))).

(** The history and clock writes at the end of [update_system]. *)
Definition record_tick (current_time : Q) (c8 : controller) : controller :=
  let c9 := set_columns (append_columns current_time c8) c8 in
  let c10 := set_data_log (data_log c9 ++ [snapshot current_time c9]) c9 in
  let c11 :=
    set_clock_fields current_time
      (operating_hours c10
       + (current_time - last_update_time c10) / 3600.0) c10 in
  set_columns (limit_columns (columns c11)) c11.

(** [c'] differs from [c] at most in the attributes written by the
    control steps: frequencies, counts, alarm and sea-water memory. *)
Definition same_plant (c c' : controller) : Prop :=
  T1 c' = T1 c /\ T2 c' = T2 c /\ T4 c' = T4 c /\ T5 c' = T5 c
  /\ DP1 c' = DP1 c /\ m_FW c' = m_FW c /\ m_SW c' = m_SW c
  /\ heat_exchanger_efficiency c' = heat_exchanger_efficiency c
  /\ engine_load c' = engine_load c
  /\ simulation_mode c' = simulation_mode c
  /\ user_input_mode c' = user_input_mode c
  /\ last_update_time c' = last_update_time c
  /\ operating_hours c' = operating_hours c
  /\ columns c' = columns c
  /\ data_log c' = data_log c.

(** The frequency ceiling of [adjust_pump_count_by_load]. *)
Definition ceiling_60Hz (f : Q) : Q := if Qlt_bool 60.0 f then 60.0 else f.


(** The lengths of the twelve columns, in the order of [save_data]. *)
Definition column_lengths (s : series) : list nat :=
  [ length (time_data s); length (t1_data s); length (t2_data s);
    length (t4_data s); length (t5_data s); length (dp1_data s);
    length (fw_freq_data s); length (sw_freq_data s);
    length (fw_count_data s); length (sw_count_data s);
    length (efficiency_data s); length (engine_load_data s) ].

(** All columns have [n] entries. *)
Definition columns_have_length (n : nat) (s : series) : Prop :=
  Forall (fun k => k = n) (column_lengths s).


(** ** RandomDataGenerator

    The class attributes of [RandomDataGenerator] are one shared
    mutable state; Python's [random] module is a second ambient
    source, threaded explicitly. *)

(** [random_sample k] is the value of the [k]-th call of
    [random.random()]. *)
Record random_source : Type := {
  random_sample : nat -> Q;
  random_calls : nat
}.

Definition random_random (s : random_source) : Q * random_source :=
  (random_sample s (random_calls s),
   {| random_sample := random_sample s;
      random_calls := S (random_calls s) |}).

(** [random.uniform(a, b)], computed by CPython as
    [a + (b - a) * random()]. *)
Definition random_uniform (a b : Q) (s : random_source)
  : Q * random_source :=
  let (u, s') := random_random s in (a + (b - a) * u, s').

Record generator : Type := {
  current_t1 : Q;
  current_t4 : Q;
  t1_direction : Z;
  t4_direction : Z
}.

Definition t1_change_rate : Q := 0.2.
Definition t4_change_rate : Q := 0.3.

(** The class attributes as the class body sets them. *)
Definition initial_generator : generator :=
  {| current_t1 := 25.0; current_t4 := 40.0;
     t1_direction := 1; t4_direction := 1 |}.

Definition set_current_t1 (v : Q) (g : generator) : generator :=
  {| current_t1 := v; current_t4 := current_t4 g;
     t1_direction := t1_direction g; t4_direction := t4_direction g |}.

Definition set_current_t4 (v : Q) (g : generator) : generator :=
  {| current_t1 := current_t1 g; current_t4 := v;
     t1_direction := t1_direction g; t4_direction := t4_direction g |}.

Definition set_t1_direction (d : Z) (g : generator) : generator :=
  {| current_t1 := current_t1 g; current_t4 := current_t4 g;
     t1_direction := d; t4_direction := t4_direction g |}.

Definition set_t4_direction (d : Z) (g : generator) : generator :=
  {| current_t1 := current_t1 g; current_t4 := current_t4 g;
     t1_direction := t1_direction g; t4_direction := d |}.

(** The three region names (Python strings, here as UTF-8 bytes). *)
Definition region_polar : string := "극지방".
Definition region_temperate : string := "온대지방".
Definition region_tropical : string := "열대지방".

(** The six range bounds returned by [set_region_temperatures]. *)
Record region_ranges : Type := {
  t1_min : Q; t1_max : Q; t4_min : Q; t4_max : Q;
  engine_load_min : Q; engine_load_max : Q
}.

(** [set_region_temperatures]: for a known region both current
    temperatures are reset before the ranges are returned. *)
Definition set_region_temperatures (region : string) (g : generator)
  : region_ranges * generator :=
  if String.eqb region region_polar then
    ({| t1_min := 0.0; t1_max := 10.0; t4_min := 40.0; t4_max := 53.0;
        engine_load_min := 60.0; engine_load_max := 100.0 |},
     set_current_t4 45.0 (set_current_t1 2.0 g))
  else if String.eqb region region_temperate then
    ({| t1_min := 10.0; t1_max := 25.0; t4_min := 38.0; t4_max := 48.0;
        engine_load_min := 40.0; engine_load_max := 80.0 |},
     set_current_t4 42.0 (set_current_t1 15.0 g))
  else if String.eqb region region_tropical then
    ({| t1_min := 25.0; t1_max := 36.0; t4_min := 36.0; t4_max := 45.0;
        engine_load_min := 20.0; engine_load_max := 60.0 |},
     set_current_t4 40.0 (set_current_t1 28.0 g))
  else
    ({| t1_min := 0.0; t1_max := 36.0; t4_min := 36.0; t4_max := 53.0;
        engine_load_min := 10.0; engine_load_max := 100.0 |},
     g).

(** The common body of the two [T1] generators, for given bounds. *)
Definition step_t1 (lo hi : Q) (g : generator) (s : random_source)
  : Q * generator * random_source :=
  let change := t1_change_rate * inject_Z (t1_direction g) in
  let (u, s1) := random_uniform 0.5 1.0 s in
  let change := change * u in
  let g1 := set_current_t1 (current_t1 g + change) g in
  let g2 :=
    if Qle_bool hi (current_t1 g1)
    then set_t1_direction (-1) (set_current_t1 hi g1)
    else if Qle_bool (current_t1 g1) lo
    then set_t1_direction 1 (set_current_t1 lo g1)
    else g1 in
  let (p, s2) := random_random s1 in
  let g3 :=
    if Qlt_bool p 0.05
    then set_t1_direction (t1_direction g2 * -1) g2
    else g2 in
  (current_t1 g3, g3, s2).

(** The common body of the two [T4] generators. *)
Definition step_t4 (lo hi : Q) (g : generator) (s : random_source)
  : Q * generator * random_source :=
  let change := t4_change_rate * inject_Z (t4_direction g) in
  let (u, s1) := random_uniform 0.5 1.0 s in
  let change := change * u in
  let g1 := set_current_t4 (current_t4 g + change) g in
  let g2 :=
    if Qle_bool hi (current_t4 g1)
    then set_t4_direction (-1) (set_current_t4 hi g1)
    else if Qle_bool (current_t4 g1) lo
    then set_t4_direction 1 (set_current_t4 lo g1)
    else g1 in
  let (p, s2) := random_random s1 in
  let g3 :=
    if Qlt_bool p 0.05
    then set_t4_direction (t4_direction g2 * -1) g2
    else g2 in
  (current_t4 g3, g3, s2).

(** [generate_t1_temperature_by_region]. *)
Definition generate_t1_temperature_by_region (region : string)
  (g : generator) (s : random_source) : Q * generator * random_source :=
  let (ranges, g0) := set_region_temperatures region g in
  step_t1 (t1_min ranges) (t1_max ranges) g0 s.

(** [generate_t4_temperature_by_region]. *)
Definition generate_t4_temperature_by_region (region : string)
  (g : generator) (s : random_source) : Q * generator * random_source :=
  let (ranges, g0) := set_region_temperatures region g in
  step_t4 (t4_min ranges) (t4_max ranges) g0 s.

(** [generate_engine_load_by_region]. *)
Definition generate_engine_load_by_region (region : string)
  (g : generator) (s : random_source) : Q * generator * random_source :=
  let (ranges, g0) := set_region_temperatures region g in
  let (current_engine_load, s1) :=
    random_uniform (engine_load_min ranges) (engine_load_max ranges) s in
  let smoothed_engine_load := current_engine_load in
  (smoothed_engine_load, g0, s1).

(** [generate_t1_temperature]. *)
Definition generate_t1_temperature (g : generator) (s : random_source)
  : Q * generator * random_source :=
  step_t1 0.0 36.0 g s.

(** [generate_t4_temperature]. *)
Definition generate_t4_temperature (g : generator) (s : random_source)
  : Q * generator * random_source :=
  step_t4 36.0 53.0 g s.

(** [generate_dp1_pressure]. *)
Definition generate_dp1_pressure (s : random_source)
  : Q * random_source :=
  random_uniform 0.5 2.5 s.

(** [generate_engine_load]. *)
Definition generate_engine_load (s : random_source)
  : Q * random_source :=
  let (distribution, s1) := random_random s in
  if Qlt_bool distribution 0.2 then random_uniform 10 30 s1
  else if Qlt_bool distribution 0.7 then random_uniform 30 70 s1
  else random_uniform 70 100 s1.

(** Every sample of the source lies in [[0, 1)], as those of
    [random.random()] do. *)
Definition unit_samples (s : random_source) : Prop :=
  forall k : nat, 0 <= random_sample s k < 1.

(** A direction attribute holds 1 or -1. *)
Definition is_direction (d : Z) : Prop := d = 1%Z \/ d = (-1)%Z.

(** A source whose every sample is [u]. *)
Definition constant_source (u : Q) : random_source :=
  {| random_sample := fun _ => u; random_calls := 0 |}.

(** ** Callers in the user interface

    Of the methods of [InputWindow] the steps that read or write
    the controller, the generator or the random source are kept, in
    the order of the source; the widget updates, the logging, the
    message boxes and the timer calls are left out. *)

(** [update_ui]: its only write is the call of [update_flow_rates]. *)
Definition update_ui (c : controller) : controller :=
  update_flow_rates c.

(** [run_auto_mode]: one step of both walks, then a manual update with
    the stored pressure and load. *)
Definition run_auto_mode (g : generator) (s : random_source)
  (c : controller) : M (controller * generator * random_source) :=
  let '(t1, g1, s1) := generate_t1_temperature g s in
  let '(t4, g2, s2) := generate_t4_temperature g1 s1 in
  let dp1 := DP1 c in
  let load := engine_load c in
  r <- manual_update t4 t1 dp1 load c ;;
  ret (snd r, g2, s2).

(** [auto_update] for the selected [region]; [auto_update_active] is
    the flag tested at its head. *)
Definition auto_update (auto_update_active : bool) (region : string)
  (g : generator) (s : random_source) (c : controller)
  : M (controller * generator * random_source) :=
  if negb auto_update_active then ret (c, g, s)
  else
    let '(t1, g1, s1) := generate_t1_temperature_by_region region g s in
    let '(t4, g2, s2) := generate_t4_temperature_by_region region g1 s1 in
    let dp1 := DP1 c in
    let load := engine_load c in
    r <- manual_update t4 t1 dp1 load c ;;
    let c1 := update_ui (snd r) in
    let c2 := check_alarm_conditions c1 in
    ret (c2, g2, s2).

(** The ways [run_manual_mode] ends: the [ValueError] handler, one of
    the three range warnings, or the completed calculation. *)
Inductive manual_mode_result : Type :=
| not_a_number
| t1_out_of_range
| dp1_out_of_range
| engine_load_out_of_range
| calculation_done.

(** [run_manual_mode]; an entry is [None] when [float] raises
    [ValueError] on its text. *)
Definition run_manual_mode
  (t4_entry t1_entry dp1_entry engine_load_entry : option Q)
  (c : controller) : M (manual_mode_result * controller) :=
  match t4_entry, t1_entry, dp1_entry, engine_load_entry with
  | Some t4_input, Some t1_input, Some dp1_input, Some engine_load_input =>
      if negb (Qle_bool 0 t1_input && Qle_bool t1_input 36)
      then ret (t1_out_of_range, c)
      else if negb (Qle_bool 0.1 dp1_input && Qle_bool dp1_input 3.0)
      then ret (dp1_out_of_range, c)
      else if negb (Qle_bool 0 engine_load_input
                    && Qle_bool engine_load_input 100)
      then ret (engine_load_out_of_range, c)
      else
        r <- manual_update t4_input t1_input dp1_input
               engine_load_input c ;;
        let c1 := update_ui (snd r) in
        let c2 := check_alarm_conditions c1 in
        ret (calculation_done, c2)
  | _, _, _, _ => ret (not_a_number, c)
  end.

(** ** Export *)

(** A cell of the CSV file. *)
Inductive cell : Type :=
| cell_text (s : string)
| cell_float (x : Q)
| cell_int (n : Z).

Definition save_data_header : list string :=
  [ "Time"; "T1"; "T2"; "T4"; "T5"; "DP1"; "FW_Freq"; "SW_Freq";
    "FW_Count"; "SW_Count"; "Efficiency"; "Engine_Load" ]%string.

(** The list comprehension over [time_data]; [format_time] is
    [datetime.fromtimestamp(t).strftime(...)], [None] when it raises. *)
Fixpoint format_times (format_time : Q -> option string) (l : list Q)
  : option (list string) :=
  match l with
  | [] => Some []
  | t :: l' =>
      match format_time t with
      | None => None
      | Some x =>
          match format_times format_time l' with
          | None => None
          | Some xs => Some (x :: xs)
          end
      end
  end.

(** The values of the dict [data], in key order. *)
Definition save_data_table (times : list string) (s : series)
  : list (list cell) :=
  [ map cell_text times; map cell_float (t1_data s);
    map cell_float (t2_data s); map cell_float (t4_data s);
    map cell_float (t5_data s); map cell_float (dp1_data s);
    map cell_float (fw_freq_data s); map cell_float (sw_freq_data s);
    map cell_int (fw_count_data s); map cell_int (sw_count_data s);
    map cell_float (efficiency_data s);
    map cell_float (engine_load_data s) ].

(** [[data[key][i] for key in data.keys()]]; [None] is the
    [IndexError] of a column shorter than [i + 1]. *)
Fixpoint table_row (table : list (list cell)) (i : nat)
  : option (list cell) :=
  match table with
  | [] => Some []
  | col :: rest =>
      match nth_error col i with
      | None => None
      | Some x =>
          match table_row rest i with
          | None => None
          | Some r => Some (x :: r)
          end
      end
  end.

(** The loop over the row indices: the rows written, and whether it
    ran to its end. *)
Fixpoint write_rows (table : list (list cell)) (indices : list nat)
  : list (list cell) * bool :=
  match indices with
  | [] => ([], true)
  | i :: rest =>
      match table_row table i with
      | None => ([], false)
      | Some r =>
          let (rs, ok) := write_rows table rest in (r :: rs, ok)
      end
  end.

(** [save_data]: the value returned and, when the file was opened, the
    header and the rows written.  [open_ok] says whether [open]
    succeeds; errors while writing an open file are not modelled. *)
Definition save_data (format_time : Q -> option string) (open_ok : bool)
  (c : controller) : bool * option (list string * list (list cell)) :=
  let s := columns c in
  match time_data s with
  | [] => (false, None)
  | _ :: _ =>
      match format_times format_time (time_data s) with
      | None => (false, None)
      | Some times =>
          if negb open_ok then (false, None)
          else
            let data := save_data_table times s in
            let (rows, ok) :=
              write_rows data (seq 0 (length (time_data s))) in
            (ok, Some (save_data_header, rows))
      end
  end.

(** The stored flows are those of the stored frequencies and counts. *)
Definition flows_follow_actuators (c : controller) : Prop :=
  m_FW c = 1290.0 * (fw_pump_freq c / 60.0) * inject_Z (fw_pump_count c)
  /\ m_SW c
     = 1500.0 * (sw_pump_freq c / 60.0) * inject_Z (sw_pump_count c).

(** The controller left by [run_auto_mode] or [auto_update]. *)
Definition ui_controller
  (r : controller * generator * random_source * world) : controller :=
  fst (fst (fst r)).

(** The three range tests of [run_manual_mode]. *)
Definition accepted_inputs (t1 dp1 load : Q) : Prop :=
  0 <= t1 <= 36 /\ 0.1 <= dp1 <= 3.0 /\ 0 <= load <= 100.

(** * Properties *)

(** ** Tests on rationals *)

Lemma Qlt_bool_iff (a b : Q) : Qlt_bool a b = true <-> a < b.
Proof.
  unfold Qlt_bool. rewrite negb_true_iff.
  destruct (Qle_bool b a) eqn:E.
  - apply Qle_bool_iff in E. split; [discriminate | intro H].
    exfalso. apply (Qlt_not_le _ _ H E).
  - split; [intros _ | reflexivity].
    apply Qnot_le_lt. intro H. apply Qle_bool_iff in H. congruence.
Qed.

Lemma Qlt_bool_spec (a b : Q) : reflect (a < b) (Qlt_bool a b).
Proof.
  destruct (Qlt_bool a b) eqn:E; constructor.
  - now apply Qlt_bool_iff.
  - intro H. apply Qlt_bool_iff in H. congruence.
Qed.

Lemma Qle_bool_spec (a b : Q) : reflect (a <= b) (Qle_bool a b).
Proof.
  destruct (Qle_bool a b) eqn:E; constructor.
  - now apply Qle_bool_iff.
  - intro H. apply Qle_bool_iff in H. congruence.
Qed.

Lemma Qeq_bool_spec (a b : Q) : reflect (a == b) (Qeq_bool a b).
Proof.
  destruct (Qeq_bool a b) eqn:E; constructor.
  - now apply Qeq_bool_iff.
  - now apply Qeq_bool_neq.
Qed.

Lemma py_min_cases (a b : Q) :
  (b < a /\ py_min a b = b) \/ (a <= b /\ py_min a b = a).
Proof.
  unfold py_min. destruct (Qlt_bool_spec b a) as [H | H]; [left | right].
  - now split.
  - split; [lra | reflexivity].
Qed.

Lemma py_max_cases (a b : Q) :
  (a < b /\ py_max a b = b) \/ (b <= a /\ py_max a b = a).
Proof.
  unfold py_max. destruct (Qlt_bool_spec a b) as [H | H]; [left | right].
  - now split.
  - split; [lra | reflexivity].
Qed.

(** The two-sided clamp [max(lo, min(hi, x))] used throughout. *)
Lemma clamp_bounds (lo hi x : Q) :
  lo <= hi -> lo <= py_max lo (py_min hi x) <= hi.
Proof.
  intro H.
  destruct (py_min_cases hi x) as [[? ->] | [? ->]];
    [destruct (py_max_cases lo x) as [[? ->] | [? ->]]
    | destruct (py_max_cases lo hi) as [[? ->] | [? ->]]]; lra.
Qed.

Lemma clamp_inside (lo hi x : Q) :
  lo <= x <= hi -> py_max lo (py_min hi x) == x.
Proof.
  intros [H1 H2].
  destruct (py_min_cases hi x) as [[? ->] | [? ->]];
    [destruct (py_max_cases lo x) as [[? ->] | [? ->]]
    | destruct (py_max_cases lo hi) as [[? ->] | [? ->]]]; lra.
Qed.

Lemma Qdiv_nonneg (a d : Q) : 0 <= a -> 0 < d -> 0 <= a / d.
Proof. intros Ha Hd. apply Qle_shift_div_l; [assumption | lra]. Qed.

Lemma capacity_rate_sign (m k1 k2 : Q) :
  0 < k1 -> 0 < k2 ->
  (0 <= m -> 0 <= m * k1 * k2 / 3600)
  /\ (m <= 0 -> m * k1 * k2 / 3600 <= 0)
  /\ (0 < m -> 0 < m * k1 * k2 / 3600).
Proof.
  intros H1 H2.
  assert (E : m * k1 * k2 / 3600 == m * (k1 * k2) * (1 # 3600)) by field.
  assert (P : 0 < k1 * k2) by nra.
  rewrite E. repeat split; intro; nra.
Qed.

(** ** C1: the solver keeps both outlets between the inlets *)

(** What the solver leaves in [T5] and [T2], for any value [x] held by
    [T5] before the two clamps. *)
Lemma solver_outlet_bounds (t1 t4 x C_fw C_sw : Q) :
  t1 <= t4 -> 0 <= C_fw -> 0 < C_sw ->
  let t5 := py_max t1 (py_min t4 x) in
  let t2 := t1 + (C_fw * (t4 - t5)) / C_sw in
  t1 <= t5 <= t4 /\ t1 <= t2.
Proof.
  intros H Hfw Hsw t5 t2.
  assert (B : t1 <= t5 <= t4) by (apply clamp_bounds; assumption).
  split; [exact B |].
  assert (0 <= (C_fw * (t4 - t5)) / C_sw).
  { apply Qdiv_nonneg; [| assumption]. nra. }
  unfold t2. lra.
Qed.

Ltac split_tests :=
  repeat match goal with
         | |- context [if ?b then _ else _] => destruct b
         end.

Lemma calculate_t5_inlets (c : controller) :
  T1 (calculate_t5 c) = T1 c /\ T4 (calculate_t5 c) = T4 c.
Proof. unfold calculate_t5. split_tests; split; reflexivity. Qed.

Lemma calculate_t5_0313_inlets (c : controller) :
  T1 (calculate_t5_0313 c) = T1 c /\ T4 (calculate_t5_0313 c) = T4 c.
Proof. unfold calculate_t5_0313. split_tests; split; reflexivity. Qed.

Lemma calculate_t5_bounds_0314 (c : controller) :
  0 <= m_FW c -> 0 <= m_SW c -> T1 c <= T4 c ->
  T1 c <= T5 (calculate_t5 c) <= T4 c
  /\ T1 c <= T2 (calculate_t5 c) <= T4 c.
Proof.
  intros Hfw Hsw H.
  destruct (capacity_rate_sign (m_FW c) rho_fw cp_fw) as (Cfw & _ & _);
    try reflexivity.
  specialize (Cfw Hfw).
  unfold calculate_t5.
  set (C_fw := m_FW c * rho_fw * cp_fw / 3600) in *.
  set (C_sw := m_SW c * rho_sw * cp_sw / 3600) in *.
  set (c1 := if Qle_bool C_fw 0 || Qle_bool C_sw 0 then _ else _).
  assert (I1 : T1 c1 = T1 c /\ T4 c1 = T4 c)
    by (unfold c1; split_tests; split; reflexivity).
  destruct I1 as [E1 E4]. cbn [T1 T2 T4 T5 set_T5 set_T2].
  rewrite E1, E4.
  destruct (Qlt_bool_spec 0 C_sw) as [Hpos | Hnpos];
    cbn [T1 T2 T4 T5 set_T5 set_T2]; rewrite ?E1, ?E4.
  - destruct (solver_outlet_bounds (T1 c) (T4 c) (T5 c1) C_fw C_sw
                H Cfw Hpos) as [B5 B2].
    set (t5 := py_max (T1 c) (py_min (T4 c) (T5 c1))) in *.
    set (t2 := T1 c + C_fw * (T4 c - t5) / C_sw) in *.
    destruct (Qlt_bool_spec (T4 c) t2) as [Hc | Hc];
      cbn [T1 T2 T4 T5 set_T5 set_T2]; rewrite ?E1, ?E4;
      (split; [exact B5 |]).
    + destruct (py_min_cases (T4 c) t2) as [[? ->] | [? ->]]; lra.
    + lra.
  - split; [apply clamp_bounds; assumption | lra].
Qed.

Lemma calculate_t5_bounds_0313 (c : controller) :
  0 <= m_FW c -> 0 <= m_SW c -> T1 c <= T4 c ->
  T1 c <= T5 (calculate_t5_0313 c) <= T4 c
  /\ T1 c <= T2 (calculate_t5_0313 c) <= T4 c.
Proof.
  intros Hfw Hsw H.
  destruct (capacity_rate_sign (m_FW c) rho_fw cp_fw) as (Cfw & _ & _);
    try reflexivity.
  specialize (Cfw Hfw).
  unfold calculate_t5_0313.
  set (C_fw := m_FW c * rho_fw * cp_fw / 3600) in *.
  set (C_sw := m_SW c * rho_sw * cp_sw / 3600) in *.
  set (c1 := if Qle_bool C_fw 0 || Qle_bool C_sw 0 then _ else _).
  assert (I1 : T1 c1 = T1 c /\ T4 c1 = T4 c)
    by (unfold c1; split_tests; split; reflexivity).
  destruct I1 as [E1 E4]. cbn [T1 T2 T4 T5 set_T5 set_T2].
  rewrite E1, E4.
  destruct (Qlt_bool_spec 0 C_sw) as [Hpos | Hnpos];
    cbn [T1 T2 T4 T5 set_T5 set_T2]; rewrite ?E1, ?E4.
  - destruct (solver_outlet_bounds (T1 c) (T4 c) (T5 c1) C_fw C_sw
                H Cfw Hpos) as [B5 B2].
    set (t5 := py_max (T1 c) (py_min (T4 c) (T5 c1))) in *.
    set (t2 := T1 c + C_fw * (T4 c - t5) / C_sw) in *.
    split; [exact B5 |].
    destruct (py_min_cases (T4 c) t2) as [[? ->] | [? ->]]; lra.
  - split; [apply clamp_bounds; assumption | lra].
Qed.

(** C1.  With nonnegative flows and [T1 <= T4], the state left by the
    thermal solver satisfies [T1 <= T5 <= T4] and [T1 <= T2 <= T4];
    this holds for [calculate_t5] of both source versions. *)
Theorem solver_outlets_between_inlets (c : controller) :
  0 <= m_FW c -> 0 <= m_SW c -> T1 c <= T4 c ->
  (let c' := calculate_t5 c in
   T1 c' <= T5 c' <= T4 c' /\ T1 c' <= T2 c' <= T4 c')
  /\ (let c' := calculate_t5_0313 c in
      T1 c' <= T5 c' <= T4 c' /\ T1 c' <= T2 c' <= T4 c').
Proof.
  intros Hfw Hsw H. split; intro c'; unfold c'.
  - destruct (calculate_t5_inlets c) as [-> ->].
    now apply calculate_t5_bounds_0314.
  - destruct (calculate_t5_0313_inlets c) as [-> ->].
    now apply calculate_t5_bounds_0313.
Qed.

Lemma solver_outlets_between_inlets_witness :
  (0 <= m_FW fresh_controller /\ 0 <= m_SW fresh_controller
   /\ T1 fresh_controller <= T4 fresh_controller)
  /\ (let c' := calculate_t5 fresh_controller in
      T1 c' <= T5 c' <= T4 c' /\ T1 c' <= T2 c' <= T4 c').
Proof.
  assert (H : 0 <= m_FW fresh_controller /\ 0 <= m_SW fresh_controller
              /\ T1 fresh_controller <= T4 fresh_controller)
    by (repeat split; vm_compute; discriminate).
  split; [exact H |].
  destruct H as (H1 & H2 & H3).
  exact (proj1 (solver_outlets_between_inlets fresh_controller H1 H2 H3)).
Defined.

(** ** C2: the zero-flow fallback *)

(** C2 as stated fails when the sea-water inlet is warmer than the
    fresh-water inlet: without fresh-water flow, [T1 = 30] and
    [T4 = 20], the lower clamp lifts [T5] to [T1] and the upper clamp
    cuts [T2] to [T4]. *)
Lemma zero_flow_fallback_counterexample :
  ~ (forall c : controller,
        m_FW c == 0 \/ m_SW c == 0 ->
        T5 (calculate_t5 c) == T4 c /\ T2 (calculate_t5 c) == T1 c).
Proof.
  intro H.
  destruct (H inverted_inlets) as [H5 _]; [left; reflexivity |].
  vm_compute in H5. discriminate H5.
Qed.

Example inverted_inlets_run :
  T5 (calculate_t5 inverted_inlets) == 30
  /\ T2 (calculate_t5 inverted_inlets) == 20.
Proof. split; reflexivity. Qed.

(** C2, amended.  When [T1 <= T4] and a flow is zero (more generally
    when a heat-capacity rate is not positive), the solver leaves
    [T5 = T4] and [T2 = T1]. *)
Theorem zero_flow_fallback (c : controller) :
  T1 c <= T4 c ->
  m_FW c <= 0 \/ m_SW c <= 0 ->
  T5 (calculate_t5 c) == T4 c /\ T2 (calculate_t5 c) == T1 c.
Proof.
  intros H Hz.
  destruct (capacity_rate_sign (m_FW c) rho_fw cp_fw) as (_ & Nfw & _);
    try reflexivity.
  destruct (capacity_rate_sign (m_SW c) rho_sw cp_sw) as (_ & Nsw & _);
    try reflexivity.
  unfold calculate_t5.
  set (C_fw := m_FW c * rho_fw * cp_fw / 3600) in *.
  set (C_sw := m_SW c * rho_sw * cp_sw / 3600) in *.
  assert (G : Qle_bool C_fw 0 || Qle_bool C_sw 0 = true).
  { apply orb_true_iff.
    destruct Hz as [Hz | Hz]; [left | right];
      apply Qle_bool_iff; auto. }
  rewrite G. cbn [T1 T2 T4 T5 set_T5 set_T2].
  assert (E5 : py_max (T1 c) (py_min (T4 c) (T4 c)) == T4 c)
    by (apply clamp_inside; lra).
  destruct (Qlt_bool_spec 0 C_sw) as [Hpos | Hnpos];
    cbn [T1 T2 T4 T5 set_T5 set_T2].
  - set (t5 := py_max (T1 c) (py_min (T4 c) (T4 c))) in *.
    assert (E2 : T1 c + C_fw * (T4 c - t5) / C_sw == T1 c).
    { rewrite E5. field. lra. }
    destruct (Qlt_bool_spec (T4 c) (T1 c + C_fw * (T4 c - t5) / C_sw))
      as [Hc | Hc]; cbn [T1 T2 T4 T5 set_T5 set_T2].
    + rewrite E2 in Hc. lra.
    + split; assumption.
  - split; [assumption | reflexivity].
Qed.

Lemma zero_flow_fallback_witness :
  let c := set_flows 0 3000 fresh_controller in
  (T1 c <= T4 c /\ (m_FW c <= 0 \/ m_SW c <= 0))
  /\ T5 (calculate_t5 c) == T4 c /\ T2 (calculate_t5 c) == T1 c.
Proof.
  intro c.
  assert (H1 : T1 c <= T4 c) by (vm_compute; discriminate).
  assert (H2 : m_FW c <= 0 \/ m_SW c <= 0)
    by (left; vm_compute; discriminate).
  split; [split; assumption |].
  exact (zero_flow_fallback c H1 H2).
Defined.

(** ** C3 and C4: the sea-water hysteresis step *)

Lemma adjust_sw_is_sw_step (c : controller) (w : world) :
  fst (adjust_sw_pump_frequency c w) = sw_step c.
Proof. reflexivity. Qed.

Lemma round_half_even_error (n d : Z) :
  (0 < d)%Z ->
  (2 * Z.abs (round_half_even n d * d - n) <= d)%Z.
Proof.
  intro Hd. unfold round_half_even.
  assert (E := Z.div_mod n d ltac:(lia)).
  assert (B := Z.mod_pos_bound n d Hd).
  destruct (Z.compare_spec (2 * (n mod d)) d);
    [destruct (Z.even (n / d)) | |]; nia.
Qed.

Lemma binary64_exponent_small (n d : Z) :
  (0 < n)%Z -> (0 < d)%Z -> (n < 1024 * d)%Z ->
  (binary64_exponent n d <= -43)%Z.
Proof.
  intros Hn Hd H. unfold binary64_exponent.
  destruct (Z.log2_spec n Hn) as [A1 A2].
  destruct (Z.log2_spec d Hd) as [B1 B2].
  assert (La := Z.log2_nonneg n). assert (Lb := Z.log2_nonneg d).
  assert (L : (Z.log2 n <= Z.log2 d + 10)%Z).
  { apply Z.lt_succ_r.
    apply (Z.pow_lt_mono_r_iff 2); [lia | lia |].
    replace (Z.succ (Z.log2 d + 10)) with (10 + Z.succ (Z.log2 d))%Z by lia.
    rewrite Z.pow_add_r by lia.
    change (2 ^ 10)%Z with 1024%Z. nia. }
  destruct (Z.eq_dec (Z.log2 n - Z.log2 d - 52) (-42)) as [E | E].
  - rewrite E. cbn [Z.opp Z.max Z.compare].
    change (Z.max 0 42) with 42%Z. change (Z.max 0 (-42)) with 0%Z.
    destruct (Z.ltb_spec (n * 2 ^ 42) (d * 2 ^ 0 * 2 ^ 52)) as [T | T].
    + lia.
    + exfalso. change (2 ^ 0)%Z with 1%Z in T.
      change (2 ^ 52)%Z with (1024 * 2 ^ 42)%Z in T.
      assert (P : (0 < 2 ^ 42)%Z) by (apply Z.pow_pos_nonneg; lia).
      nia.
  - destruct (_ <? _)%Z; lia.
Qed.

Lemma binary64_round_pos_close (n d : positive) :
  (Zpos n < 1024 * Zpos d)%Z ->
  Qabs (binary64_round_pos (Zpos n) (Zpos d) - (Zpos n # d))
  <= 1 # 17592186044416.
Proof.
  intro H.
  assert (E := binary64_exponent_small (Zpos n) (Zpos d)
                 ltac:(lia) ltac:(lia) H).
  unfold binary64_round_pos.
  generalize dependent (binary64_exponent (Zpos n) (Zpos d)). intros e E.
  replace e with (- - e)%Z by lia.
  set (k := (- e)%Z). assert (Hk : (43 <= k)%Z) by lia.
  clearbody k. clear E e.
  rewrite Z.opp_involutive.
  rewrite (Z.max_l 0 (- k)) by lia. rewrite (Z.max_r 0 k) by lia.
  change (2 ^ 0)%Z with 1%Z. rewrite !Z.mul_1_r.
  assert (P : (0 < 2 ^ k)%Z) by (apply Z.pow_pos_nonneg; lia).
  assert (P44 : (2 ^ 44 <= 2 * 2 ^ k)%Z).
  { replace (2 * 2 ^ k)%Z with (2 ^ (k + 1))%Z
      by (rewrite Z.pow_add_r by lia; lia).
    apply Z.pow_le_mono_r; lia. }
  change (2 ^ 44)%Z with 17592186044416%Z in P44.
  assert (R := round_half_even_error (Zpos n * 2 ^ k) (Zpos d) ltac:(lia)).
  set (m := round_half_even (Zpos n * 2 ^ k) (Zpos d)) in *. clearbody m.
  apply Qabs_Qle_condition.
  unfold Qle, Qminus, Qplus, Qopp. cbn [Qnum Qden].
  rewrite !Pos2Z.inj_mul, !Z2Pos.id by exact P.
  split; nia.
Qed.

(** Below 1024 in magnitude a double is within [2 ^ -44] of the
    rational it rounds. *)
Lemma binary64_round_close (x : Q) :
  Qabs x < 1024 ->
  Qabs (binary64_round x - x) <= 1 # 17592186044416.
Proof.
  destruct x as [n d]. intro H.
  unfold binary64_round. cbn [Qnum Qden].
  destruct n as [| n | n].
  - apply Qabs_Qle_condition. split; unfold Qle; cbn; lia.
  - apply binary64_round_pos_close.
    unfold Qabs, Qlt in H. cbn in H. lia.
  - assert (G : Qabs (binary64_round_pos (Zpos n) (Zpos d) - (Zpos n # d))
                <= 1 # 17592186044416).
    { apply binary64_round_pos_close.
      unfold Qabs, Qlt in H. cbn in H. lia. }
    apply Qabs_Qle_condition in G. apply Qabs_Qle_condition.
    assert (N : (Zneg n # d) == - (Zpos n # d)) by reflexivity.
    rewrite N. lra.
Qed.

(** The two thresholds of the deadband are [prev_t5 + 0.05] and
    [prev_t5 - 0.05] up to [2 ^ -43]. *)
Lemma deadband_thresholds (p : Q) :
  Qabs p <= 1000 ->
  Qabs (binary64_add p (binary64_round 0.05) - (p + 0.05))
  <= deadband_tolerance
  /\ Qabs (binary64_sub p (binary64_round 0.05) - (p - 0.05))
     <= deadband_tolerance.
Proof.
  intro H. apply Qabs_Qle_condition in H.
  assert (C : 0.05 <= binary64_round 0.05 <= 0.05 + (1 # 17592186044416))
    by (split; vm_compute; discriminate).
  unfold binary64_add, binary64_sub, deadband_tolerance.
  generalize dependent (binary64_round 0.05). intros k C.
  assert (A : Qabs (binary64_round (p + k) - (p + k))
              <= 1 # 17592186044416).
  { apply binary64_round_close. apply Qabs_Qlt_condition. lra. }
  assert (B : Qabs (binary64_round (p - k) - (p - k))
              <= 1 # 17592186044416).
  { apply binary64_round_close. apply Qabs_Qlt_condition. lra. }
  apply Qabs_Qle_condition in A. apply Qabs_Qle_condition in B.
  generalize dependent (binary64_round (p + k)).
  generalize dependent (binary64_round (p - k)).
  intros x B y A.
  split; apply Qabs_Qle_condition; lra.
Qed.

Lemma sw_current_direction_deadband (t5 : Q) (m : sw_memory) :
  let rising := binary64_add (prev_t5 m) (binary64_round 0.05) < t5 in
  let falling := t5 < binary64_sub (prev_t5 m) (binary64_round 0.05) in
  (rising -> sw_current_direction t5 m = Some up)
  /\ (~ rising -> falling -> sw_current_direction t5 m = Some down)
  /\ (~ rising -> ~ falling ->
      sw_current_direction t5 m = t5_direction m).
Proof.
  cbv zeta. unfold sw_current_direction.
  destruct (Qlt_bool_spec
              (binary64_add (prev_t5 m) (binary64_round 0.05)) t5);
    destruct (Qlt_bool_spec t5
                (binary64_sub (prev_t5 m) (binary64_round 0.05)));
    repeat split; intros; try reflexivity; contradiction.
Qed.

Lemma sw_current_direction_tolerance (t5 : Q) (m : sw_memory) :
  Qabs (prev_t5 m) <= 1000 ->
  (prev_t5 m + 0.05 + deadband_tolerance < t5 ->
   sw_current_direction t5 m = Some up)
  /\ (t5 < prev_t5 m - 0.05 - deadband_tolerance ->
      sw_current_direction t5 m = Some down)
  /\ (prev_t5 m - 0.05 + deadband_tolerance <= t5
      <= prev_t5 m + 0.05 - deadband_tolerance ->
      sw_current_direction t5 m = t5_direction m).
Proof.
  intro H.
  destruct (deadband_thresholds (prev_t5 m) H) as [A B].
  apply Qabs_Qle_condition in A. apply Qabs_Qle_condition in B.
  unfold sw_current_direction.
  generalize dependent (binary64_add (prev_t5 m) (binary64_round 0.05)).
  generalize dependent (binary64_sub (prev_t5 m) (binary64_round 0.05)).
  intros lo B hi A.
  assert (T : 0 < deadband_tolerance) by reflexivity.
  generalize dependent deadband_tolerance. intros tol B A T.
  destruct (Qlt_bool_spec hi t5); destruct (Qlt_bool_spec t5 lo);
    repeat split; intros; try reflexivity; lra.
Qed.

Lemma sw_direction_changed_iff (m : sw_memory) (cur : option direction) :
  sw_direction_changed m cur = true
  <-> exists a b, t5_direction m = Some a /\ cur = Some b /\ a <> b.
Proof.
  unfold sw_direction_changed.
  destruct (t5_direction m) as [[|]|], cur as [[|]|]; cbn; split;
    try discriminate; try reflexivity;
    try (intros (a & b & Ha & Hb & Hab); congruence).
  - intros _. exists up, down. repeat split; discriminate.
  - intros _. exists down, up. repeat split; discriminate.
Qed.

(** The test [last_adjustment != d or not direction_changed] fails
    exactly in the hold case. *)
Lemma sw_hold_test (la : option direction) (d : direction) (ch : bool) :
  opt_direction_neb la (Some d) || negb ch = false
  <-> la = Some d /\ ch = true.
Proof.
  destruct la as [[|]|], d, ch; cbn; split;
    try discriminate; try (intros [? ?]; congruence); auto.
Qed.

Lemma sw_decision_high (t5 f : Q) (m : sw_memory) (ch : bool) :
  36 < t5 ->
  (last_adjustment m = Some up /\ ch = true ->
   sw_decision t5 f m ch = (f, last_adjustment m))
  /\ (~ (last_adjustment m = Some up /\ ch = true) ->
      sw_decision t5 f m ch = (f + 2.0, Some up)).
Proof.
  intro H. unfold sw_decision.
  destruct (Qlt_bool_spec 36.0 t5) as [_ | N]; [| lra].
  destruct (opt_direction_neb (last_adjustment m) (Some up) || negb ch)
    eqn:E; split; intro G; try reflexivity.
  - apply sw_hold_test in G. congruence.
  - apply sw_hold_test in E. contradiction.
Qed.

Lemma sw_decision_low (t5 f : Q) (m : sw_memory) (ch : bool) :
  t5 < 34 ->
  (last_adjustment m = Some down /\ ch = true ->
   sw_decision t5 f m ch = (f, last_adjustment m))
  /\ (~ (last_adjustment m = Some down /\ ch = true) ->
      sw_decision t5 f m ch = (f - 2.0, Some down)).
Proof.
  intro H. unfold sw_decision.
  destruct (Qlt_bool_spec 36.0 t5) as [N | _]; [lra |].
  destruct (Qlt_bool_spec t5 34.0) as [_ | N]; [| lra].
  destruct (opt_direction_neb (last_adjustment m) (Some down) || negb ch)
    eqn:E; split; intro G; try reflexivity.
  - apply sw_hold_test in G. congruence.
  - apply sw_hold_test in E. contradiction.
Qed.

Lemma sw_decision_dead_zone (t5 f : Q) (m : sw_memory) (ch : bool) :
  34 <= t5 <= 36 -> sw_decision t5 f m ch = (f, last_adjustment m).
Proof.
  intro H. unfold sw_decision.
  destruct (Qlt_bool_spec 36.0 t5) as [N | _]; [lra |].
  destruct (Qlt_bool_spec t5 34.0) as [N | _]; [lra | reflexivity].
Qed.

(** What [sw_step] commits, in terms of the decision taken. *)
Lemma sw_step_commit (c : controller) :
  let c0 := fst (sw_first_call c) in
  let m := snd (sw_first_call c) in
  let current := sw_current_direction (T5 c0) m in
  let d := sw_decision (T5 c0) (sw_pump_freq c0) m
             (sw_direction_changed m current) in
  sw_pump_freq (sw_step c) == py_max 35.0 (py_min 60.0 (fst d))
  /\ memory (sw_step c) =
     Some {| sw_base_freq := sw_base_freq m; prev_t5 := T5 c0;
             t5_direction := current; last_adjustment := snd d |}.
Proof.
  unfold sw_step. destruct (sw_first_call c) as [c0 m]. cbn [fst snd].
  destruct (sw_decision _ _ _ _) as [desired0 adj]. cbn [fst snd].
  destruct (Qeq_bool_spec (sw_pump_freq c0)
              (py_max 35.0 (py_min 60.0 desired0))) as [E | E];
    cbn; split; try reflexivity. exact E.
Qed.

(** At the edge of the band the rounded threshold decides: with
    [prev_t5 = 27.75] the sum [prev_t5 + 0.05] is the double
    [7825004352556237 / 2 ^ 48], which lies above 27.8, so a [T5] equal
    to that double is not a rise although it exceeds 27.8. *)
Example deadband_edge :
  let t5 := 7825004352556237 # 281474976710656 in
  let m := {| sw_base_freq := 60; prev_t5 := 27.75;
              t5_direction := None; last_adjustment := None |} in
  27.75 + 0.05 < t5
  /\ binary64_add 27.75 (binary64_round 0.05) == t5
  /\ sw_current_direction t5 m = None.
Proof.
  cbv zeta. split; [vm_compute; reflexivity |].
  split; vm_compute; reflexivity.
Qed.

(** Three calls of the controller on a new instance with the doubles
    that [calculate_t5] stores for [T4] = 36.1, 36.3, 35.3 and
    [T1 = 31] (32.275, 32.325 and 32.075 to the nearest double).  The
    second reading is a rise, since it exceeds the binary64 sum of the
    first and 0.05, and the third is a fall: the direction has
    changed, the last adjustment was ['down'], and the frequency is
    held at 56 Hz. *)
Example deadband_three_calls :
  let d1 := 4542302436668211 # 140737488355328 in
  let d2 := 2274669655542989 # 70368744177664 in
  let d3 := 2257077469498573 # 70368744177664 in
  let c1 := sw_step (set_T5 d1 fresh_controller) in
  let c2 := sw_step (set_T5 d2 c1) in
  let c3 := sw_step (set_T5 d3 c2) in
  (sw_pump_freq c1 == 58 /\ sw_pump_freq c2 == 56
   /\ sw_pump_freq c3 == 56)
  /\ (option_map t5_direction (memory c1) = Some None
      /\ option_map t5_direction (memory c2) = Some (Some up)
      /\ option_map t5_direction (memory c3) = Some (Some down))
  /\ option_map last_adjustment (memory c3) = Some (Some down).
Proof.
  cbv zeta. repeat split; vm_compute; reflexivity.
Qed.

Lemma sw_first_call_cases (c : controller) (m : sw_memory) (f : Q) :
  (memory c = Some m /\ f = sw_pump_freq c)
  \/ (memory c = None
      /\ m = {| sw_base_freq := 60.0; prev_t5 := T5 c;
                t5_direction := None; last_adjustment := None |}
      /\ f = 60.0) ->
  snd (sw_first_call c) = m
  /\ T5 (fst (sw_first_call c)) = T5 c
  /\ sw_pump_freq (fst (sw_first_call c)) = f.
Proof.
  unfold sw_first_call.
  intros [[E ->] | (E & -> & ->)]; rewrite E; repeat split.
Qed.

(** C3.  The rule is stated on the stored memory [m] and the stored
    frequency [f] of the controller (on the first call: the memory and
    the 60 Hz the method has just initialised).  The direction of [T5]
    is ['up'] above the binary64 sum [prev_t5 + 0.05], ['down'] below
    the binary64 difference [prev_t5 - 0.05], and the previous
    direction in between; for temperatures of magnitude up to 1000
    these thresholds are [prev_t5 + 0.05] and [prev_t5 - 0.05] within
    [2 ^ -43].  Above 36 the desired frequency is [f + 2] and
    [last_adjustment] becomes ['up'], unless [last_adjustment] is
    ['up'] and the direction has changed, in which case the frequency
    is held; below 34 the mirrored rule applies; between 34 and 36 the
    frequency is held.  The committed frequency is the desired one
    clamped to [35,60], and the memory afterwards holds [T5], the
    direction and the adjustment. *)
Theorem sw_hysteresis_rule
  (c : controller) (w : world) (m : sw_memory) (f : Q) :
  (memory c = Some m /\ f = sw_pump_freq c)
  \/ (memory c = None
      /\ m = {| sw_base_freq := 60.0; prev_t5 := T5 c;
                t5_direction := None; last_adjustment := None |}
      /\ f = 60.0) ->
  let c' := fst (adjust_sw_pump_frequency c w) in
  let t5 := T5 c in
  let rising := binary64_add (prev_t5 m) (binary64_round 0.05) < t5 in
  let falling := t5 < binary64_sub (prev_t5 m) (binary64_round 0.05) in
  exists (current adjustment : option direction) (changed : bool)
         (desired : Q),
    ((rising -> current = Some up)
     /\ (~ rising -> falling -> current = Some down)
     /\ (~ rising -> ~ falling -> current = t5_direction m))
    /\ (Qabs (prev_t5 m) <= 1000 ->
        (prev_t5 m + 0.05 + deadband_tolerance < t5 -> current = Some up)
        /\ (t5 < prev_t5 m - 0.05 - deadband_tolerance ->
            current = Some down)
        /\ (prev_t5 m - 0.05 + deadband_tolerance <= t5
            <= prev_t5 m + 0.05 - deadband_tolerance ->
            current = t5_direction m))
    /\ (changed = true
        <-> exists a b,
            t5_direction m = Some a /\ current = Some b /\ a <> b)
    /\ (36 < t5 ->
        (last_adjustment m = Some up /\ changed = true ->
         desired = f /\ adjustment = last_adjustment m)
        /\ (~ (last_adjustment m = Some up /\ changed = true) ->
            desired = f + 2.0 /\ adjustment = Some up))
    /\ (t5 < 34 ->
        (last_adjustment m = Some down /\ changed = true ->
         desired = f /\ adjustment = last_adjustment m)
        /\ (~ (last_adjustment m = Some down /\ changed = true) ->
            desired = f - 2.0 /\ adjustment = Some down))
    /\ (34 <= t5 <= 36 -> desired = f /\ adjustment = last_adjustment m)
    /\ sw_pump_freq c' == py_max 35.0 (py_min 60.0 desired)
    /\ memory c' =
       Some {| sw_base_freq := sw_base_freq m; prev_t5 := t5;
               t5_direction := current; last_adjustment := adjustment |}.
Proof.
  intros Hm c' t5 rising falling.
  destruct (sw_first_call_cases c m f Hm) as (Em & E5 & Ef).
  set (current := sw_current_direction t5 m).
  set (changed := sw_direction_changed m current).
  set (d := sw_decision t5 f m changed).
  exists current, (snd d), changed, (fst d).
  split; [apply sw_current_direction_deadband |].
  split; [apply sw_current_direction_tolerance |].
  split; [apply sw_direction_changed_iff |].
  split; [| split; [| split]].
  - intro H. destruct (sw_decision_high t5 f m changed H) as [A B].
    split; intro G; unfold d; [rewrite (A G) | rewrite (B G)];
      split; reflexivity.
  - intro H. destruct (sw_decision_low t5 f m changed H) as [A B].
    split; intro G; unfold d; [rewrite (A G) | rewrite (B G)];
      split; reflexivity.
  - intro H. unfold d. rewrite (sw_decision_dead_zone t5 f m changed H).
    split; reflexivity.
  - unfold c'. rewrite adjust_sw_is_sw_step.
    assert (K := sw_step_commit c). cbv zeta in K.
    rewrite Em, E5, Ef in K. exact K.
Qed.

(** On [reversal_at_50Hz] the rule holds the frequency: [T5 = 38] is
    above 36, but the last adjustment was ['up'] and the direction has
    turned from ['up'] to ['down']. *)
Lemma sw_hysteresis_rule_witness :
  let m := {| sw_base_freq := 60; prev_t5 := 39; t5_direction := Some up;
              last_adjustment := Some up |} in
  (memory reversal_at_50Hz = Some m /\ 50 = sw_pump_freq reversal_at_50Hz)
  /\ exists (current adjustment : option direction) (changed : bool)
            (desired : Q),
       current = Some down /\ changed = true /\ desired = 50
       /\ adjustment = Some up
       /\ sw_pump_freq
            (fst (adjust_sw_pump_frequency reversal_at_50Hz (still_world 0)))
          == py_max 35.0 (py_min 60.0 desired).
Proof.
  intro m.
  assert (H : memory reversal_at_50Hz = Some m
              /\ 50 = sw_pump_freq reversal_at_50Hz)
    by (split; reflexivity).
  split; [exact H |].
  destruct (sw_hysteresis_rule reversal_at_50Hz (still_world 0) m 50
              (or_introl H))
    as (current & adjustment & changed & desired
        & (_ & D & _) & _ & Ch & Hi & _ & _ & F & _).
  assert (Ec : current = Some down).
  { apply D; [vm_compute; discriminate | vm_compute; reflexivity]. }
  assert (Eh : changed = true).
  { apply Ch. exists up, down. subst current.
    repeat split; discriminate. }
  destruct Hi as [Hold _]; [vm_compute; reflexivity |].
  destruct (Hold (conj eq_refl Eh)) as [Ed Ea].
  exists current, adjustment, changed, desired.
  repeat split; assumption.
Defined.


(** Every call leaves the frequency inside [35,60]. *)
Lemma sw_step_range (c : controller) :
  35 <= sw_pump_freq (sw_step c) <= 60.
Proof.
  destruct (sw_step_commit c) as [E _]. rewrite E.
  match goal with
  | |- _ <= py_max _ (py_min _ ?x) <= _ =>
      destruct (clamp_bounds 35.0 60.0 x); lra
  end.
Qed.

(** The step before the clamp is +2, -2 or 0. *)
Lemma sw_decision_step (t5 f : Q) (m : sw_memory) (ch : bool) :
  exists d : Q,
    (d = 2.0 \/ d = - (2.0) \/ d = 0)
    /\ fst (sw_decision t5 f m ch) == f + d.
Proof.
  unfold sw_decision. split_tests; cbn [fst].
  all: first [ exists 2.0; split; [tauto | lra]
             | exists (- (2.0)); split; [tauto | lra]
             | exists 0; split; [tauto | lra] ].
Qed.

(** C4 as stated fails at the lower bound: at 36 Hz with [T5 < 34]
    the step to 34 Hz is cut to 35 Hz, a change of 1 Hz. *)
Lemma sw_step_size_counterexample :
  ~ (forall (c : controller) (w : world),
        memory c <> None ->
        let c' := fst (adjust_sw_pump_frequency c w) in
        (sw_pump_freq c' - sw_pump_freq c == 2
         \/ sw_pump_freq c' - sw_pump_freq c == - (2)
         \/ sw_pump_freq c' - sw_pump_freq c == 0)
        /\ 35 <= sw_pump_freq c' <= 60).
Proof.
  intro H.
  destruct (H cold_at_36Hz (still_world 0)) as [[D | [D | D]] _];
    try discriminate; vm_compute in D; discriminate D.
Qed.

Example cold_at_36Hz_run :
  sw_pump_freq cold_at_36Hz == 36
  /\ sw_pump_freq (fst (adjust_sw_pump_frequency cold_at_36Hz
                          (still_world 0))) == 35.
Proof. split; reflexivity. Qed.

(** The frequency of [cold_at_36Hz] is reached by the controller
    itself: twelve manual updates with [T4 = 36], [T1 = 25] from the
    constructor state bring the pump to 36 Hz, the thirteenth to 35. *)
Example reach_36Hz_then_35Hz :
  let run n :=
    fst (manual_updates n 36 25 1.5 75 fresh_controller (still_world 0)) in
  sw_pump_freq (run 12%nat) == 36
  /\ sw_pump_freq (run 13%nat) == 35
  /\ memory (run 12%nat) <> None.
Proof. vm_compute. repeat split; discriminate. Qed.

(** C4, amended.  After the first-call initialisation, the committed
    frequency is the previous one plus a step of +2, -2 or 0 Hz,
    clamped to [35,60]: it always lies in [35,60]; the change equals
    the step whenever the stepped value is inside [35,60]; and from a
    frequency inside [35,60] the change never exceeds 2 Hz. *)
Theorem sw_step_size_clamped (c : controller) (w : world) :
  memory c <> None ->
  let c' := fst (adjust_sw_pump_frequency c w) in
  35 <= sw_pump_freq c' <= 60
  /\ (exists d : Q,
         (d = 2.0 \/ d = - (2.0) \/ d = 0)
         /\ sw_pump_freq c' == py_max 35.0 (py_min 60.0 (sw_pump_freq c + d))
         /\ (35 <= sw_pump_freq c + d <= 60 ->
             sw_pump_freq c' - sw_pump_freq c == d))
  /\ (35 <= sw_pump_freq c <= 60 ->
      Qabs (sw_pump_freq c' - sw_pump_freq c) <= 2).
Proof.
  intros Hm c'. unfold c'. rewrite adjust_sw_is_sw_step.
  split; [apply sw_step_range |].
  destruct (sw_step_commit c) as [E _].
  assert (F : sw_first_call c = (c, snd (sw_first_call c))).
  { unfold sw_first_call. destruct (memory c); [reflexivity | congruence]. }
  rewrite F in E. cbn [fst snd] in E.
  match type of E with
  | _ == py_max _ (py_min _ (fst (sw_decision ?t ?f ?m ?ch))) =>
      destruct (sw_decision_step t f m ch) as (d & Hd & Ed);
      set (x := fst (sw_decision t f m ch)) in *
  end.
  assert (Ex : py_max 35.0 (py_min 60.0 x)
               == py_max 35.0 (py_min 60.0 (sw_pump_freq c + d))).
  { destruct (py_min_cases 60.0 x) as [[? ->] | [? ->]];
      destruct (py_min_cases 60.0 (sw_pump_freq c + d)) as [[? ->] | [? ->]];
      try lra.
    destruct (py_max_cases 35.0 x) as [[? ->] | [? ->]];
      destruct (py_max_cases 35.0 (sw_pump_freq c + d))
        as [[? ->] | [? ->]]; lra. }
  assert (B : 35 <= py_max 35.0 (py_min 60.0 (sw_pump_freq c + d)) <= 60)
    by (destruct (clamp_bounds 35.0 60.0 (sw_pump_freq c + d)); lra).
  split.
  - exists d. split; [exact Hd |]. split.
    + rewrite E. exact Ex.
    + intro Hin. rewrite E, Ex.
      rewrite (clamp_inside 35.0 60.0 (sw_pump_freq c + d)); lra.
  - intro Hin. rewrite E, Ex. apply Qabs_Qle_condition.
    destruct (py_min_cases 60.0 (sw_pump_freq c + d)) as [[? G] | [? G]];
      rewrite G in *;
      match goal with
      | |- context [py_max ?a ?b] =>
          destruct (py_max_cases a b) as [[? ->] | [? ->]]
      end;
      destruct Hd as [-> | [-> | ->]]; lra.
Qed.

Lemma sw_step_size_clamped_witness :
  memory cold_at_36Hz <> None
  /\ 35 <= sw_pump_freq (fst (adjust_sw_pump_frequency cold_at_36Hz
                                (still_world 0))) <= 60.
Proof.
  assert (H : memory cold_at_36Hz <> None) by (vm_compute; discriminate).
  split; [exact H |].
  exact (proj1 (sw_step_size_clamped cold_at_36Hz (still_world 0) H)).
Defined.

(** ** C5: the fresh-water proportional law *)

Lemma spec_fw_law_cases (d : Q) :
  (17 <= d /\ spec_fw_law d == 60)
  \/ (d <= 0 /\ spec_fw_law d == 40)
  \/ (0 < d < 17 /\ spec_fw_law d == 40 + d * (20 # 17)).
Proof.
  unfold spec_fw_law.
  destruct (Qle_bool_spec 17 d) as [H | H]; [left; split; [lra | reflexivity] |].
  destruct (Qle_bool_spec d 0) as [H0 | H0];
    right; [left; split; [lra | reflexivity] | right].
  split; [lra |]. field.
Qed.

(** The target of the source is the law of the specification; the
    final clamp of the source never changes it. *)
Lemma fw_desired_freq_is_spec_law (t4 : Q) :
  fw_desired_freq t4 == spec_fw_law (t4 - 36).
Proof.
  unfold fw_desired_freq.
  set (d := t4 - 36.0).
  assert (Ed : t4 - 36 == d) by (unfold d; lra).
  destruct (spec_fw_law_cases (t4 - 36)) as [[H ->] | [[H ->] | [H ->]]].
  - destruct (Qle_bool_spec 17.0 d) as [_ | N]; [| lra].
    rewrite (clamp_inside 40.0 60.0 60.0); lra.
  - destruct (Qle_bool_spec 17.0 d) as [N | _].
    + rewrite (clamp_inside 40.0 60.0 60.0); lra.
    + destruct (Qle_bool_spec d 0) as [_ | N]; [| lra].
      rewrite (clamp_inside 40.0 60.0 40.0); lra.
  - destruct (Qle_bool_spec 17.0 d) as [N | _]; [lra |].
    destruct (Qle_bool_spec d 0) as [N | _]; [lra |].
    assert (E : 40.0 + d / 17.0 * 20.0 == 40 + d * (20 # 17)) by field.
    rewrite (clamp_inside 40.0 60.0 (40.0 + d / 17.0 * 20.0)); lra.
Qed.

Lemma spec_fw_law_range (d : Q) : 40 <= spec_fw_law d <= 60.
Proof.
  destruct (spec_fw_law_cases d) as [[H ->] | [[H ->] | [H ->]]]; lra.
Qed.

Lemma spec_fw_law_monotone (d1 d2 : Q) :
  d1 <= d2 -> spec_fw_law d1 <= spec_fw_law d2.
Proof.
  intro H.
  destruct (spec_fw_law_cases d1) as [[H1 ->] | [[H1 ->] | [H1 ->]]];
    destruct (spec_fw_law_cases d2) as [[H2 ->] | [[H2 ->] | [H2 ->]]];
    lra.
Qed.

Lemma spec_fw_law_lipschitz (d1 d2 : Q) :
  Qabs (spec_fw_law d1 - spec_fw_law d2) <= (20 # 17) * Qabs (d1 - d2).
Proof.
  apply Qabs_Qle_condition.
  assert (A : d1 - d2 <= Qabs (d1 - d2)) by apply Qle_Qabs.
  assert (B : d2 - d1 <= Qabs (d1 - d2))
    by (rewrite Qabs_Qminus; apply Qle_Qabs).
  destruct (spec_fw_law_cases d1) as [[H1 ->] | [[H1 ->] | [H1 ->]]];
    destruct (spec_fw_law_cases d2) as [[H2 ->] | [[H2 ->] | [H2 ->]]];
    lra.
Qed.

(** C5.  The committed fresh-water frequency is the law of the
    specification applied to [T4 - 36], whatever the previous
    frequency was (no rate limiting); that law is 60 from 17 up, 40 up
    to 0 and the linear interpolation in between, stays in [40,60], is
    nondecreasing and is continuous (Lipschitz with constant 20/17,
    hence continuous in the epsilon-delta sense). *)
Theorem fw_proportional_law :
  (forall (c : controller) (w : world),
      fw_pump_freq (fst (adjust_fw_pump_frequency c w))
      == spec_fw_law (T4 c - 36))
  /\ (forall d, 17 <= d -> spec_fw_law d == 60)
  /\ (forall d, d <= 0 -> spec_fw_law d == 40)
  /\ (forall d, 0 < d < 17 -> spec_fw_law d == 40 + (d / 17) * 20)
  /\ (forall d, 40 <= spec_fw_law d <= 60)
  /\ (forall d1 d2, d1 <= d2 -> spec_fw_law d1 <= spec_fw_law d2)
  /\ (forall d1 d2,
         Qabs (spec_fw_law d1 - spec_fw_law d2)
         <= (20 # 17) * Qabs (d1 - d2))
  /\ (forall d eps, 0 < eps ->
         exists eta, 0 < eta /\
           forall d', Qabs (d' - d) < eta ->
                      Qabs (spec_fw_law d' - spec_fw_law d) < eps).
Proof.
  split; [| split; [| split; [| split; [| split; [| split; [| split]]]]]].
  - intros c w. cbn.
    destruct (Qeq_bool_spec (fw_pump_freq c) (fw_desired_freq (T4 c)))
      as [E | E]; cbn.
    + rewrite E. apply fw_desired_freq_is_spec_law.
    + apply fw_desired_freq_is_spec_law.
  - intros d H.
    destruct (spec_fw_law_cases d) as [[_ ->] | [[? ->] | [? ->]]]; lra.
  - intros d H.
    destruct (spec_fw_law_cases d) as [[? ->] | [[_ ->] | [? ->]]]; lra.
  - intros d H.
    assert (E : 40 + d / 17 * 20 == 40 + d * (20 # 17)) by field.
    destruct (spec_fw_law_cases d) as [[? ->] | [[? ->] | [_ ->]]]; lra.
  - apply spec_fw_law_range.
  - apply spec_fw_law_monotone.
  - apply spec_fw_law_lipschitz.
  - intros d eps Heps. exists (eps * (17 # 20)). split; [lra |].
    intros d' Hd.
    apply Qle_lt_trans with (y := (20 # 17) * Qabs (d' - d));
      [apply spec_fw_law_lipschitz | lra].
Qed.

(** The scenario of the specification: [T4 = 38] gives
    [40 + (2/17) * 20] Hz, and with two pumps a fresh-water flow of
    [1290 * (f/60) * 2]. *)
Example fw_scenario_T4_38 :
  let c := fst (adjust_fw_pump_frequency (set_T4 38 fresh_controller)
                  (still_world 0)) in
  fw_pump_freq c == 40 + (2 / 17) * 20
  /\ m_FW (update_flow_rates c) == 1290 * ((40 + (2 / 17) * 20) / 60) * 2.
Proof. vm_compute. split; reflexivity. Qed.

(** ** C6: the initial-state guard in front of the refinement loop *)

Lemma initial_state_guard_fires (c : controller) :
  Qabs (T5 c - T4 c) < 0.1 ->
  T5 (initial_state_guard c) = T4 c - 2.0
  /\ T4 (initial_state_guard c) = T4 c.
Proof.
  intro H. unfold initial_state_guard.
  destruct (Qlt_bool_spec (Qabs (T5 c - T4 c)) 0.1) as [_ | N];
    [split; reflexivity | contradiction].
Qed.

(** [manual_update] applies the guard to the freshly assigned [T4]. *)
Lemma manual_update_guard (t4 t1 dp1 load : Q) (c : controller) :
  Qabs (T5 c - t4) < 0.1 ->
  T5 (manual_update_before_loop t4 t1 dp1 load c) = t4 - 2.0.
Proof.
  intro H. unfold manual_update_before_loop.
  apply (initial_state_guard_fires
           (set_engine_load load (set_DP1 dp1 (set_T1 t1 (set_T4 t4 c))))).
  exact H.
Qed.

(** The [update_system] of [new_AI_UI_0313_1.py] applies the guard
    whenever no simulation step runs in front of it. *)
Lemma update_system_0313_guard (now : Q) (c : controller) (w : world) :
  simulation_mode c && negb (user_input_mode c) = false ->
  Qabs (T5 c - T4 c) < 0.1 ->
  T5 (fst (update_system_before_loop_0313 now c w)) = T4 c - 2.0.
Proof.
  intros Hmode H. unfold update_system_before_loop_0313, bind.
  cbn [simulation_mode user_input_mode set_clock_fields].
  rewrite Hmode. cbn [ret fst].
  match goal with
  | |- T5 (initial_state_guard ?x) = _ =>
      apply (initial_state_guard_fires x)
  end.
  exact H.
Qed.

(** The [update_system] of [new_AI_UI_0314.py] never writes [T5]
    before its loop: no guard is applied there. *)
Lemma update_system_before_loop_keeps_T5 (c : controller) (w : world) :
  T5 (fst (update_system_before_loop c w)) = T5 c.
Proof.
  unfold update_system_before_loop.
  destruct (simulation_mode c && negb (user_input_mode c)); reflexivity.
Qed.

(** C6 fails on the periodic tick of [new_AI_UI_0314.py].  From the
    state where [T5 = T4 = 36], [manual_update] and the
    [update_system] of [new_AI_UI_0313_1.py] enter the loop with
    [T5 = 34], whereas the [update_system] of [new_AI_UI_0314.py]
    enters it with [T5 = 36]. *)
Theorem periodic_tick_enters_loop_unguarded :
  let c := equal_inlets_state in
  let w := still_world 0 in
  Qabs (T5 c - T4 c) < 0.1
  /\ T5 (fst (update_system_before_loop c w)) == 36
  /\ T4 (fst (update_system_before_loop c w)) == 36
  /\ T5 (manual_update_before_loop 36 36 1.5 75 c) == 34
  /\ T5 (fst (update_system_before_loop_0313 0 c w)) == 34.
Proof. vm_compute. repeat split; congruence. Qed.

(** ** C7: the alarm monitor *)

(** C7.  After [check_alarm_conditions], [alarm_active] holds exactly
    when one of the four conditions holds; the message is that of the
    last true condition in the order T5-high, T2-high, DP1-low,
    DP1-high; with no condition true the alarm is inactive and the
    message empty. *)
Theorem alarm_monitor_rule (c : controller) :
  let c' := check_alarm_conditions c in
  (alarm_active c' = true
   <-> (40 < T5 c \/ 49 < T2 c \/ DP1 c < 0.5 \/ 2.5 < DP1 c))
  /\ alarm_message c' = spec_last_true (spec_alarm_table c)
  /\ (2.5 < DP1 c -> alarm_message c' = SW_inlet_pressure_high (DP1 c))
  /\ (DP1 c < 0.5 -> alarm_message c' = SW_inlet_pressure_low (DP1 c))
  /\ (0.5 <= DP1 c <= 2.5 -> 49 < T2 c ->
      alarm_message c' = SW_outlet_temperature_high (T2 c))
  /\ (0.5 <= DP1 c <= 2.5 -> T2 c <= 49 -> 40 < T5 c ->
      alarm_message c' = FW_outlet_temperature_high (T5 c))
  /\ (~ (40 < T5 c \/ 49 < T2 c \/ DP1 c < 0.5 \/ 2.5 < DP1 c) ->
      alarm_active c' = false /\ alarm_message c' = NoAlarmText
      /\ alarm_text_is_empty (alarm_message c') = true).
Proof.
  intro c'. unfold c', check_alarm_conditions, spec_alarm_table.
  cbn [T5 T2 DP1 set_alarm spec_last_true].
  destruct (Qlt_bool_spec 40.0 (T5 c)) as [A | A];
    destruct (Qlt_bool_spec 40 (T5 c)) as [A' | A']; try lra;
    cbn [T5 T2 DP1 set_alarm alarm_active alarm_message];
    destruct (Qlt_bool_spec 49.0 (T2 c)) as [B | B];
    destruct (Qlt_bool_spec 49 (T2 c)) as [B' | B']; try lra;
    cbn [T5 T2 DP1 set_alarm alarm_active alarm_message];
    destruct (Qlt_bool_spec (DP1 c) 0.5) as [L | L];
    destruct (Qlt_bool_spec 2.5 (DP1 c)) as [G | G]; try lra;
    cbn [T5 T2 DP1 set_alarm alarm_active alarm_message
         alarm_text_is_empty];
    repeat split; intros; try reflexivity; try discriminate;
    try tauto; try lra.
Qed.

Example alarm_scenario_T5_high :
  let c' := check_alarm_conditions (set_T5 40.5 fresh_controller) in
  alarm_active c' = true
  /\ alarm_message c' = FW_outlet_temperature_high 40.5.
Proof. split; reflexivity. Qed.

(** ** C8: the pump-count scheduler *)

Lemma ceiling_60 (f : Q) :
  let f' := if Qlt_bool 60.0 f then 60.0 else f in
  f' <= 60 /\ f' <= f /\ (f <= 60 -> f' = f).
Proof.
  cbn zeta. destruct (Qlt_bool_spec 60.0 f) as [H | H];
    repeat split; intros; try reflexivity; lra.
Qed.

(** C8.  With both counts in [{1,2}] beforehand, after
    [adjust_pump_count_by_load] both counts are 1 exactly when
    [engine_load < 10] and 2 otherwise (also at exactly 10); each
    frequency is the old one cut at 60 Hz: never above 60, never
    raised, and a function of the old frequency alone. *)
Theorem pump_count_rule (c : controller) :
  counts_in_range c ->
  let c' := adjust_pump_count_by_load c in
  ((fw_pump_count c' = 1%Z /\ sw_pump_count c' = 1%Z)
   <-> engine_load c < 10)
  /\ (10 <= engine_load c ->
      fw_pump_count c' = 2%Z /\ sw_pump_count c' = 2%Z)
  /\ fw_pump_freq c'
     = (if Qlt_bool 60.0 (fw_pump_freq c) then 60.0 else fw_pump_freq c)
  /\ sw_pump_freq c'
     = (if Qlt_bool 60.0 (sw_pump_freq c) then 60.0 else sw_pump_freq c)
  /\ (fw_pump_freq c' <= 60 /\ fw_pump_freq c' <= fw_pump_freq c
      /\ (fw_pump_freq c <= 60 -> fw_pump_freq c' = fw_pump_freq c))
  /\ (sw_pump_freq c' <= 60 /\ sw_pump_freq c' <= sw_pump_freq c
      /\ (sw_pump_freq c <= 60 -> sw_pump_freq c' = sw_pump_freq c)).
Proof.
  intros [[F1 F2] [S1 S2]] c'.
  assert (Ef : fw_pump_freq c'
     = (if Qlt_bool 60.0 (fw_pump_freq c) then 60.0 else fw_pump_freq c)).
  { unfold c', adjust_pump_count_by_load.
    destruct (Qlt_bool (engine_load c) 10.0);
      destruct (1 <? fw_pump_count c)%Z, (fw_pump_count c <? 2)%Z;
      cbn; destruct (1 <? sw_pump_count c)%Z, (sw_pump_count c <? 2)%Z;
      cbn; destruct (Qlt_bool 60.0 (fw_pump_freq c)); cbn;
      destruct (Qlt_bool 60.0 (sw_pump_freq c)); reflexivity. }
  assert (Es : sw_pump_freq c'
     = (if Qlt_bool 60.0 (sw_pump_freq c) then 60.0 else sw_pump_freq c)).
  { unfold c', adjust_pump_count_by_load.
    destruct (Qlt_bool (engine_load c) 10.0);
      destruct (1 <? fw_pump_count c)%Z, (fw_pump_count c <? 2)%Z;
      cbn; destruct (1 <? sw_pump_count c)%Z, (sw_pump_count c <? 2)%Z;
      cbn; destruct (Qlt_bool 60.0 (fw_pump_freq c)); cbn;
      destruct (Qlt_bool 60.0 (sw_pump_freq c)); reflexivity. }
  assert (Ec : (fw_pump_count c' = if Qlt_bool (engine_load c) 10.0
                                   then 1 else 2)%Z
               /\ (sw_pump_count c' = if Qlt_bool (engine_load c) 10.0
                                      then 1 else 2)%Z).
  { unfold c', adjust_pump_count_by_load.
    destruct (Qlt_bool (engine_load c) 10.0);
      destruct (Z.ltb_spec 1 (fw_pump_count c)),
               (Z.ltb_spec (fw_pump_count c) 2);
      cbn; destruct (Z.ltb_spec 1 (sw_pump_count c)),
                    (Z.ltb_spec (sw_pump_count c) 2);
      cbn; destruct (Qlt_bool 60.0 (fw_pump_freq c)); cbn;
      destruct (Qlt_bool 60.0 (sw_pump_freq c)); cbn; split; lia. }
  destruct Ec as [Ecf Ecs].
  split; [| split; [| split; [exact Ef | split; [exact Es |]]]].
  - rewrite Ecf, Ecs.
    destruct (Qlt_bool_spec (engine_load c) 10.0) as [H | H]; split;
      try (intros [? ?]; discriminate); intros; try lra; auto.
  - intro H. rewrite Ecf, Ecs.
    destruct (Qlt_bool_spec (engine_load c) 10.0) as [N | _];
      [lra | split; reflexivity].
  - rewrite Ef, Es. split; apply ceiling_60.
Qed.

Lemma pump_count_rule_witness :
  counts_in_range fresh_controller
  /\ fw_pump_count (adjust_pump_count_by_load fresh_controller) = 2%Z.
Proof.
  assert (H : counts_in_range fresh_controller)
    by (vm_compute; intuition discriminate).
  split; [exact H |].
  refine (proj1 (proj1 (proj2 (pump_count_rule fresh_controller H)) _)).
  vm_compute. discriminate.
Defined.

Example pump_count_at_boundary :
  fw_pump_count
    (adjust_pump_count_by_load
       (set_fw_pump_count 1 (set_engine_load 10.0 fresh_controller)))
  = 2%Z
  /\ fw_pump_count
       (adjust_pump_count_by_load (set_engine_load 9.9 fresh_controller))
     = 1%Z.
Proof. split; reflexivity. Qed.

(** ** C9: the history kept by the periodic tick *)

Lemma keeps_history_refl (c : controller) : keeps_history c c.
Proof. split; reflexivity. Qed.

Lemma keeps_history_trans (a b c : controller) :
  keeps_history a b -> keeps_history b c -> keeps_history a c.
Proof. intros [A1 A2] [B1 B2]. split; congruence. Qed.

Lemma calculate_t5_keeps_history (c : controller) :
  keeps_history c (calculate_t5 c).
Proof. unfold calculate_t5. split_tests; split; reflexivity. Qed.

Lemma refinement_loop_keeps_history (solve : controller -> controller) :
  (forall c, keeps_history c (solve c)) ->
  forall n c, keeps_history c (refinement_loop solve n c).
Proof.
  intros Hs n. induction n as [| n IH]; intro c; cbn.
  - apply keeps_history_refl.
  - assert (H2 : keeps_history c (solve (solve c)))
      by (eapply keeps_history_trans; apply Hs).
    destruct (_ && _); [exact H2 |].
    eapply keeps_history_trans; [exact H2 | apply IH].
Qed.

Lemma update_flow_rates_keeps_history (c : controller) :
  keeps_history c (update_flow_rates c).
Proof. split; reflexivity. Qed.

Lemma update_efficiency_keeps_history (c : controller) :
  keeps_history c (update_heat_exchanger_efficiency c).
Proof. split; reflexivity. Qed.

Lemma simulate_keeps_history (c : controller) (w : world) :
  keeps_history c (fst (simulate_temperature_changes c w)).
Proof. split; reflexivity. Qed.

Lemma before_loop_keeps_history (c : controller) (w : world) :
  keeps_history c (fst (update_system_before_loop c w)).
Proof.
  unfold update_system_before_loop.
  destruct (simulation_mode c && negb (user_input_mode c));
    split; reflexivity.
Qed.

Lemma adjust_fw_keeps_history (c : controller) (w : world) :
  keeps_history c (fst (adjust_fw_pump_frequency c w)).
Proof.
  cbn. destruct (negb _); split; reflexivity.
Qed.

Lemma sw_step_keeps_history (c : controller) :
  keeps_history c (sw_step c).
Proof.
  unfold sw_step, sw_first_call.
  destruct (memory c); destruct (sw_decision _ _ _ _);
    destruct (negb _); split; reflexivity.
Qed.

Lemma adjust_pump_count_keeps_history (c : controller) :
  keeps_history c (adjust_pump_count_by_load c).
Proof.
  unfold adjust_pump_count_by_load.
  destruct (Qlt_bool (engine_load c) 10.0);
    destruct (1 <? fw_pump_count c)%Z, (fw_pump_count c <? 2)%Z;
    cbn; destruct (1 <? sw_pump_count c)%Z, (sw_pump_count c <? 2)%Z;
    cbn; destruct (Qlt_bool 60.0 (fw_pump_freq c)); cbn;
    destruct (Qlt_bool 60.0 (sw_pump_freq c)); split; reflexivity.
Qed.

Lemma check_alarm_keeps_history (c : controller) :
  keeps_history c (check_alarm_conditions c).
Proof.
  unfold check_alarm_conditions. cbn [T5 T2 DP1 set_alarm].
  split_tests; split; reflexivity.
Qed.

(** What one tick does to the two histories: the columns receive the
    new row and are then cut, [data_log] only receives its snapshot. *)
Lemma tick_history (c : controller) (w : world) :
  exists c8 : controller,
    keeps_history c c8
    /\ columns (tick c w)
       = limit_columns (append_columns (clock w (clock_reads w)) c8)
    /\ data_log (tick c w)
       = data_log c
         ++ [snapshot (clock w (clock_reads w))
               (set_columns
                  (append_columns (clock w (clock_reads w)) c8) c8)].
Proof.
  unfold tick, update_system, bind.
  cbn [time_time].
  destruct (update_system_before_loop c _) as [c1 w1] eqn:E1.
  assert (K1 : keeps_history c c1).
  { pose proof (before_loop_keeps_history c
      {| clock := clock w; clock_reads := S (clock_reads w);
         randn := randn w; randn_draws := randn_draws w |}) as K.
    rewrite E1 in K. exact K. }
  set (c4 := update_heat_exchanger_efficiency
               (update_flow_rates (refinement_loop calculate_t5 3 c1))).
  assert (K4 : keeps_history c c4).
  { eapply keeps_history_trans; [exact K1 |].
    eapply keeps_history_trans;
      [apply (refinement_loop_keeps_history calculate_t5
                calculate_t5_keeps_history 3 c1) |].
    eapply keeps_history_trans;
      [apply update_flow_rates_keeps_history
      | apply update_efficiency_keeps_history]. }
  clearbody c4.
  destruct (adjust_fw_pump_frequency c4 w1) as [c5 w5] eqn:E5.
  assert (K5 : keeps_history c c5).
  { eapply keeps_history_trans; [exact K4 |].
    pose proof (adjust_fw_keeps_history c4 w1) as K.
    rewrite E5 in K. exact K. }
  destruct (adjust_sw_pump_frequency c5 w5) as [c6 w6] eqn:E6.
  assert (K6 : keeps_history c c6).
  { eapply keeps_history_trans; [exact K5 |].
    pose proof (sw_step_keeps_history c5) as K.
    rewrite <- (adjust_sw_is_sw_step c5 w5), E6 in K. exact K. }
  set (c8 := check_alarm_conditions (adjust_pump_count_by_load c6)).
  assert (K8 : keeps_history c c8).
  { eapply keeps_history_trans; [exact K6 |].
    eapply keeps_history_trans;
      [apply adjust_pump_count_keeps_history
      | apply check_alarm_keeps_history]. }
  clearbody c8.
  exists c8. split; [exact K8 |].
  cbn [ret fst snd columns data_log set_columns set_data_log
       set_clock_fields].
  destruct K8 as [_ L8]. rewrite L8. split; reflexivity.
Qed.

Lemma last_n_length {A : Type} (n : nat) (xs : list A) :
  length (last_n n xs) = Nat.min n (length xs).
Proof. unfold last_n. rewrite length_skipn. lia. Qed.

Lemma last_n_all {A : Type} (n : nat) (xs : list A) :
  (length xs <= n)%nat -> last_n n xs = xs.
Proof.
  intro H. unfold last_n.
  replace (length xs - n)%nat with 0%nat by lia. reflexivity.
Qed.

(** The [time_data] column after a tick: the old column with the new
    time stamp, reduced to its last 1000 entries. *)
Lemma tick_time_data (c : controller) (w : world) :
  time_data (columns (tick c w))
  = last_n max_data_points
      (time_data (columns c) ++ [clock w (clock_reads w)]).
Proof.
  destruct (tick_history c w) as (c8 & [K _] & -> & _).
  set (t := clock w (clock_reads w)).
  assert (E : time_data (append_columns t c8)
              = time_data (columns c) ++ [t])
    by (cbn [append_columns time_data]; rewrite K; reflexivity).
  unfold limit_columns. rewrite E.
  destruct (Nat.ltb_spec max_data_points
              (length (time_data (columns c) ++ [t]))) as [H | H];
    cbn [time_data]; rewrite ?E.
  - reflexivity.
  - symmetry. apply last_n_all. exact H.
Qed.

Lemma tick_time_data_length (c : controller) (w : world) :
  length (time_data (columns (tick c w)))
  = Nat.min max_data_points (S (length (time_data (columns c)))).
Proof.
  rewrite tick_time_data, last_n_length, length_app. cbn [length]. lia.
Qed.

Lemma tick_data_log_length (c : controller) (w : world) :
  length (data_log (tick c w)) = S (length (data_log c)).
Proof.
  destruct (tick_history c w) as (c8 & _ & _ & ->).
  rewrite length_app. cbn [length]. lia.
Qed.

Lemma run_ticks_step (n : nat) (c : controller) (w : world) :
  run_ticks (S n) c w
  = run_ticks n (tick c w) (snd (update_system c w)).
Proof.
  cbn [run_ticks]. unfold bind, tick.
  destruct (update_system c w) as [r w']. reflexivity.
Qed.

Lemma run_ticks_time_data_length (n : nat) :
  forall (c : controller) (w : world),
    length (time_data (columns (fst (run_ticks n c w))))
    = Nat.min max_data_points (n + length (time_data (columns c)))
      \/ (max_data_points < length (time_data (columns c)))%nat.
Proof.
  induction n as [| n IH]; intros c w.
  - cbn [run_ticks ret fst]. lia.
  - rewrite run_ticks_step.
    destruct (IH (tick c w) (snd (update_system c w))) as [E | E].
    + rewrite E, tick_time_data_length. lia.
    + rewrite tick_time_data_length in E. lia.
Qed.

Lemma run_ticks_data_log (n : nat) :
  forall (c : controller) (w : world),
  exists l : list data_point,
    data_log (fst (run_ticks n c w)) = data_log c ++ l
    /\ length l = n.
Proof.
  induction n as [| n IH]; intros c w.
  - exists []. cbn [run_ticks ret fst]. rewrite app_nil_r. now split.
  - rewrite run_ticks_step.
    destruct (IH (tick c w) (snd (update_system c w))) as (l & E & L).
    destruct (tick_history c w) as (c8 & _ & _ & D).
    rewrite E, D. rewrite <- app_assoc.
    eexists. split; [reflexivity |]. cbn [app length]. lia.
Qed.

(** The twelve columns do behave as the bounded history of C9: the
    time column never exceeds 1000 entries after a tick and keeps
    the latest ones in order. *)
Lemma columns_bounded_fifo (c : controller) (w : world) :
  (length (time_data (columns (tick c w))) <= max_data_points)%nat
  /\ time_data (columns (tick c w))
     = last_n max_data_points
         (time_data (columns c) ++ [clock w (clock_reads w)]).
Proof.
  split; [rewrite tick_time_data_length; lia | apply tick_time_data].
Qed.

(** C9 fails on [data_log], the list of whole-state snapshots: it is
    appended to on every tick and never cut.  After 1001 ticks from
    the constructor state, in any world, it holds 1001 snapshots and
    still starts with the snapshot of the first tick, while the
    [time_data] column holds 1000 entries. *)
Theorem data_log_exceeds_limit (w : world) :
  let c := fst (run_ticks 1001 fresh_controller w) in
  length (data_log c) = 1001%nat
  /\ (max_data_points < length (data_log c))%nat
  /\ (exists (p : data_point) (l : list data_point),
         data_log (tick fresh_controller w) = [p]
         /\ data_log c = p :: l)
  /\ length (time_data (columns c)) = 1000%nat.
Proof.
  intro c.
  destruct (run_ticks_data_log 1001 fresh_controller w) as (l & E & L).
  fold c in E. change (data_log fresh_controller) with (@nil data_point) in E.
  cbn [app] in E.
  assert (Len : length (data_log c) = 1001%nat) by (rewrite E; exact L).
  split; [exact Len |].
  split; [rewrite Len; unfold max_data_points; lia |].
  split.
  - unfold c. rewrite run_ticks_step.
    destruct (run_ticks_data_log 1000 (tick fresh_controller w)
                (snd (update_system fresh_controller w))) as (l' & E' & _).
    destruct (tick_history fresh_controller w) as (c8 & _ & _ & D).
    change (data_log fresh_controller) with (@nil data_point) in D.
    cbn [app] in D.
    eexists. exists l'. split; [exact D |].
    rewrite E', D. reflexivity.
  - destruct (run_ticks_time_data_length 1001 fresh_controller w)
      as [T | T]; fold c in T.
    + rewrite T. reflexivity.
    + cbn in T. lia.
Qed.

(** ** C10: manual updates do not depend on the ambient world *)

Lemma adjust_fw_ignores_world (c : controller) (w1 w2 : world) :
  fst (adjust_fw_pump_frequency c w1) = fst (adjust_fw_pump_frequency c w2).
Proof. reflexivity. Qed.

Lemma adjust_fw_draws_nothing (c : controller) (w : world) :
  randn_draws (snd (adjust_fw_pump_frequency c w)) = randn_draws w.
Proof. reflexivity. Qed.

Lemma adjust_sw_draws_nothing (c : controller) (w : world) :
  randn_draws (snd (adjust_sw_pump_frequency c w)) = randn_draws w.
Proof. reflexivity. Qed.

(** [manual_update] as a function of the controller and its four
    arguments only. *)
Lemma manual_update_pure (t4 t1 dp1 load : Q) (c : controller) (w : world) :
  let c3 :=
    update_flow_rates
      (refinement_loop calculate_t5 3
         (manual_update_before_loop t4 t1 dp1 load c)) in
  let c4 :=
    if negb (Qeq_bool (fw_pump_freq c3) (fw_desired_freq (T4 c3)))
    then set_fw_pump_freq (fw_desired_freq (T4 c3)) c3
    else c3 in
  let c7 :=
    check_alarm_conditions (adjust_pump_count_by_load (sw_step c4)) in
  fst (manual_update t4 t1 dp1 load c w) = (T5 c7, T2 c7, DP1 c7, c7)
  /\ randn_draws (snd (manual_update t4 t1 dp1 load c w)) = randn_draws w
  /\ randn w = randn (snd (manual_update t4 t1 dp1 load c w)).
Proof.
  intros c3 c4 c7. unfold manual_update.
  fold c3. clearbody c3.
  unfold bind, adjust_fw_pump_frequency, adjust_sw_pump_frequency, bind,
    time_time, ret.
  fold c4. clearbody c4.
  repeat split.
Qed.

Lemma update_system_draws (c : controller) (w : world) :
  randn_draws (snd (update_system c w))
  = ((if simulation_mode c && negb (user_input_mode c) then 2 else 0)
     + randn_draws w)%nat.
Proof.
  unfold update_system, bind. cbn [time_time].
  unfold update_system_before_loop.
  destruct (simulation_mode c && negb (user_input_mode c)).
  - unfold simulate_temperature_changes, bind, time_time,
      np_random_randn, ret. cbn [randn_draws clock_reads clock randn].
    match goal with
    | |- context [refinement_loop calculate_t5 3 ?x] =>
        generalize (refinement_loop calculate_t5 3 x)
    end.
    intro c2. reflexivity.
  - unfold ret.
    generalize (refinement_loop calculate_t5 3 c).
    intro c2. reflexivity.
Qed.

(** C10.  [manual_update] is a function of the controller state
    (hysteresis memory included) and of its four arguments: run in any
    two worlds, i.e. with any clock readings and any random samples,
    it returns the same triple and leaves the same controller; it
    draws no random sample.  The periodic [update_system] draws its
    two samples exactly when [simulation_mode] is set and
    [user_input_mode] is not. *)
Theorem manual_update_deterministic
  (t4 t1 dp1 load : Q) (c : controller) (w1 w2 : world) :
  fst (manual_update t4 t1 dp1 load c w1)
  = fst (manual_update t4 t1 dp1 load c w2)
  /\ randn_draws (snd (manual_update t4 t1 dp1 load c w1)) = randn_draws w1
  /\ randn_draws (snd (update_system c w1))
     = ((if simulation_mode c && negb (user_input_mode c) then 2 else 0)
        + randn_draws w1)%nat.
Proof.
  destruct (manual_update_pure t4 t1 dp1 load c w1) as (E1 & D1 & _).
  destruct (manual_update_pure t4 t1 dp1 load c w2) as (E2 & _ & _).
  split; [rewrite E1, E2; reflexivity |].
  split; [exact D1 | apply update_system_draws].
Qed.

(** The periodic tick, by contrast, does depend on the random source:
    two worlds that differ only in their samples lead to different
    inlet temperatures. *)
Example periodic_tick_uses_random_source :
  T4 (tick fresh_controller (still_world 0)) == 36
  /\ T4 (tick fresh_controller (still_world 100)) == 41
  /\ T4 (snd (fst (manual_update 36 25 1.5 75 fresh_controller
                     (still_world 100)))) == 36.
Proof. vm_compute. repeat split; congruence. Qed.

(** ** The pump counts stay in [{1,2}]

    The range assumed by C8 is an invariant of the controller: it holds
    for the constructor state, and every manual update and periodic
    tick preserves it, since only the scheduler writes the counts. *)

Lemma keeps_counts_trans (a b c : controller) :
  keeps_counts a b -> keeps_counts b c -> keeps_counts a c.
Proof. intros [A1 A2] [B1 B2]. split; congruence. Qed.

Lemma keeps_counts_range (c c' : controller) :
  keeps_counts c c' -> counts_in_range c -> counts_in_range c'.
Proof. intros [E1 E2] H. unfold counts_in_range. now rewrite E1, E2. Qed.

Lemma calculate_t5_keeps_counts (c : controller) :
  keeps_counts c (calculate_t5 c).
Proof. unfold calculate_t5. split_tests; split; reflexivity. Qed.

Lemma refinement_loop_keeps_counts (solve : controller -> controller) :
  (forall c, keeps_counts c (solve c)) ->
  forall n c, keeps_counts c (refinement_loop solve n c).
Proof.
  intros Hs n. induction n as [| n IH]; intro c; cbn.
  - split; reflexivity.
  - assert (H2 : keeps_counts c (solve (solve c)))
      by (eapply keeps_counts_trans; apply Hs).
    destruct (_ && _); [exact H2 |].
    eapply keeps_counts_trans; [exact H2 | apply IH].
Qed.

Lemma scheduler_keeps_range (c : controller) :
  counts_in_range c -> counts_in_range (adjust_pump_count_by_load c).
Proof.
  intros [[F1 F2] [S1 S2]].
  unfold counts_in_range, adjust_pump_count_by_load.
  destruct (Qlt_bool (engine_load c) 10.0);
    destruct (Z.ltb_spec 1 (fw_pump_count c)),
             (Z.ltb_spec (fw_pump_count c) 2);
    cbn; destruct (Z.ltb_spec 1 (sw_pump_count c)),
                  (Z.ltb_spec (sw_pump_count c) 2);
    cbn; destruct (Qlt_bool 60.0 (fw_pump_freq c)); cbn;
    destruct (Qlt_bool 60.0 (sw_pump_freq c)); cbn; lia.
Qed.

Lemma controllers_keep_counts (c : controller) :
  keeps_counts c
    (sw_step
       (if negb (Qeq_bool (fw_pump_freq c) (fw_desired_freq (T4 c)))
        then set_fw_pump_freq (fw_desired_freq (T4 c)) c
        else c)).
Proof.
  destruct (negb _); unfold sw_step, sw_first_call; cbn [memory set_fw_pump_freq];
    destruct (memory c); destruct (sw_decision _ _ _ _);
    destruct (negb _); split; reflexivity.
Qed.

Lemma check_alarm_keeps_counts (c : controller) :
  keeps_counts c (check_alarm_conditions c).
Proof.
  unfold check_alarm_conditions. cbn [T5 T2 DP1 set_alarm].
  split_tests; split; reflexivity.
Qed.

Lemma fresh_controller_counts : counts_in_range fresh_controller.
Proof. vm_compute. intuition discriminate. Qed.

Lemma manual_update_keeps_range
  (t4 t1 dp1 load : Q) (c : controller) (w : world) :
  counts_in_range c ->
  counts_in_range (snd (fst (manual_update t4 t1 dp1 load c w))).
Proof.
  intro H.
  destruct (manual_update_pure t4 t1 dp1 load c w) as (-> & _ & _).
  cbn [fst snd].
  eapply keeps_counts_range; [apply check_alarm_keeps_counts |].
  apply scheduler_keeps_range.
  eapply keeps_counts_range; [apply controllers_keep_counts |].
  assert (K : keeps_counts c
                (refinement_loop calculate_t5 3
                   (manual_update_before_loop t4 t1 dp1 load c))).
  { eapply keeps_counts_trans;
      [| apply (refinement_loop_keeps_counts calculate_t5
                  calculate_t5_keeps_counts)].
    unfold manual_update_before_loop, initial_state_guard.
    destruct (Qlt_bool _ _); split; reflexivity. }
  generalize dependent (refinement_loop calculate_t5 3
                          (manual_update_before_loop t4 t1 dp1 load c)).
  intros c2 K.
  apply (keeps_counts_range c); [| exact H].
  eapply keeps_counts_trans; [exact K | split; reflexivity].
Qed.

Lemma before_loop_keeps_counts (c : controller) (w : world) :
  keeps_counts c (fst (update_system_before_loop c w)).
Proof.
  unfold update_system_before_loop.
  destruct (simulation_mode c && negb (user_input_mode c));
    split; reflexivity.
Qed.

Lemma adjust_fw_keeps_counts (c : controller) (w : world) :
  keeps_counts c (fst (adjust_fw_pump_frequency c w)).
Proof. cbn. destruct (negb _); split; reflexivity. Qed.

Lemma sw_step_keeps_counts (c : controller) :
  keeps_counts c (sw_step c).
Proof.
  unfold sw_step, sw_first_call.
  destruct (memory c); destruct (sw_decision _ _ _ _);
    destruct (negb _); split; reflexivity.
Qed.

Lemma history_writes_keep_counts (t h : Q) (s1 s2 : series)
  (l : list data_point) (c : controller) :
  keeps_counts c
    (set_columns s2 (set_clock_fields t h
       (set_data_log l (set_columns s1 c)))).
Proof. split; reflexivity. Qed.

Lemma tick_keeps_range (c : controller) (w : world) :
  counts_in_range c -> counts_in_range (tick c w).
Proof.
  intro H. unfold tick, update_system, bind. cbn [time_time].
  destruct (update_system_before_loop c _) as [c1 w1] eqn:E1.
  assert (K1 : keeps_counts c c1).
  { pose proof (before_loop_keeps_counts c
      {| clock := clock w; clock_reads := S (clock_reads w);
         randn := randn w; randn_draws := randn_draws w |}) as K.
    rewrite E1 in K. exact K. }
  assert (K4 : keeps_counts c
                 (update_heat_exchanger_efficiency
                    (update_flow_rates
                       (refinement_loop calculate_t5 3 c1)))).
  { eapply keeps_counts_trans; [exact K1 |].
    eapply keeps_counts_trans;
      [apply (refinement_loop_keeps_counts calculate_t5
                calculate_t5_keeps_counts 3 c1) |].
    generalize (refinement_loop calculate_t5 3 c1).
    intro c2. split; reflexivity. }
  generalize dependent (update_heat_exchanger_efficiency
                          (update_flow_rates
                             (refinement_loop calculate_t5 3 c1))).
  intros c4 K4.
  destruct (adjust_fw_pump_frequency c4 w1) as [c5 w5] eqn:E5.
  assert (K5 : keeps_counts c c5).
  { eapply keeps_counts_trans; [exact K4 |].
    pose proof (adjust_fw_keeps_counts c4 w1) as K.
    rewrite E5 in K. exact K. }
  destruct (adjust_sw_pump_frequency c5 w5) as [c6 w6] eqn:E6.
  assert (K6 : keeps_counts c c6).
  { eapply keeps_counts_trans; [exact K5 |].
    pose proof (sw_step_keeps_counts c5) as K.
    rewrite <- (adjust_sw_is_sw_step c5 w5), E6 in K. exact K. }
  assert (R8 : counts_in_range
                 (check_alarm_conditions (adjust_pump_count_by_load c6))).
  { eapply keeps_counts_range; [apply check_alarm_keeps_counts |].
    apply scheduler_keeps_range.
    apply (keeps_counts_range c); [exact K6 | exact H]. }
  generalize dependent (check_alarm_conditions
                          (adjust_pump_count_by_load c6)).
  intros c8 R8. cbn [ret fst snd].
  eapply keeps_counts_range; [| exact R8].
  apply history_writes_keep_counts.
Qed.

(** * Further properties of the controller *)

(** ** The solver reads only the inlets and the flows *)

Ltac simpl_fields :=
  cbn [T1 T2 T4 T5 DP1 m_FW m_SW fw_pump_freq sw_pump_freq
       fw_pump_count sw_pump_count engine_load
       set_T1 set_T2 set_T4 set_T5 set_DP1 set_engine_load fst snd].

Lemma calculate_t5_factored (c : controller) :
  let h := heat_exchanger (T1 c) (T4 c) (m_FW c) (m_SW c) in
  calculate_t5 c = set_T2 (snd h) (set_T5 (fst h) c).
Proof.
  unfold calculate_t5, heat_exchanger.
  set (C_fw := m_FW c * rho_fw * cp_fw / 3600).
  set (C_sw := m_SW c * rho_sw * cp_sw / 3600).
  destruct (Qle_bool C_fw 0 || Qle_bool C_sw 0);
    [| destruct (Qeq_bool (py_min C_fw C_sw) C_fw)];
    simpl_fields;
    (destruct (Qlt_bool 0 C_sw);
     [simpl_fields;
      match goal with
      | |- context [if ?b then _ else _] => destruct b
      end |]);
    reflexivity.
Qed.

Lemma calculate_t5_ignores_outlets (a b : Q) (c : controller) :
  calculate_t5 (set_T2 a (set_T5 b c)) = calculate_t5 c.
Proof.
  rewrite (calculate_t5_factored c),
    (calculate_t5_factored (set_T2 a (set_T5 b c))).
  reflexivity.
Qed.

Lemma calculate_t5_idempotent (c : controller) :
  calculate_t5 (calculate_t5 c) = calculate_t5 c.
Proof.
  rewrite (calculate_t5_factored c) at 1.
  apply calculate_t5_ignores_outlets.
Qed.

Lemma refinement_loop_unfold (solve : controller -> controller)
  (n : nat) (c : controller) :
  refinement_loop solve (S n) c
  = if Qlt_bool (Qabs (T2 (solve (solve c)) - T2 c)) 0.01
       && Qlt_bool (Qabs (T5 (solve (solve c)) - T5 (solve c))) 0.01
    then solve (solve c)
    else refinement_loop solve n (solve (solve c)).
Proof. reflexivity. Qed.

Lemma refinement_loop_collapses (n : nat) :
  forall c : controller,
    refinement_loop calculate_t5 (S n) c = calculate_t5 c.
Proof.
  induction n as [| n IH]; intro c; rewrite refinement_loop_unfold;
    rewrite calculate_t5_idempotent; destruct (_ && _); try reflexivity.
  rewrite IH. apply calculate_t5_idempotent.
Qed.

Lemma calculate_t5_after_guard (c : controller) :
  calculate_t5 (initial_state_guard c) = calculate_t5 c.
Proof.
  unfold initial_state_guard. destruct (Qlt_bool _ _); [| reflexivity].
  rewrite (calculate_t5_factored c),
    (calculate_t5_factored (set_T5 (T4 c - 2.0) c)).
  reflexivity.
Qed.

(** X1.  A second solver call changes nothing, so the three-pass
    refinement always ends in the state of one solver call. *)
Theorem refinement_loop_is_one_solve (c : controller) :
  calculate_t5 (calculate_t5 c) = calculate_t5 c
  /\ refinement_loop calculate_t5 3 c = calculate_t5 c.
Proof.
  split; [apply calculate_t5_idempotent | apply refinement_loop_collapses].
Qed.

Lemma solve_after_manual_inputs
  (a b t4 t1 dp1 load : Q) (c : controller) :
  calculate_t5 (manual_update_before_loop t4 t1 dp1 load
                  (set_T2 a (set_T5 b c)))
  = calculate_t5 (manual_update_before_loop t4 t1 dp1 load c).
Proof.
  unfold manual_update_before_loop.
  rewrite !calculate_t5_after_guard.
  match goal with
  | |- calculate_t5 ?x = calculate_t5 ?y =>
      rewrite (calculate_t5_factored x), (calculate_t5_factored y)
  end.
  reflexivity.
Qed.

(** X2.  The outlet temperatures stored before a manual update never
    influence it: replacing [T5] and [T2] of the pre-state by any
    values gives the same returned triple, the same controller and the
    same world.  In particular the initial-state guard, which only
    rewrites [T5], has no observable effect. *)
Theorem manual_update_ignores_stored_outlets
  (a b t4 t1 dp1 load : Q) (c : controller) (w : world) :
  manual_update t4 t1 dp1 load (set_T2 a (set_T5 b c)) w
  = manual_update t4 t1 dp1 load c w.
Proof.
  unfold manual_update.
  rewrite !refinement_loop_collapses, solve_after_manual_inputs.
  reflexivity.
Qed.

Lemma before_loop_commutes_with_outlets
  (a b : Q) (c : controller) (w : world) :
  update_system_before_loop (set_T2 a (set_T5 b c)) w
  = (set_T2 a (set_T5 b (fst (update_system_before_loop c w))),
     snd (update_system_before_loop c w)).
Proof.
  unfold update_system_before_loop.
  cbn [simulation_mode user_input_mode set_T2 set_T5].
  destruct (simulation_mode c && negb (user_input_mode c)); reflexivity.
Qed.

(** X3.  The same holds for the periodic tick. *)
Theorem update_system_ignores_stored_outlets
  (a b : Q) (c : controller) (w : world) :
  update_system (set_T2 a (set_T5 b c)) w = update_system c w.
Proof.
  unfold update_system, bind. cbn [time_time].
  rewrite before_loop_commutes_with_outlets.
  destruct (update_system_before_loop c _) as [c1 w1]. cbn [fst snd].
  rewrite !refinement_loop_collapses, calculate_t5_ignores_outlets.
  reflexivity.
Qed.

(** ** Energy balance *)






(** ** The control steps *)

Lemma adjust_fw_is_fw_step (c : controller) (w : world) :
  fst (adjust_fw_pump_frequency c w) = fw_step c.
Proof. reflexivity. Qed.

Lemma same_plant_refl (c : controller) : same_plant c c.
Proof. repeat split. Qed.

Lemma same_plant_trans (a b c : controller) :
  same_plant a b -> same_plant b c -> same_plant a c.
Proof.
  unfold same_plant. intros H1 H2.
  repeat match goal with
         | H : _ /\ _ |- _ => destruct H
         end.
  repeat split; congruence.
Qed.

Lemma fw_step_same_plant (c : controller) : same_plant c (fw_step c).
Proof. unfold fw_step. destruct (negb _); repeat split. Qed.

Lemma sw_step_shape (c : controller) :
  sw_step c
  = set_memory (memory (sw_step c))
      (set_sw_pump_freq (sw_pump_freq (sw_step c)) c).
Proof.
  unfold sw_step, sw_first_call.
  destruct (memory c); destruct (sw_decision _ _ _ _);
    destruct (negb _); reflexivity.
Qed.

Lemma sw_step_same_plant (c : controller) : same_plant c (sw_step c).
Proof. rewrite sw_step_shape. repeat split. Qed.

Lemma check_alarm_shape (c : controller) :
  check_alarm_conditions c
  = set_alarm (alarm_active (check_alarm_conditions c))
      (alarm_message (check_alarm_conditions c)) c.
Proof.
  unfold check_alarm_conditions. cbn [T5 T2 DP1 set_alarm].
  split_tests; reflexivity.
Qed.

Lemma check_alarm_same_plant (c : controller) :
  same_plant c (check_alarm_conditions c).
Proof. rewrite check_alarm_shape. repeat split. Qed.

(** Everything [adjust_pump_count_by_load] does, attribute by
    attribute, for counts that are 1 or 2 beforehand. *)
Lemma scheduler_fields (c : controller) :
  let c' := adjust_pump_count_by_load c in
  same_plant c c'
  /\ fw_pump_freq c' = ceiling_60Hz (fw_pump_freq c)
  /\ sw_pump_freq c' = ceiling_60Hz (sw_pump_freq c)
  /\ memory c' = memory c
  /\ alarm_active c' = alarm_active c
  /\ alarm_message c' = alarm_message c
  /\ (counts_in_range c ->
      fw_pump_count c' = (if Qlt_bool (engine_load c) 10.0 then 1 else 2)%Z
      /\ sw_pump_count c'
         = (if Qlt_bool (engine_load c) 10.0 then 1 else 2)%Z).
Proof.
  unfold adjust_pump_count_by_load, ceiling_60Hz, counts_in_range.
  destruct (Qlt_bool (engine_load c) 10.0);
    destruct (Z.ltb_spec 1 (fw_pump_count c)),
             (Z.ltb_spec (fw_pump_count c) 2);
    cbn; destruct (Z.ltb_spec 1 (sw_pump_count c)),
                  (Z.ltb_spec (sw_pump_count c) 2);
    cbn; destruct (Qlt_bool 60.0 (fw_pump_freq c)); cbn;
    destruct (Qlt_bool 60.0 (sw_pump_freq c)); cbn;
    repeat split; lia.
Qed.

Lemma control_stage_same_plant (c : controller) :
  same_plant c (control_stage c).
Proof.
  unfold control_stage.
  eapply same_plant_trans; [apply fw_step_same_plant |].
  eapply same_plant_trans; [apply sw_step_same_plant |].
  eapply same_plant_trans;
    [apply scheduler_fields | apply check_alarm_same_plant].
Qed.

Lemma ceiling_60Hz_range (lo f : Q) :
  lo <= 60 -> lo <= f <= 60 -> lo <= ceiling_60Hz f <= 60.
Proof.
  intros Hlo H. unfold ceiling_60Hz.
  destruct (Qlt_bool_spec 60.0 f); lra.
Qed.

Lemma fw_step_range (c : controller) :
  40 <= fw_pump_freq (fw_step c) <= 60.
Proof.
  assert (R : 40 <= fw_desired_freq (T4 c) <= 60).
  { unfold fw_desired_freq.
    match goal with
    | |- _ <= py_max _ (py_min _ ?x) <= _ =>
        destruct (clamp_bounds 40.0 60.0 x); lra
    end. }
  unfold fw_step.
  destruct (Qeq_bool_spec (fw_pump_freq c) (fw_desired_freq (T4 c)))
    as [E | E]; cbn [negb fw_pump_freq set_fw_pump_freq].
  - rewrite E. exact R.
  - exact R.
Qed.

(** The actuators after the control steps. *)
Lemma control_stage_actuators (c : controller) :
  fw_pump_freq (control_stage c) = ceiling_60Hz (fw_pump_freq (fw_step c))
  /\ sw_pump_freq (control_stage c)
     = ceiling_60Hz (sw_pump_freq (sw_step (fw_step c)))
  /\ (counts_in_range c ->
      fw_pump_count (control_stage c)
      = (if Qlt_bool (engine_load c) 10.0 then 1 else 2)%Z
      /\ sw_pump_count (control_stage c)
         = (if Qlt_bool (engine_load c) 10.0 then 1 else 2)%Z).
Proof.
  unfold control_stage.
  set (c2 := sw_step (fw_step c)).
  destruct (scheduler_fields c2) as (P & Ef & Es & _ & _ & _ & Ec).
  rewrite check_alarm_shape.
  cbn [fw_pump_freq sw_pump_freq fw_pump_count sw_pump_count set_alarm].
  rewrite Ef, Es.
  assert (F2 : fw_pump_freq c2 = fw_pump_freq (fw_step c))
    by (unfold c2; rewrite sw_step_shape; reflexivity).
  assert (K2 : keeps_counts c c2).
  { unfold c2. rewrite sw_step_shape.
    unfold fw_step. destruct (negb _); split; reflexivity. }
  assert (L2 : engine_load c2 = engine_load c).
  { unfold c2.
    destruct (sw_step_same_plant (fw_step c))
      as (_ & _ & _ & _ & _ & _ & _ & _ & -> & _).
    apply (fw_step_same_plant c). }
  rewrite F2. split; [reflexivity |]. split; [reflexivity |].
  intro R. rewrite <- L2. apply Ec.
  exact (keeps_counts_range c c2 K2 R).
Qed.

(** ** The entry points as compositions *)

Lemma manual_update_composition
  (t4 t1 dp1 load : Q) (c : controller) (w : world) :
  let r := after_manual_update t4 t1 dp1 load c w in
  r = control_stage
        (update_flow_rates
           (calculate_t5
              (set_engine_load load (set_DP1 dp1 (set_T1 t1 (set_T4 t4 c))))))
  /\ fst (fst (manual_update t4 t1 dp1 load c w)) = (T5 r, T2 r, DP1 r).
Proof.
  cbv zeta. unfold after_manual_update.
  destruct (manual_update_pure t4 t1 dp1 load c w) as (E & _).
  cbv zeta in E. rewrite E. cbn [fst snd].
  rewrite refinement_loop_collapses.
  unfold manual_update_before_loop.
  rewrite calculate_t5_after_guard.
  generalize (update_flow_rates
                (calculate_t5
                   (set_engine_load load
                      (set_DP1 dp1 (set_T1 t1 (set_T4 t4 c)))))).
  intro c3. unfold control_stage, fw_step. split; reflexivity.
Qed.

Lemma tick_composition (c : controller) (w : world) :
  let now := clock w (clock_reads w) in
  let c1 := fst (update_system_before_loop c (snd (time_time w))) in
  let r := tick c w in
  r = record_tick now
        (control_stage
           (update_heat_exchanger_efficiency
              (update_flow_rates (calculate_t5 c1))))
  /\ fst (fst (update_system c w)) = (T5 r, T2 r, DP1 r).
Proof.
  cbv zeta. unfold tick, update_system, bind. cbn [time_time fst snd].
  destruct (update_system_before_loop c _) as [c1 w1]. cbn [fst snd].
  rewrite refinement_loop_collapses.
  generalize (update_heat_exchanger_efficiency
                (update_flow_rates (calculate_t5 c1))).
  intro c4.
  destruct (adjust_fw_pump_frequency c4 w1) as [c5 w5] eqn:E5.
  assert (F5 : c5 = fw_step c4).
  { rewrite <- (adjust_fw_is_fw_step c4 w1), E5. reflexivity. }
  destruct (adjust_sw_pump_frequency c5 w5) as [c6 w6] eqn:E6.
  assert (F6 : c6 = sw_step c5).
  { rewrite <- (adjust_sw_is_sw_step c5 w5), E6. reflexivity. }
  subst c6 c5. unfold control_stage.
  generalize (check_alarm_conditions
                (adjust_pump_count_by_load (sw_step (fw_step c4)))).
  intro c8. cbn [ret fst snd]. split; reflexivity.
Qed.

Lemma record_tick_fields (now : Q) (c : controller) :
  let r := record_tick now c in
  T1 r = T1 c /\ T2 r = T2 c /\ T4 r = T4 c /\ T5 r = T5 c
  /\ DP1 r = DP1 c /\ m_FW r = m_FW c /\ m_SW r = m_SW c
  /\ fw_pump_freq r = fw_pump_freq c /\ sw_pump_freq r = sw_pump_freq c
  /\ fw_pump_count r = fw_pump_count c
  /\ sw_pump_count r = sw_pump_count c
  /\ heat_exchanger_efficiency r = heat_exchanger_efficiency c
  /\ engine_load r = engine_load c
  /\ alarm_active r = alarm_active c
  /\ alarm_message r = alarm_message c
  /\ memory r = memory c.
Proof. repeat split. Qed.

(** X5.  Whatever the pre-state, the arguments and the world, every
    manual update and every periodic tick leaves the fresh-water
    frequency in [40,60] and the sea-water frequency in [35,60]. *)
Theorem frequencies_in_range_after_update
  (t4 t1 dp1 load : Q) (c : controller) (w : world) :
  (40 <= fw_pump_freq (after_manual_update t4 t1 dp1 load c w) <= 60
   /\ 35 <= sw_pump_freq (after_manual_update t4 t1 dp1 load c w) <= 60)
  /\ (40 <= fw_pump_freq (tick c w) <= 60
      /\ 35 <= sw_pump_freq (tick c w) <= 60).
Proof.
  assert (G : forall x : controller,
             40 <= fw_pump_freq (control_stage x) <= 60
             /\ 35 <= sw_pump_freq (control_stage x) <= 60).
  { intro x. destruct (control_stage_actuators x) as (-> & -> & _).
    split; apply ceiling_60Hz_range;
      try lra; [apply fw_step_range | apply sw_step_range]. }
  split.
  - destruct (manual_update_composition t4 t1 dp1 load c w) as [-> _].
    apply G.
  - destruct (tick_composition c w) as [-> _].
    match goal with
    | |- context [record_tick ?n ?x] =>
        destruct (record_tick_fields n x)
          as (_ & _ & _ & _ & _ & _ & _ & -> & -> & _)
    end.
    apply G.
Qed.

(** ** What a manual update leaves behind *)

Lemma control_stage_frequencies (c : controller) :
  40 <= fw_pump_freq (control_stage c) <= 60
  /\ 35 <= sw_pump_freq (control_stage c) <= 60.
Proof.
  destruct (control_stage_actuators c) as (-> & -> & _).
  split; apply ceiling_60Hz_range;
    try lra; [apply fw_step_range | apply sw_step_range].
Qed.

(** The attributes of the controller after [manual_update] that the
    control steps do not write. *)
Lemma manual_update_plant
  (t4 t1 dp1 load : Q) (c : controller) (w : world) :
  let s0 := set_engine_load load (set_DP1 dp1 (set_T1 t1 (set_T4 t4 c))) in
  let r := after_manual_update t4 t1 dp1 load c w in
  (T1 r = t1 /\ T4 r = t4 /\ DP1 r = dp1 /\ engine_load r = load)
  /\ (T5 r = T5 (calculate_t5 s0) /\ T2 r = T2 (calculate_t5 s0))
  /\ (m_FW r = 1290.0 * (fw_pump_freq c / 60.0) * inject_Z (fw_pump_count c)
      /\ m_SW r
         = 1500.0 * (sw_pump_freq c / 60.0) * inject_Z (sw_pump_count c))
  /\ (columns r = columns c /\ data_log r = data_log c
      /\ last_update_time r = last_update_time c
      /\ operating_hours r = operating_hours c
      /\ simulation_mode r = simulation_mode c
      /\ user_input_mode r = user_input_mode c
      /\ heat_exchanger_efficiency r = heat_exchanger_efficiency c).
Proof.
  intros s0 r.
  destruct (manual_update_composition t4 t1 dp1 load c w) as [E _].
  fold s0 r in E.
  set (s2 := update_flow_rates (calculate_t5 s0)) in E.
  destruct (control_stage_same_plant s2)
    as (E1 & E2 & E4 & E5 & Ed & Ef & Es & Eh & El & Em & Eu & Et & Eo
        & Ec & Eg).
  rewrite <- E in *.
  rewrite E1, E2, E4, E5, Ed, Ef, Es, Eh, El, Em, Eu, Et, Eo, Ec, Eg.
  unfold s2. rewrite (calculate_t5_factored s0).
  repeat split.
Qed.

Lemma flow_range_fw (f : Q) (n : Z) :
  40 <= f <= 60 -> (1 <= n <= 2)%Z ->
  860 <= 1290.0 * (f / 60.0) * inject_Z n <= 2580.
Proof.
  intros Hf Hn.
  assert (E : 1290.0 * (f / 60.0) * inject_Z n
              == f * (43 # 2) * inject_Z n) by field.
  rewrite E.
  assert (C : n = 1%Z \/ n = 2%Z) by lia.
  destruct C as [-> | ->]; unfold inject_Z; lra.
Qed.

Lemma flow_range_sw (f : Q) (n : Z) :
  35 <= f <= 60 -> (1 <= n <= 2)%Z ->
  875 <= 1500.0 * (f / 60.0) * inject_Z n <= 3000.
Proof.
  intros Hf Hn.
  assert (E : 1500.0 * (f / 60.0) * inject_Z n
              == f * 25 * inject_Z n) by field.
  rewrite E.
  assert (C : n = 1%Z \/ n = 2%Z) by lia.
  destruct C as [-> | ->]; unfold inject_Z; lra.
Qed.

Lemma control_stage_counts (c : controller) :
  counts_in_range c -> counts_in_range (control_stage c).
Proof.
  intro R. destruct (control_stage_actuators c) as (_ & _ & Ec).
  destruct (Ec R) as [E1 E2]. unfold counts_in_range.
  rewrite E1, E2. destruct (Qlt_bool _ _); lia.
Qed.

(** X6.  Actuators in range are an invariant of manual updates, and
    they keep the flows in range: if beforehand both counts are 1 or
    2, the fresh-water frequency is in [40,60] and the sea-water
    frequency in [35,60], then the same holds afterwards, and the
    flows left by the update satisfy [860 <= m_FW <= 2580] and
    [875 <= m_SW <= 3000]; in particular neither flow is ever zero. *)
Theorem manual_update_keeps_ranges
  (t4 t1 dp1 load : Q) (c : controller) (w : world) :
  actuators_in_range c ->
  actuators_in_range (after_manual_update t4 t1 dp1 load c w)
  /\ flows_in_range (after_manual_update t4 t1 dp1 load c w).
Proof.
  intros (Rc & Rf & Rs).
  destruct (manual_update_plant t4 t1 dp1 load c w)
    as (_ & _ & (Ef & Es) & _).
  split.
  - destruct (manual_update_composition t4 t1 dp1 load c w) as [-> _].
    split; [| apply control_stage_frequencies].
    apply control_stage_counts.
    rewrite (calculate_t5_factored _). exact Rc.
  - unfold flows_in_range. rewrite Ef, Es.
    destruct Rc as [R1 R2].
    split; [apply flow_range_fw | apply flow_range_sw]; assumption.
Qed.

Lemma manual_update_keeps_ranges_witness :
  actuators_in_range fresh_controller
  /\ flows_in_range
       (after_manual_update 36 25 1.5 75 fresh_controller (still_world 0)).
Proof.
  assert (H : actuators_in_range fresh_controller).
  { unfold actuators_in_range, counts_in_range. vm_compute.
    intuition discriminate. }
  split; [exact H |].
  exact (proj2 (manual_update_keeps_ranges 36 25 1.5 75 fresh_controller
                  (still_world 0) H)).
Defined.

(** X7.  With nonnegative flows in the pre-state and [t1 <= t4], a
    manual update stores its four arguments unchanged, leaves both
    outlet temperatures between them, and returns exactly the stored
    [T5], [T2] and the given [dp1]. *)
Theorem manual_update_outlets_between_inputs
  (t4 t1 dp1 load : Q) (c : controller) (w : world) :
  0 <= m_FW c -> 0 <= m_SW c -> t1 <= t4 ->
  let r := after_manual_update t4 t1 dp1 load c w in
  (T1 r = t1 /\ T4 r = t4 /\ DP1 r = dp1 /\ engine_load r = load)
  /\ t1 <= T5 r <= t4
  /\ t1 <= T2 r <= t4
  /\ fst (fst (manual_update t4 t1 dp1 load c w)) = (T5 r, T2 r, dp1).
Proof.
  intros Hf Hs H r.
  destruct (manual_update_plant t4 t1 dp1 load c w)
    as (Ein & (E5 & E2) & _).
  fold r in Ein, E5, E2.
  split; [exact Ein |].
  destruct (calculate_t5_bounds_0314
              (set_engine_load load (set_DP1 dp1 (set_T1 t1 (set_T4 t4 c))))
              Hf Hs H) as [B5 B2].
  cbn [T1 T4 set_engine_load set_DP1 set_T1 set_T4] in B5, B2.
  rewrite E5, E2. split; [exact B5 |]. split; [exact B2 |].
  destruct (manual_update_composition t4 t1 dp1 load c w) as [_ ->].
  fold r. destruct Ein as (_ & _ & -> & _). rewrite E5, E2. reflexivity.
Qed.

Lemma manual_update_outlets_between_inputs_witness :
  (0 <= m_FW fresh_controller /\ 0 <= m_SW fresh_controller /\ 25 <= 38)
  /\ 25 <= T5 (after_manual_update 38 25 1.5 75 fresh_controller
                 (still_world 0)) <= 38.
Proof.
  assert (H : 0 <= m_FW fresh_controller /\ 0 <= m_SW fresh_controller
              /\ 25 <= 38)
    by (repeat split; vm_compute; discriminate).
  split; [exact H |].
  destruct H as (H1 & H2 & H3).
  exact (proj1 (proj2 (manual_update_outlets_between_inputs
                         38 25 1.5 75 fresh_controller (still_world 0)
                         H1 H2 H3))).
Defined.

(** X8.  A manual update is never recorded: it leaves the twelve
    columns, [data_log], the clock attributes, the two mode flags and
    the heat-exchanger efficiency exactly as they were. *)
Theorem manual_update_is_not_recorded
  (t4 t1 dp1 load : Q) (c : controller) (w : world) :
  let r := after_manual_update t4 t1 dp1 load c w in
  columns r = columns c /\ data_log r = data_log c
  /\ last_update_time r = last_update_time c
  /\ operating_hours r = operating_hours c
  /\ simulation_mode r = simulation_mode c
  /\ user_input_mode r = user_input_mode c
  /\ heat_exchanger_efficiency r = heat_exchanger_efficiency c.
Proof.
  intro r.
  destruct (manual_update_plant t4 t1 dp1 load c w) as (_ & _ & _ & H).
  exact H.
Qed.

(** ** What a periodic tick leaves behind *)

(** The state the loop of [update_system] starts from: only the two
    inlets and the efficiency can differ from the pre-state, and after
    a simulation step the inlets are inside their clamps. *)
Lemma before_loop_fields (c : controller) (w : world) :
  let c1 := fst (update_system_before_loop c w) in
  (T2 c1 = T2 c /\ T5 c1 = T5 c /\ DP1 c1 = DP1 c
   /\ engine_load c1 = engine_load c
   /\ m_FW c1 = m_FW c /\ m_SW c1 = m_SW c
   /\ fw_pump_freq c1 = fw_pump_freq c /\ sw_pump_freq c1 = sw_pump_freq c
   /\ fw_pump_count c1 = fw_pump_count c
   /\ sw_pump_count c1 = sw_pump_count c)
  /\ (last_update_time c1 = last_update_time c
      /\ operating_hours c1 = operating_hours c
      /\ columns c1 = columns c /\ data_log c1 = data_log c
      /\ simulation_mode c1 = simulation_mode c
      /\ user_input_mode c1 = user_input_mode c
      /\ memory c1 = memory c)
  /\ (if simulation_mode c && negb (user_input_mode c)
      then 0 <= T1 c1 <= 36 /\ 36 <= T4 c1 <= 53
      else T1 c1 = T1 c /\ T4 c1 = T4 c).
Proof.
  unfold update_system_before_loop.
  destruct (simulation_mode c && negb (user_input_mode c)).
  - unfold simulate_temperature_changes, bind, time_time,
      np_random_randn, ret.
    cbn [fst snd T1 T2 T4 T5 DP1 engine_load m_FW m_SW fw_pump_freq
         sw_pump_freq fw_pump_count sw_pump_count last_update_time
         operating_hours columns data_log simulation_mode
         user_input_mode memory set_T1 set_T4
         set_heat_exchanger_efficiency].
    repeat split;
      match goal with
      | |- _ <= py_max ?lo (py_min ?hi ?x) =>
          destruct (clamp_bounds lo hi x); lra
      | |- py_max ?lo (py_min ?hi ?x) <= _ =>
          destruct (clamp_bounds lo hi x); lra
      end.
  - cbn [ret fst]. repeat split.
Qed.

Lemma record_tick_clock (now : Q) (c : controller) :
  let r := record_tick now c in
  last_update_time r = now
  /\ operating_hours r
     = operating_hours c + (now - last_update_time c) / 3600.0
  /\ simulation_mode r = simulation_mode c
  /\ user_input_mode r = user_input_mode c.
Proof. repeat split. Qed.

(** The state handed to the control steps by [update_system]. *)
Lemma solved_state_fields (c1 : controller) :
  let s3 :=
    update_heat_exchanger_efficiency
      (update_flow_rates (calculate_t5 c1)) in
  (T1 s3 = T1 c1 /\ T4 s3 = T4 c1 /\ DP1 s3 = DP1 c1
   /\ engine_load s3 = engine_load c1)
  /\ (T5 s3 = T5 (calculate_t5 c1) /\ T2 s3 = T2 (calculate_t5 c1))
  /\ (m_FW s3
      = 1290.0 * (fw_pump_freq c1 / 60.0) * inject_Z (fw_pump_count c1)
      /\ m_SW s3
         = 1500.0 * (sw_pump_freq c1 / 60.0) * inject_Z (sw_pump_count c1))
  /\ heat_exchanger_efficiency s3 = 0.75
  /\ (last_update_time s3 = last_update_time c1
      /\ operating_hours s3 = operating_hours c1
      /\ simulation_mode s3 = simulation_mode c1
      /\ user_input_mode s3 = user_input_mode c1
      /\ columns s3 = columns c1 /\ data_log s3 = data_log c1)
  /\ (fw_pump_freq s3 = fw_pump_freq c1
      /\ sw_pump_freq s3 = sw_pump_freq c1
      /\ fw_pump_count s3 = fw_pump_count c1
      /\ sw_pump_count s3 = sw_pump_count c1
      /\ memory s3 = memory c1).
Proof.
  cbv zeta. rewrite (calculate_t5_factored c1). repeat split.
Qed.

Lemma tick_plant (c : controller) (w : world) :
  let now := clock w (clock_reads w) in
  let c1 := fst (update_system_before_loop c (snd (time_time w))) in
  let r := tick c w in
  (T1 r = T1 c1 /\ T4 r = T4 c1 /\ DP1 r = DP1 c
   /\ engine_load r = engine_load c)
  /\ (T5 r = T5 (calculate_t5 c1) /\ T2 r = T2 (calculate_t5 c1))
  /\ (m_FW r = 1290.0 * (fw_pump_freq c / 60.0) * inject_Z (fw_pump_count c)
      /\ m_SW r
         = 1500.0 * (sw_pump_freq c / 60.0) * inject_Z (sw_pump_count c))
  /\ heat_exchanger_efficiency r = 0.75
  /\ (last_update_time r = now
      /\ operating_hours r
         = operating_hours c + (now - last_update_time c) / 3600.0)
  /\ (simulation_mode r = simulation_mode c
      /\ user_input_mode r = user_input_mode c).
Proof.
  intros now c1 r.
  destruct (tick_composition c w) as [E _]. fold now c1 r in E.
  destruct (before_loop_fields c (snd (time_time w)))
    as ((_ & _ & Bd & Bl & _ & _ & Bf & Bs & Bn & Bm)
        & (Bt & Bo & _ & _ & Bsm & Bum & _) & _).
  fold c1 in Bd, Bl, Bf, Bs, Bn, Bm, Bt, Bo, Bsm, Bum.
  destruct (solved_state_fields c1)
    as ((S1 & S4 & Sd & Sl) & (S5 & S2) & (Sf & Ss) & Sh
        & (St & So & Ssm & Sum & _) & _).
  revert E S1 S4 Sd Sl S5 S2 Sf Ss Sh St So Ssm Sum.
  generalize (update_heat_exchanger_efficiency
                (update_flow_rates (calculate_t5 c1))).
  intros s3 E S1 S4 Sd Sl S5 S2 Sf Ss Sh St So Ssm Sum.
  destruct (control_stage_same_plant s3)
    as (E1 & E2 & E4 & E5 & Ed & Ef & Es & Eh & El & Em & Eu & Et & Eo
        & _ & _).
  revert E E1 E2 E4 E5 Ed Ef Es Eh El Em Eu Et Eo.
  generalize (control_stage s3).
  intros c8 E E1 E2 E4 E5 Ed Ef Es Eh El Em Eu Et Eo.
  destruct (record_tick_fields now c8)
    as (R1 & R2 & R4 & R5 & Rd & Rf & Rs & _ & _ & _ & _ & Rh & Rl & _).
  destruct (record_tick_clock now c8) as (Rt & Ro & Rsm & Rum).
  rewrite E.
  rewrite R1, R2, R4, R5, Rd, Rf, Rs, Rh, Rl, Rt, Ro, Rsm, Rum.
  rewrite E1, E2, E4, E5, Ed, Ef, Es, Eh, El, Em, Eu, Et, Eo.
  rewrite S1, S4, Sd, Sl, S5, S2, Sf, Ss, Sh, St, So, Ssm, Sum.
  rewrite Bd, Bl, Bf, Bs, Bn, Bm, Bt, Bo, Bsm, Bum.
  repeat split.
Qed.

(** X9.  Actuators in range are also an invariant of the periodic
    tick, whatever the world, and the flows it leaves are in range. *)
Theorem tick_keeps_ranges (c : controller) (w : world) :
  actuators_in_range c ->
  actuators_in_range (tick c w) /\ flows_in_range (tick c w).
Proof.
  intros (Rc & Rf & Rs).
  destruct (tick_plant c w) as (_ & _ & (Ef & Es) & _).
  split.
  - split; [apply tick_keeps_range; exact Rc |].
    destruct (tick_composition c w) as [-> _].
    match goal with
    | |- context [record_tick ?n ?x] =>
        destruct (record_tick_fields n x)
          as (_ & _ & _ & _ & _ & _ & _ & -> & -> & _)
    end.
    apply control_stage_frequencies.
  - unfold flows_in_range. rewrite Ef, Es.
    destruct Rc as [R1 R2].
    split; [apply flow_range_fw | apply flow_range_sw]; assumption.
Qed.

Lemma tick_keeps_ranges_witness :
  actuators_in_range fresh_controller
  /\ flows_in_range (tick fresh_controller (still_world 0)).
Proof.
  assert (H : actuators_in_range fresh_controller).
  { unfold actuators_in_range, counts_in_range. vm_compute.
    intuition discriminate. }
  split; [exact H |].
  exact (proj2 (tick_keeps_ranges fresh_controller (still_world 0) H)).
Defined.

(** X10.  In simulation mode a tick leaves, for every random sample,
    the sea-water inlet in [0,36] and the fresh-water inlet in
    [36,53]; with nonnegative flows both outlets then lie between the
    two inlets. *)
Theorem simulated_tick_temperatures (c : controller) (w : world) :
  simulation_mode c = true -> user_input_mode c = false ->
  0 <= m_FW c -> 0 <= m_SW c ->
  let r := tick c w in
  0 <= T1 r <= 36 /\ 36 <= T4 r <= 53
  /\ T1 r <= T5 r <= T4 r /\ T1 r <= T2 r <= T4 r.
Proof.
  intros Hs Hu Hf Hw r.
  destruct (tick_plant c w) as ((E1 & E4 & _) & (E5 & E2) & _).
  fold r in E1, E4, E5, E2.
  destruct (before_loop_fields c (snd (time_time w)))
    as ((_ & _ & _ & _ & Bf & Bs & _) & _ & B).
  rewrite Hs, Hu in B. cbn [negb andb] in B. destruct B as [B1 B4].
  rewrite E1, E4, E5, E2.
  set (c1 := fst (update_system_before_loop c (snd (time_time w)))) in *.
  split; [exact B1 |]. split; [exact B4 |].
  apply calculate_t5_bounds_0314; [rewrite Bf | rewrite Bs | lra];
    assumption.
Qed.

Lemma simulated_tick_temperatures_witness :
  (simulation_mode fresh_controller = true
   /\ user_input_mode fresh_controller = false
   /\ 0 <= m_FW fresh_controller /\ 0 <= m_SW fresh_controller)
  /\ 0 <= T1 (tick fresh_controller (still_world 100)) <= 36.
Proof.
  assert (H : simulation_mode fresh_controller = true
              /\ user_input_mode fresh_controller = false
              /\ 0 <= m_FW fresh_controller /\ 0 <= m_SW fresh_controller)
    by (repeat split; vm_compute; discriminate).
  split; [exact H |].
  destruct H as (H1 & H2 & H3 & H4).
  exact (proj1 (simulated_tick_temperatures fresh_controller
                  (still_world 100) H1 H2 H3 H4)).
Defined.


(** ** Alarms after a manual update *)

Lemma check_alarm_active (c : controller) :
  alarm_active (check_alarm_conditions c)
  = Qlt_bool 40.0 (T5 c) || Qlt_bool 49.0 (T2 c)
    || Qlt_bool (DP1 c) 0.5 || Qlt_bool 2.5 (DP1 c).
Proof.
  unfold check_alarm_conditions. cbn [T5 T2 DP1 set_alarm].
  destruct (Qlt_bool 40.0 (T5 c)); cbn [T5 T2 DP1 set_alarm];
    destruct (Qlt_bool 49.0 (T2 c)); cbn [T5 T2 DP1 set_alarm];
    destruct (Qlt_bool (DP1 c) 0.5); cbn [T5 T2 DP1 set_alarm];
    destruct (Qlt_bool 2.5 (DP1 c)); reflexivity.
Qed.

Lemma check_alarm_quiet (c : controller) :
  alarm_active (check_alarm_conditions c) = false ->
  alarm_message (check_alarm_conditions c) = NoAlarmText.
Proof.
  unfold check_alarm_conditions. cbn [T5 T2 DP1 set_alarm].
  destruct (Qlt_bool 40.0 (T5 c)); cbn [T5 T2 DP1 set_alarm];
    destruct (Qlt_bool 49.0 (T2 c)); cbn [T5 T2 DP1 set_alarm];
    destruct (Qlt_bool (DP1 c) 0.5); cbn [T5 T2 DP1 set_alarm];
    destruct (Qlt_bool 2.5 (DP1 c)); cbn; congruence.
Qed.

Lemma control_stage_alarm (c : controller) :
  alarm_active (control_stage c)
  = Qlt_bool 40.0 (T5 c) || Qlt_bool 49.0 (T2 c)
    || Qlt_bool (DP1 c) 0.5 || Qlt_bool 2.5 (DP1 c).
Proof.
  unfold control_stage. rewrite check_alarm_active.
  assert (P : same_plant c
                (adjust_pump_count_by_load (sw_step (fw_step c)))).
  { eapply same_plant_trans; [apply fw_step_same_plant |].
    eapply same_plant_trans;
      [apply sw_step_same_plant | apply scheduler_fields]. }
  destruct P as (_ & -> & _ & -> & -> & _). reflexivity.
Qed.

(** X12.  After a manual update with nonnegative flows beforehand and
    [t1 <= t4], an alarm can only be active if the fresh-water inlet
    exceeds 40 or the pressure is outside [0.5, 2.5]; a pressure
    outside that band always raises the alarm; and an inactive alarm
    always comes with an empty message. *)
Theorem manual_update_alarm_causes
  (t4 t1 dp1 load : Q) (c : controller) (w : world) :
  0 <= m_FW c -> 0 <= m_SW c -> t1 <= t4 ->
  let r := after_manual_update t4 t1 dp1 load c w in
  (alarm_active r = true -> 40 < t4 \/ dp1 < 0.5 \/ 2.5 < dp1)
  /\ (dp1 < 0.5 \/ 2.5 < dp1 -> alarm_active r = true)
  /\ (alarm_active r = false -> alarm_message r = NoAlarmText).
Proof.
  intros Hf Hs H r.
  destruct (manual_update_composition t4 t1 dp1 load c w) as [E _].
  fold r in E.
  set (s0 := set_engine_load load (set_DP1 dp1 (set_T1 t1 (set_T4 t4 c))))
    in E.
  destruct (calculate_t5_bounds_0314 s0 Hf Hs H) as [B5 B2].
  cbn [T1 T4 s0 set_engine_load set_DP1 set_T1 set_T4] in B5, B2.
  assert (A : alarm_active r
              = Qlt_bool 40.0 (T5 (calculate_t5 s0))
                || Qlt_bool 49.0 (T2 (calculate_t5 s0))
                || Qlt_bool dp1 0.5 || Qlt_bool 2.5 dp1).
  { rewrite E, control_stage_alarm.
    rewrite (calculate_t5_factored s0). reflexivity. }
  split; [| split].
  - rewrite A.
    destruct (Qlt_bool_spec 40.0 (T5 (calculate_t5 s0)));
      destruct (Qlt_bool_spec 49.0 (T2 (calculate_t5 s0)));
      destruct (Qlt_bool_spec dp1 0.5);
      destruct (Qlt_bool_spec 2.5 dp1); cbn; intro G;
      try discriminate; try (left; lra); try (right; left; lra);
      right; right; lra.
  - rewrite A. intros [G | G].
    + destruct (Qlt_bool_spec dp1 0.5) as [_ | N]; [| lra].
      rewrite !orb_true_r. reflexivity.
    + destruct (Qlt_bool_spec 2.5 dp1) as [_ | N]; [| lra].
      rewrite !orb_true_r. reflexivity.
  - rewrite E. unfold control_stage. apply check_alarm_quiet.
Qed.

Lemma manual_update_alarm_causes_witness :
  (0 <= m_FW fresh_controller /\ 0 <= m_SW fresh_controller /\ 25 <= 38)
  /\ alarm_active (after_manual_update 38 25 0.3 75 fresh_controller
                     (still_world 0)) = true.
Proof.
  assert (H : 0 <= m_FW fresh_controller /\ 0 <= m_SW fresh_controller
              /\ 25 <= 38)
    by (repeat split; vm_compute; discriminate).
  split; [exact H |].
  destruct H as (H1 & H2 & H3).
  refine (proj1 (proj2 (manual_update_alarm_causes
                          38 25 0.3 75 fresh_controller (still_world 0)
                          H1 H2 H3)) _).
  left. vm_compute. reflexivity.
Defined.

(** ** The history written by a tick *)

Lemma record_tick_history (now : Q) (c8 : controller) :
  columns (record_tick now c8) = limit_columns (append_columns now c8)
  /\ data_log (record_tick now c8)
     = data_log c8 ++ [snapshot now c8].
Proof. split; reflexivity. Qed.

Lemma last_n_snoc_last {A : Type} (n : nat) (xs : list A) (x d : A) :
  (1 <= n)%nat -> last (last_n n (xs ++ [x])) d = x.
Proof.
  intro Hn. unfold last_n. rewrite length_app. cbn [length].
  destruct (Nat.le_gt_cases (length xs + 1 - n) (length xs)) as [L | L];
    [| lia].
  rewrite skipn_app.
  replace (length xs + 1 - n - length xs)%nat with 0%nat by lia.
  cbn [skipn]. apply last_last.
Qed.

Lemma limit_columns_lengths (n : nat) (s : series) :
  columns_have_length n s ->
  columns_have_length (Nat.min max_data_points n) (limit_columns s).
Proof.
  unfold columns_have_length, column_lengths, limit_columns.
  intro H.
  repeat match goal with
         | H : Forall _ (_ :: _) |- _ => inversion H; subst; clear H
         end.
  destruct (Nat.ltb_spec max_data_points (length (time_data s)));
    cbn [time_data t1_data t2_data t4_data t5_data dp1_data fw_freq_data
         sw_freq_data fw_count_data sw_count_data efficiency_data
         engine_load_data];
    repeat constructor; rewrite ?last_n_length; lia.
Qed.

Lemma append_columns_lengths (n : nat) (now : Q) (c : controller) :
  columns_have_length n (columns c) ->
  columns_have_length (S n) (append_columns now c).
Proof.
  unfold columns_have_length, column_lengths, append_columns.
  intro H.
  repeat match goal with
         | H : Forall _ (_ :: _) |- _ => inversion H; subst; clear H
         end.
  cbn [time_data t1_data t2_data t4_data t5_data dp1_data fw_freq_data
       sw_freq_data fw_count_data sw_count_data efficiency_data
       engine_load_data].
  repeat constructor; rewrite length_app; cbn [length]; lia.
Qed.

(** X13.  The twelve columns stay aligned: if they all have [n]
    entries before a tick, they all have [min 1000 (n + 1)] entries
    afterwards, so a row index valid for [time_data] is valid for
    every column. *)
Theorem columns_stay_aligned (n : nat) (c : controller) (w : world) :
  columns_have_length n (columns c) ->
  columns_have_length (Nat.min max_data_points (S n))
    (columns (tick c w)).
Proof.
  intro H.
  destruct (tick_history c w) as (c8 & [K _] & -> & _).
  apply limit_columns_lengths, append_columns_lengths.
  rewrite K. exact H.
Qed.

Lemma columns_stay_aligned_witness :
  columns_have_length 0 (columns fresh_controller)
  /\ columns_have_length 1 (columns (tick fresh_controller (still_world 0))).
Proof.
  assert (H : columns_have_length 0 (columns fresh_controller))
    by (repeat constructor).
  split; [exact H |].
  exact (columns_stay_aligned 0 fresh_controller (still_world 0) H).
Defined.

Lemma limit_columns_last (s : series) (dq : Q) (dz : Z)
  (t a b e f g h i k l : Q) (m n : Z) (s0 : series) :
  s = {| time_data := time_data s0 ++ [t];
         t1_data := t1_data s0 ++ [a];
         t2_data := t2_data s0 ++ [b];
         t4_data := t4_data s0 ++ [e];
         t5_data := t5_data s0 ++ [f];
         dp1_data := dp1_data s0 ++ [g];
         fw_freq_data := fw_freq_data s0 ++ [h];
         sw_freq_data := sw_freq_data s0 ++ [i];
         fw_count_data := fw_count_data s0 ++ [m];
         sw_count_data := sw_count_data s0 ++ [n];
         efficiency_data := efficiency_data s0 ++ [k];
         engine_load_data := engine_load_data s0 ++ [l] |} ->
  let r := limit_columns s in
  last (time_data r) dq = t /\ last (t1_data r) dq = a
  /\ last (t2_data r) dq = b /\ last (t4_data r) dq = e
  /\ last (t5_data r) dq = f /\ last (dp1_data r) dq = g
  /\ last (fw_freq_data r) dq = h /\ last (sw_freq_data r) dq = i
  /\ last (fw_count_data r) dz = m /\ last (sw_count_data r) dz = n
  /\ last (efficiency_data r) dq = k
  /\ last (engine_load_data r) dq = l.
Proof.
  intros -> r. unfold r, limit_columns.
  cbn [time_data].
  destruct (max_data_points <? _)%nat;
    cbn [time_data t1_data t2_data t4_data t5_data dp1_data fw_freq_data
         sw_freq_data fw_count_data sw_count_data efficiency_data
         engine_load_data];
    repeat split;
    first [ apply last_last
          | apply last_n_snoc_last; unfold max_data_points; lia ].
Qed.

(** X14.  The row a tick appends is the state it leaves: after the
    tick the last entry of every column, and the last snapshot of
    [data_log], hold the time stamp of the tick and the attributes of
    the controller after the tick; the returned triple is the last
    entry of the [T5], [T2] and [DP1] columns. *)
Theorem tick_records_final_state
  (c : controller) (w : world) (dq : Q) (dz : Z) (dp : data_point) :
  let now := clock w (clock_reads w) in
  let r := tick c w in
  let s := columns r in
  (last (time_data s) dq = now /\ last (t1_data s) dq = T1 r
   /\ last (t2_data s) dq = T2 r /\ last (t4_data s) dq = T4 r
   /\ last (t5_data s) dq = T5 r /\ last (dp1_data s) dq = DP1 r
   /\ last (fw_freq_data s) dq = fw_pump_freq r
   /\ last (sw_freq_data s) dq = sw_pump_freq r
   /\ last (fw_count_data s) dz = fw_pump_count r
   /\ last (sw_count_data s) dz = sw_pump_count r
   /\ last (efficiency_data s) dq = heat_exchanger_efficiency r
   /\ last (engine_load_data s) dq = engine_load r)
  /\ last (data_log r) dp
     = {| dp_Time := now; dp_T1 := T1 r; dp_T2 := T2 r; dp_T4 := T4 r;
          dp_T5 := T5 r; dp_DP1 := DP1 r;
          dp_FW_FREQ := fw_pump_freq r; dp_SW_FREQ := sw_pump_freq r;
          dp_FW_COUNT := fw_pump_count r; dp_SW_COUNT := sw_pump_count r;
          dp_EFFICIENCY := heat_exchanger_efficiency r;
          dp_ENGINE_LOAD := engine_load r;
          dp_FW_FLOW := m_FW r; dp_SW_FLOW := m_SW r |}
  /\ fst (fst (update_system c w))
     = (last (t5_data s) dq, last (t2_data s) dq, last (dp1_data s) dq).
Proof.
  intros now r s.
  destruct (tick_composition c w) as [E Eret]. fold now r in E, Eret.
  revert E. generalize (control_stage
    (update_heat_exchanger_efficiency
       (update_flow_rates
          (calculate_t5
             (fst (update_system_before_loop c (snd (time_time w)))))))).
  intros c8 E.
  destruct (record_tick_fields now c8)
    as (R1 & R2 & R4 & R5 & Rd & Rf & Rs & Rff & Rsf & Rfc & Rsc
        & Rh & Rl & _).
  destruct (record_tick_history now c8) as [Hc Hd].
  rewrite <- E in R1, R2, R4, R5, Rd, Rf, Rs, Rff, Rsf, Rfc, Rsc, Rh, Rl,
    Hc, Hd.
  assert (L : last (time_data s) dq = now /\ last (t1_data s) dq = T1 c8
    /\ last (t2_data s) dq = T2 c8 /\ last (t4_data s) dq = T4 c8
    /\ last (t5_data s) dq = T5 c8 /\ last (dp1_data s) dq = DP1 c8
    /\ last (fw_freq_data s) dq = fw_pump_freq c8
    /\ last (sw_freq_data s) dq = sw_pump_freq c8
    /\ last (fw_count_data s) dz = fw_pump_count c8
    /\ last (sw_count_data s) dz = sw_pump_count c8
    /\ last (efficiency_data s) dq = heat_exchanger_efficiency c8
    /\ last (engine_load_data s) dq = engine_load c8).
  { unfold s. rewrite Hc.
    apply (limit_columns_last (append_columns now c8) dq dz) with
      (s0 := columns c8).
    reflexivity. }
  rewrite R1, R2, R4, R5, Rd, Rf, Rs, Rff, Rsf, Rfc, Rsc, Rh, Rl.
  split; [exact L |].
  split.
  - rewrite Hd, last_last. reflexivity.
  - rewrite Eret, R5, R2, Rd.
    destruct L as (_ & _ & -> & _ & -> & -> & _). reflexivity.
Qed.

(** * The random data generator *)

Lemma region_ranges_ordered (region : string) (g : generator) :
  let r := fst (set_region_temperatures region g) in
  t1_min r <= t1_max r /\ t4_min r <= t4_max r
  /\ t1_max r <= t4_min r
  /\ 0 <= t1_min r /\ t1_max r <= 36 /\ 36 <= t4_min r /\ t4_max r <= 53
  /\ 10 <= engine_load_min r <= engine_load_max r
  /\ engine_load_max r <= 100.
Proof.
  unfold set_region_temperatures.
  destruct (String.eqb region region_polar);
    [| destruct (String.eqb region region_temperate);
       [| destruct (String.eqb region region_tropical)]];
    cbn [fst t1_min t1_max t4_min t4_max engine_load_min engine_load_max];
    lra.
Qed.

Lemma set_region_keeps_directions (region : string) (g : generator) :
  let g0 := snd (set_region_temperatures region g) in
  t1_direction g0 = t1_direction g /\ t4_direction g0 = t4_direction g.
Proof.
  unfold set_region_temperatures.
  destruct (String.eqb region region_polar);
    [| destruct (String.eqb region region_temperate);
       [| destruct (String.eqb region region_tropical)]];
    split; reflexivity.
Qed.

Ltac generator_cases :=
  cbn [current_t1 current_t4 t1_direction t4_direction
       set_current_t1 set_current_t4 set_t1_direction set_t4_direction
       fst snd];
  repeat match goal with
         | |- context [if Qle_bool ?a ?b then _ else _] =>
             destruct (Qle_bool_spec a b);
             cbn [current_t1 current_t4 t1_direction t4_direction
                  set_current_t1 set_current_t4 set_t1_direction
                  set_t4_direction fst snd]
         | |- context [if Qlt_bool ?a ?b then _ else _] =>
             destruct (Qlt_bool_spec a b);
             cbn [current_t1 current_t4 t1_direction t4_direction
                  set_current_t1 set_current_t4 set_t1_direction
                  set_t4_direction fst snd]
         end.

(** One step of the [T1] walk: the value returned is the stored one,
    it lies within the bounds, the [T4] attributes are untouched and a
    direction stays a direction. *)
Lemma step_t1_facts (lo hi : Q) (g : generator) (s : random_source) :
  lo <= hi ->
  let v := fst (fst (step_t1 lo hi g s)) in
  let g' := snd (fst (step_t1 lo hi g s)) in
  lo <= v <= hi /\ current_t1 g' = v
  /\ current_t4 g' = current_t4 g /\ t4_direction g' = t4_direction g
  /\ (is_direction (t1_direction g) -> is_direction (t1_direction g'))
  /\ random_calls (snd (step_t1 lo hi g s)) = S (S (random_calls s)).
Proof.
  intro H. unfold step_t1, random_uniform, random_random, is_direction.
  generator_cases; repeat split; try lra; try reflexivity; intros; lia.
Qed.

Lemma step_t4_facts (lo hi : Q) (g : generator) (s : random_source) :
  lo <= hi ->
  let v := fst (fst (step_t4 lo hi g s)) in
  let g' := snd (fst (step_t4 lo hi g s)) in
  lo <= v <= hi /\ current_t4 g' = v
  /\ current_t1 g' = current_t1 g /\ t1_direction g' = t1_direction g
  /\ (is_direction (t4_direction g) -> is_direction (t4_direction g'))
  /\ random_calls (snd (step_t4 lo hi g s)) = S (S (random_calls s)).
Proof.
  intro H. unfold step_t4, random_uniform, random_random, is_direction.
  generator_cases; repeat split; try lra; try reflexivity; intros; lia.
Qed.

(** X15.  Whatever the generator state and whatever the random
    source returns, [generate_t1_temperature] returns a value in
    [0,36] and [generate_t4_temperature] one in [36,53]; the region
    variants stay within the range of their region, and for every
    region the sea-water value is at most the fresh-water value. *)
Theorem generated_temperatures_in_range
  (region : string) (g g' : generator) (s s' : random_source) :
  0 <= fst (fst (generate_t1_temperature g s)) <= 36
  /\ 36 <= fst (fst (generate_t4_temperature g' s')) <= 53
  /\ (let r := fst (set_region_temperatures region g) in
      t1_min r <= fst (fst (generate_t1_temperature_by_region region g s))
      <= t1_max r)
  /\ (let r := fst (set_region_temperatures region g') in
      t4_min r <= fst (fst (generate_t4_temperature_by_region region g' s'))
      <= t4_max r)
  /\ fst (fst (generate_t1_temperature g s))
     <= fst (fst (generate_t4_temperature g' s'))
  /\ fst (fst (generate_t1_temperature_by_region region g s))
     <= fst (fst (generate_t4_temperature_by_region region g' s')).
Proof.
  assert (A : 0 <= fst (fst (generate_t1_temperature g s)) <= 36).
  { destruct (step_t1_facts 0.0 36.0 g s) as (B & _); [lra |].
    unfold generate_t1_temperature. lra. }
  assert (B : 36 <= fst (fst (generate_t4_temperature g' s')) <= 53).
  { destruct (step_t4_facts 36.0 53.0 g' s') as (B & _); [lra |].
    unfold generate_t4_temperature. lra. }
  destruct (region_ranges_ordered region g)
    as (O1 & _ & O3 & _).
  destruct (region_ranges_ordered region g')
    as (_ & O2' & O3' & _).
  assert (C : let r := fst (set_region_temperatures region g) in
              t1_min r
              <= fst (fst (generate_t1_temperature_by_region region g s))
              <= t1_max r).
  { unfold generate_t1_temperature_by_region.
    destruct (set_region_temperatures region g) as [r g0].
    cbn [fst] in *. apply step_t1_facts. exact O1. }
  assert (D : let r := fst (set_region_temperatures region g') in
              t4_min r
              <= fst (fst (generate_t4_temperature_by_region region g' s'))
              <= t4_max r).
  { unfold generate_t4_temperature_by_region.
    destruct (set_region_temperatures region g') as [r g0].
    cbn [fst] in *. apply step_t4_facts. exact O2'. }
  split; [exact A |]. split; [exact B |].
  split; [exact C |]. split; [exact D |].
  split; [lra |].
  cbv zeta in C, D.
  assert (E : t1_max (fst (set_region_temperatures region g))
              <= t4_min (fst (set_region_temperatures region g'))).
  { unfold set_region_temperatures.
    destruct (String.eqb region region_polar);
      [| destruct (String.eqb region region_temperate);
         [| destruct (String.eqb region region_tropical)]];
      cbn [fst t1_max t4_min]; lra. }
  lra.
Qed.

(** X16.  The two direction attributes stay in [{1,-1}] under every
    temperature generator, with or without a region. *)
Theorem generator_directions_preserved
  (region : string) (g : generator) (s : random_source) :
  is_direction (t1_direction g) -> is_direction (t4_direction g) ->
  let ok (r : Q * generator * random_source) :=
    is_direction (t1_direction (snd (fst r)))
    /\ is_direction (t4_direction (snd (fst r))) in
  ok (generate_t1_temperature g s)
  /\ ok (generate_t4_temperature g s)
  /\ ok (generate_t1_temperature_by_region region g s)
  /\ ok (generate_t4_temperature_by_region region g s).
Proof.
  intros H1 H4 ok. unfold ok.
  destruct (set_region_keeps_directions region g) as [K1 K4].
  assert (A : forall lo hi g0, lo <= hi ->
            is_direction (t1_direction g0) ->
            is_direction (t4_direction g0) ->
            is_direction (t1_direction (snd (fst (step_t1 lo hi g0 s))))
            /\ is_direction
                 (t4_direction (snd (fst (step_t1 lo hi g0 s))))).
  { intros lo hi g0 L D1 D4.
    destruct (step_t1_facts lo hi g0 s L) as (_ & _ & _ & E & D & _).
    split; [exact (D D1) | rewrite E; exact D4]. }
  assert (B : forall lo hi g0, lo <= hi ->
            is_direction (t1_direction g0) ->
            is_direction (t4_direction g0) ->
            is_direction (t1_direction (snd (fst (step_t4 lo hi g0 s))))
            /\ is_direction
                 (t4_direction (snd (fst (step_t4 lo hi g0 s))))).
  { intros lo hi g0 L D1 D4.
    destruct (step_t4_facts lo hi g0 s L) as (_ & _ & _ & E & D & _).
    split; [rewrite E; exact D1 | exact (D D4)]. }
  destruct (region_ranges_ordered region g) as (O1 & O2 & _).
  unfold generate_t1_temperature, generate_t4_temperature,
    generate_t1_temperature_by_region, generate_t4_temperature_by_region.
  destruct (set_region_temperatures region g) as [r g0].
  cbn [fst snd] in *.
  repeat split;
    first [ apply A | apply B ]; try lra; try assumption;
    congruence.
Qed.

Lemma generator_directions_preserved_witness :
  (is_direction (t1_direction initial_generator)
   /\ is_direction (t4_direction initial_generator))
  /\ is_direction
       (t1_direction
          (snd (fst (generate_t1_temperature initial_generator
                       {| random_sample := fun _ => 0;
                          random_calls := 0 |})))).
Proof.
  assert (H : is_direction (t1_direction initial_generator)
              /\ is_direction (t4_direction initial_generator))
    by (split; left; reflexivity).
  split; [exact H |].
  destruct H as [H1 H4].
  exact (proj1 (proj1 (generator_directions_preserved region_polar
                         initial_generator
                         {| random_sample := fun _ => 0;
                            random_calls := 0 |} H1 H4))).
Defined.

Lemma step_t1_bounded (lo hi : Q) (g : generator) (s : random_source) :
  unit_samples s -> is_direction (t1_direction g) ->
  lo <= current_t1 g <= hi ->
  Qabs (fst (fst (step_t1 lo hi g s)) - current_t1 g) <= 0.2.
Proof.
  intros U D H. specialize (U (random_calls s)).
  apply Qabs_Qle_condition.
  unfold step_t1, random_uniform, random_random, t1_change_rate.
  destruct D as [-> | ->]; unfold inject_Z;
    generator_cases; lra.
Qed.

Lemma step_t4_bounded (lo hi : Q) (g : generator) (s : random_source) :
  unit_samples s -> is_direction (t4_direction g) ->
  lo <= current_t4 g <= hi ->
  Qabs (fst (fst (step_t4 lo hi g s)) - current_t4 g) <= 0.3.
Proof.
  intros U D H. specialize (U (random_calls s)).
  apply Qabs_Qle_condition.
  unfold step_t4, random_uniform, random_random, t4_change_rate.
  destruct D as [-> | ->]; unfold inject_Z;
    generator_cases; lra.
Qed.

(** X17.  Without a region the walk is gradual: with samples in
    [[0, 1)], a direction of 1 or -1 and a current value inside the
    range, [generate_t1_temperature] moves the sea-water temperature
    by at most 0.2 and [generate_t4_temperature] the fresh-water
    temperature by at most 0.3. *)
Theorem generated_step_bounded (g : generator) (s : random_source) :
  unit_samples s ->
  is_direction (t1_direction g) -> is_direction (t4_direction g) ->
  0 <= current_t1 g <= 36 -> 36 <= current_t4 g <= 53 ->
  Qabs (fst (fst (generate_t1_temperature g s)) - current_t1 g) <= 0.2
  /\ Qabs (fst (fst (generate_t4_temperature g s)) - current_t4 g) <= 0.3.
Proof.
  intros U D1 D4 H1 H4.
  unfold generate_t1_temperature, generate_t4_temperature.
  split; [apply step_t1_bounded | apply step_t4_bounded];
    try assumption; lra.
Qed.

Lemma generated_step_bounded_witness :
  let s := {| random_sample := fun _ => 0; random_calls := 0 |} in
  (unit_samples s
   /\ is_direction (t1_direction initial_generator)
   /\ is_direction (t4_direction initial_generator)
   /\ 0 <= current_t1 initial_generator <= 36
   /\ 36 <= current_t4 initial_generator <= 53)
  /\ Qabs (fst (fst (generate_t1_temperature initial_generator s))
           - current_t1 initial_generator) <= 0.2.
Proof.
  intro s.
  assert (U : unit_samples s) by (intro k; cbn; lra).
  assert (D1 : is_direction (t1_direction initial_generator))
    by (left; reflexivity).
  assert (D4 : is_direction (t4_direction initial_generator))
    by (left; reflexivity).
  assert (H1 : 0 <= current_t1 initial_generator <= 36) by (cbn; lra).
  assert (H4 : 36 <= current_t4 initial_generator <= 53) by (cbn; lra).
  split; [exact (conj U (conj D1 (conj D4 (conj H1 H4)))) |].
  exact (proj1 (generated_step_bounded initial_generator s U D1 D4 H1 H4)).
Defined.

(** X18.  With a named region the walk never accumulates:
    [set_region_temperatures] resets the current temperatures on every
    call, so the value returned lies within one step of the start
    value of the region (2, 15 or 28 for the sea water; 45, 42 or 40
    for the fresh water), whatever temperature the generator had
    reached before. *)
Theorem region_walk_restarts (g : generator) (s : random_source) :
  unit_samples s ->
  is_direction (t1_direction g) -> is_direction (t4_direction g) ->
  let t1 region := fst (fst (generate_t1_temperature_by_region region g s)) in
  let t4 region := fst (fst (generate_t4_temperature_by_region region g s)) in
  (1.8 <= t1 region_polar <= 2.2 /\ 44.7 <= t4 region_polar <= 45.3)
  /\ (14.8 <= t1 region_temperate <= 15.2
      /\ 41.7 <= t4 region_temperate <= 42.3)
  /\ (27.8 <= t1 region_tropical <= 28.2
      /\ 39.7 <= t4 region_tropical <= 40.3).
Proof.
  intros U D1 D4 t1 t4.
  assert (A : forall lo hi v,
            lo <= v <= hi ->
            Qabs (fst (fst (step_t1 lo hi
                              (set_current_t4 45.0 (set_current_t1 v g)) s))
                  - v) <= 0.2
            /\ Qabs (fst (fst (step_t1 lo hi
                              (set_current_t4 42.0 (set_current_t1 v g)) s))
                     - v) <= 0.2
            /\ Qabs (fst (fst (step_t1 lo hi
                              (set_current_t4 40.0 (set_current_t1 v g)) s))
                     - v) <= 0.2).
  { intros lo hi v Hv.
    repeat split;
      match goal with
      | |- Qabs (fst (fst (step_t1 _ _ ?g0 _)) - _) <= _ =>
          apply (step_t1_bounded lo hi g0 s U); [exact D1 | exact Hv]
      end. }
  assert (B : forall lo hi v a,
            lo <= v <= hi ->
            Qabs (fst (fst (step_t4 lo hi
                              (set_current_t4 v (set_current_t1 a g)) s))
                  - v) <= 0.3).
  { intros lo hi v a Hv.
    apply (step_t4_bounded lo hi
             (set_current_t4 v (set_current_t1 a g)) s U);
      [exact D4 | exact Hv]. }
  unfold t1, t4, generate_t1_temperature_by_region,
    generate_t4_temperature_by_region.
  repeat split;
    match goal with
    | |- context [set_region_temperatures ?r g] =>
        let E := fresh "E" in
        assert (E : set_region_temperatures r g
                    = set_region_temperatures r g) by reflexivity;
        unfold set_region_temperatures at 2 in E;
        cbn [String.eqb region_polar region_temperate region_tropical
             Ascii.eqb Bool.eqb andb] in E;
        rewrite E; clear E
    end;
    cbn [t1_min t1_max t4_min t4_max];
    match goal with
    | |- _ <= fst (fst (step_t1 ?lo ?hi
                          (set_current_t4 _ (set_current_t1 ?v g)) s)) =>
        destruct (A lo hi v) as (A1 & A2 & A3); [lra |];
        first [ apply Qabs_Qle_condition in A1; lra
              | apply Qabs_Qle_condition in A2; lra
              | apply Qabs_Qle_condition in A3; lra ]
    | |- fst (fst (step_t1 ?lo ?hi
                     (set_current_t4 _ (set_current_t1 ?v g)) s)) <= _ =>
        destruct (A lo hi v) as (A1 & A2 & A3); [lra |];
        first [ apply Qabs_Qle_condition in A1; lra
              | apply Qabs_Qle_condition in A2; lra
              | apply Qabs_Qle_condition in A3; lra ]
    | |- _ <= fst (fst (step_t4 ?lo ?hi
                          (set_current_t4 ?v (set_current_t1 ?a g)) s)) =>
        let B1 := fresh "B" in
        assert (B1 := B lo hi v a);
        apply Qabs_Qle_condition in B1; lra
    | |- fst (fst (step_t4 ?lo ?hi
                     (set_current_t4 ?v (set_current_t1 ?a g)) s)) <= _ =>
        let B1 := fresh "B" in
        assert (B1 := B lo hi v a);
        apply Qabs_Qle_condition in B1; lra
    end.
Qed.

(** X19.  With samples in [[0, 1)] the pressure generator returns a
    value in [0.5, 2.5], the engine-load generator a value in
    [10, 100], and the region variant a load within the load range of
    its region, itself inside [10, 100]: the generated pressure and
    load are always positive. *)
Theorem generated_pressure_and_load_in_range
  (region : string) (g : generator) (s : random_source) :
  unit_samples s ->
  0.5 <= fst (generate_dp1_pressure s) <= 2.5
  /\ 10 <= fst (generate_engine_load s) <= 100
  /\ (let r := fst (set_region_temperatures region g) in
      let v := fst (fst (generate_engine_load_by_region region g s)) in
      engine_load_min r <= v <= engine_load_max r /\ 10 <= v <= 100).
Proof.
  intro U.
  assert (U0 := U (random_calls s)).
  assert (U1 := U (S (random_calls s))).
  split; [| split].
  - unfold generate_dp1_pressure, random_uniform, random_random.
    cbn [fst snd]. lra.
  - unfold generate_engine_load, random_uniform, random_random.
    cbn [fst snd random_sample random_calls].
    destruct (Qlt_bool (random_sample s (random_calls s)) 0.2);
      [| destruct (Qlt_bool (random_sample s (random_calls s)) 0.7)];
      cbn [fst snd random_sample random_calls]; lra.
  - unfold generate_engine_load_by_region, set_region_temperatures.
    destruct (String.eqb region region_polar);
      [| destruct (String.eqb region region_temperate);
         [| destruct (String.eqb region region_tropical)]];
      unfold random_uniform, random_random;
      cbn [fst snd engine_load_min engine_load_max];
      lra.
Qed.

Lemma generated_pressure_and_load_in_range_witness :
  let s := {| random_sample := fun _ => 0.5; random_calls := 0 |} in
  unit_samples s /\ 10 <= fst (generate_engine_load s) <= 100.
Proof.
  intro s.
  assert (U : unit_samples s) by (intro k; cbn; lra).
  split; [exact U |].
  exact (proj1 (proj2 (generated_pressure_and_load_in_range
                         region_polar initial_generator s U))).
Defined.

(** * Callers in the user interface *)

(** The alarm fields written by [check_alarm_conditions] depend on
    [T5], [T2] and [DP1] only. *)
Lemma check_alarm_reads (c c' : controller) :
  T5 c' = T5 c -> T2 c' = T2 c -> DP1 c' = DP1 c ->
  alarm_active (check_alarm_conditions c')
  = alarm_active (check_alarm_conditions c)
  /\ alarm_message (check_alarm_conditions c')
     = alarm_message (check_alarm_conditions c).
Proof.
  intros E5 E2 Ed.
  unfold check_alarm_conditions. cbn [T5 T2 DP1 set_alarm].
  rewrite E5.
  destruct (Qlt_bool 40.0 (T5 c)); cbn [T5 T2 DP1 set_alarm];
    rewrite E2;
    destruct (Qlt_bool 49.0 (T2 c)); cbn [T5 T2 DP1 set_alarm];
    rewrite Ed;
    destruct (Qlt_bool (DP1 c) 0.5); cbn [T5 T2 DP1 set_alarm];
    destruct (Qlt_bool 2.5 (DP1 c)); split; reflexivity.
Qed.

Lemma ui_refresh_after_check (y : controller) :
  check_alarm_conditions (update_ui (check_alarm_conditions y))
  = update_ui (check_alarm_conditions y).
Proof.
  rewrite (check_alarm_shape (update_ui (check_alarm_conditions y))).
  destruct (check_alarm_reads (check_alarm_conditions y)
              (update_ui (check_alarm_conditions y)))
    as [Ea Em]; try reflexivity.
  rewrite Ea, Em.
  destruct (check_alarm_reads y (check_alarm_conditions y))
    as [Fa Fm];
    try (destruct (check_alarm_same_plant y)
           as (_ & E2 & _ & E5 & Ed & _); assumption).
  rewrite Fa, Fm.
  assert (S := check_alarm_shape y).
  generalize dependent (check_alarm_conditions y). intros k _ _ _ _ S.
  rewrite S. reflexivity.
Qed.

Lemma ui_refresh_manual
  (t4 t1 dp1 load : Q) (c : controller) (w : world) :
  check_alarm_conditions
    (update_ui (after_manual_update t4 t1 dp1 load c w))
  = update_ui (after_manual_update t4 t1 dp1 load c w).
Proof.
  destruct (manual_update_composition t4 t1 dp1 load c w) as [-> _].
  unfold control_stage. apply ui_refresh_after_check.
Qed.

Lemma run_auto_mode_controller
  (g : generator) (s : random_source) (c : controller) (w : world) :
  let a := generate_t1_temperature g s in
  let b := generate_t4_temperature (snd (fst a)) (snd a) in
  ui_controller (run_auto_mode g s c w)
  = after_manual_update (fst (fst b)) (fst (fst a))
      (DP1 c) (engine_load c) c w.
Proof.
  cbv zeta. unfold ui_controller, run_auto_mode, after_manual_update.
  destruct (generate_t1_temperature g s) as [[t1 g1] s1]. cbn [fst snd].
  destruct (generate_t4_temperature g1 s1) as [[t4 g2] s2]. cbn [fst snd].
  unfold bind.
  destruct (manual_update t4 t1 (DP1 c) (engine_load c) c w) as [r w'].
  reflexivity.
Qed.

Lemma auto_update_controller
  (region : string) (g : generator) (s : random_source)
  (c : controller) (w : world) :
  let a := generate_t1_temperature_by_region region g s in
  let b :=
    generate_t4_temperature_by_region region (snd (fst a)) (snd a) in
  ui_controller (auto_update true region g s c w)
  = update_ui
      (after_manual_update (fst (fst b)) (fst (fst a))
         (DP1 c) (engine_load c) c w).
Proof.
  cbv zeta. unfold ui_controller, auto_update. cbn [negb].
  destruct (generate_t1_temperature_by_region region g s)
    as [[t1 g1] s1]. cbn [fst snd].
  destruct (generate_t4_temperature_by_region region g1 s1)
    as [[t4 g2] s2]. cbn [fst snd].
  rewrite <- (ui_refresh_manual t4 t1 (DP1 c) (engine_load c) c w).
  unfold bind, after_manual_update.
  destruct (manual_update t4 t1 (DP1 c) (engine_load c) c w) as [r w'].
  reflexivity.
Qed.

Lemma run_manual_mode_done
  (t4 t1 dp1 load : Q) (c : controller) (w : world) :
  accepted_inputs t1 dp1 load ->
  run_manual_mode (Some t4) (Some t1) (Some dp1) (Some load) c w
  = (calculation_done,
     update_ui (after_manual_update t4 t1 dp1 load c w),
     snd (manual_update t4 t1 dp1 load c w)).
Proof.
  intros ((A1 & A2) & (B1 & B2) & (C1 & C2)).
  unfold run_manual_mode.
  destruct (Qle_bool_spec 0 t1); [| contradiction].
  destruct (Qle_bool_spec t1 36); [| contradiction].
  destruct (Qle_bool_spec 0.1 dp1); [| contradiction].
  destruct (Qle_bool_spec dp1 3.0); [| contradiction].
  destruct (Qle_bool_spec 0 load); [| contradiction].
  destruct (Qle_bool_spec load 100); [| contradiction].
  cbn [andb negb].
  rewrite <- (ui_refresh_manual t4 t1 dp1 load c w).
  unfold bind, after_manual_update.
  destruct (manual_update t4 t1 dp1 load c w) as [r w'].
  reflexivity.
Qed.

Lemma run_manual_mode_rejected
  (t4 t1 dp1 load : Q) (c : controller) (w : world) :
  ~ accepted_inputs t1 dp1 load ->
  fst (fst (run_manual_mode (Some t4) (Some t1) (Some dp1) (Some load)
              c w)) <> calculation_done
  /\ fst (fst (run_manual_mode (Some t4) (Some t1) (Some dp1) (Some load)
                 c w)) <> not_a_number
  /\ snd (fst (run_manual_mode (Some t4) (Some t1) (Some dp1) (Some load)
                 c w)) = c
  /\ snd (run_manual_mode (Some t4) (Some t1) (Some dp1) (Some load) c w)
     = w.
Proof.
  intro N. unfold run_manual_mode, accepted_inputs in *.
  destruct (Qle_bool_spec 0 t1); destruct (Qle_bool_spec t1 36);
    cbn [andb negb ret fst snd];
    try (repeat split; discriminate);
    destruct (Qle_bool_spec 0.1 dp1); destruct (Qle_bool_spec dp1 3.0);
    cbn [andb negb ret fst snd];
    try (repeat split; discriminate);
    destruct (Qle_bool_spec 0 load); destruct (Qle_bool_spec load 100);
    cbn [andb negb ret fst snd];
    try (repeat split; discriminate).
  exfalso. apply N. repeat split; assumption.
Qed.

Lemma accepted_inputs_dec (t1 dp1 load : Q) :
  accepted_inputs t1 dp1 load \/ ~ accepted_inputs t1 dp1 load.
Proof.
  unfold accepted_inputs.
  destruct (Qle_bool_spec 0 t1); [| right; tauto].
  destruct (Qle_bool_spec t1 36); [| right; tauto].
  destruct (Qle_bool_spec 0.1 dp1); [| right; tauto].
  destruct (Qle_bool_spec dp1 3.0); [| right; tauto].
  destruct (Qle_bool_spec 0 load); [| right; tauto].
  destruct (Qle_bool_spec load 100); [| right; tauto].
  left. tauto.
Qed.

(** What a manual update stores when the inlets are ordered and the
    flows are not negative. *)
Lemma manual_update_ordered
  (t4 t1 dp1 load : Q) (c : controller) (w : world) :
  0 <= m_FW c -> 0 <= m_SW c -> t1 <= t4 ->
  let k := after_manual_update t4 t1 dp1 load c w in
  (T1 k = t1 /\ T4 k = t4 /\ DP1 k = dp1 /\ engine_load k = load)
  /\ t1 <= T5 k <= t4 /\ t1 <= T2 k <= t4.
Proof.
  intros Hf Hs H k.
  destruct (manual_update_plant t4 t1 dp1 load c w)
    as (Ein & (E5 & E2) & _).
  fold k in Ein, E5, E2.
  split; [exact Ein |].
  destruct (calculate_t5_bounds_0314
              (set_engine_load load (set_DP1 dp1 (set_T1 t1 (set_T4 t4 c))))
              Hf Hs H) as [B5 B2].
  cbn [T1 T4 set_engine_load set_DP1 set_T1 set_T4] in B5, B2.
  rewrite E5, E2. split; assumption.
Qed.

Lemma manual_update_ranges
  (t4 t1 dp1 load : Q) (c : controller) (w : world) :
  actuators_in_range c ->
  actuators_in_range (after_manual_update t4 t1 dp1 load c w)
  /\ flows_in_range (after_manual_update t4 t1 dp1 load c w).
Proof.
  intros (Rc & Rf & Rs).
  destruct (manual_update_plant t4 t1 dp1 load c w)
    as (_ & _ & (Ef & Es) & _).
  split.
  - destruct (manual_update_composition t4 t1 dp1 load c w) as [-> _].
    split; [| apply control_stage_frequencies].
    apply control_stage_counts.
    rewrite (calculate_t5_factored _). exact Rc.
  - unfold flows_in_range. rewrite Ef, Es.
    destruct Rc as [R1 R2].
    split; [apply flow_range_fw | apply flow_range_sw]; assumption.
Qed.

Lemma update_ui_ranges (k : controller) :
  actuators_in_range k ->
  actuators_in_range (update_ui k) /\ flows_in_range (update_ui k)
  /\ flows_follow_actuators (update_ui k).
Proof.
  intros (Rc & Rf & Rs).
  split; [exact (conj Rc (conj Rf Rs)) |].
  split; [| split; reflexivity].
  unfold flows_in_range, update_ui, update_flow_rates.
  cbn [m_FW m_SW set_flows].
  destruct Rc as [R1 R2].
  split; [apply flow_range_fw | apply flow_range_sw]; assumption.
Qed.

Lemma update_ui_fields (k : controller) :
  T1 (update_ui k) = T1 k /\ T2 (update_ui k) = T2 k
  /\ T4 (update_ui k) = T4 k /\ T5 (update_ui k) = T5 k
  /\ DP1 (update_ui k) = DP1 k
  /\ engine_load (update_ui k) = engine_load k
  /\ columns (update_ui k) = columns k
  /\ data_log (update_ui k) = data_log k.
Proof. repeat split. Qed.

Lemma generated_inlets (g : generator) (s : random_source) :
  let a := generate_t1_temperature g s in
  let b := generate_t4_temperature (snd (fst a)) (snd a) in
  0 <= fst (fst a) <= 36 /\ 36 <= fst (fst b) <= 53.
Proof.
  cbv zeta. unfold generate_t1_temperature, generate_t4_temperature.
  destruct (step_t1_facts 0.0 36.0 g s) as (A & _); [lra |].
  generalize dependent (step_t1 0.0 36.0 g s). intros a A.
  destruct (step_t4_facts 36.0 53.0 (snd (fst a)) (snd a)) as (B & _);
    [lra |].
  generalize dependent (step_t4 36.0 53.0 (snd (fst a)) (snd a)).
  intros b B. lra.
Qed.

Lemma generated_t1_by_region_range
  (region : string) (g : generator) (s : random_source) :
  0 <= fst (fst (generate_t1_temperature_by_region region g s)) <= 36.
Proof.
  assert (O := region_ranges_ordered region g). cbv zeta in O.
  unfold generate_t1_temperature_by_region.
  destruct (set_region_temperatures region g) as [r g0].
  cbn [fst] in O. destruct O as (O1 & O2 & O3 & O4 & O5 & O6 & O7 & _).
  destruct (step_t1_facts (t1_min r) (t1_max r) g0 s O1) as (A & _).
  lra.
Qed.

Lemma generated_t4_by_region_range
  (region : string) (g : generator) (s : random_source) :
  36 <= fst (fst (generate_t4_temperature_by_region region g s)) <= 53.
Proof.
  assert (O := region_ranges_ordered region g). cbv zeta in O.
  unfold generate_t4_temperature_by_region.
  destruct (set_region_temperatures region g) as [r g0].
  cbn [fst] in O. destruct O as (O1 & O2 & O3 & O4 & O5 & O6 & O7 & _).
  destruct (step_t4_facts (t4_min r) (t4_max r) g0 s O2) as (A & _).
  lra.
Qed.

Lemma generated_inlets_by_region
  (region : string) (g : generator) (s : random_source) :
  let a := generate_t1_temperature_by_region region g s in
  let b :=
    generate_t4_temperature_by_region region (snd (fst a)) (snd a) in
  0 <= fst (fst a) <= 36 /\ 36 <= fst (fst b) <= 53.
Proof.
  cbv zeta.
  split; [apply generated_t1_by_region_range
         | apply generated_t4_by_region_range].
Qed.

Lemma manual_update_sound
  (t4 t1 : Q) (c : controller) (w : world) :
  0 <= m_FW c -> 0 <= m_SW c -> 0 <= t1 <= 36 -> 36 <= t4 <= 53 ->
  forall k : controller,
    k = after_manual_update t4 t1 (DP1 c) (engine_load c) c w
    \/ k = update_ui
             (after_manual_update t4 t1 (DP1 c) (engine_load c) c w) ->
    0 <= T1 k <= 36 /\ 36 <= T4 k <= 53
    /\ T1 k <= T5 k <= T4 k /\ T1 k <= T2 k <= T4 k
    /\ DP1 k = DP1 c /\ engine_load k = engine_load c.
Proof.
  intros Hf Hs A B k E.
  destruct (manual_update_ordered t4 t1 (DP1 c) (engine_load c) c w Hf Hs)
    as ((E1 & E4 & Ed & El) & B5 & B2); [lra |].
  generalize dependent (after_manual_update t4 t1 (DP1 c)
                          (engine_load c) c w).
  intros m [-> | ->] E1 E4 Ed El B5 B2.
  - rewrite E1, E4, Ed, El. repeat split; lra.
  - destruct (update_ui_fields m) as (-> & -> & -> & -> & -> & -> & _).
    rewrite E1, E4, Ed, El. repeat split; lra.
Qed.

(** X20.  The random inputs never invert the inlets.  Whatever the
    generator state, the random samples and the region, and for
    nonnegative flows beforehand, [run_auto_mode] and an active
    [auto_update] leave the sea-water inlet in [0,36], the fresh-water
    inlet in [36,53] and both outlets between the two inlets; the
    pressure and the engine load stay as they were. *)
Theorem random_inputs_keep_inlets_ordered
  (region : string) (g : generator) (s : random_source)
  (c : controller) (w : world) :
  0 <= m_FW c -> 0 <= m_SW c ->
  let sound (r : controller) :=
    0 <= T1 r <= 36 /\ 36 <= T4 r <= 53
    /\ T1 r <= T5 r <= T4 r /\ T1 r <= T2 r <= T4 r
    /\ DP1 r = DP1 c /\ engine_load r = engine_load c in
  sound (ui_controller (run_auto_mode g s c w))
  /\ sound (ui_controller (auto_update true region g s c w)).
Proof.
  intros Hf Hs sound. unfold sound. split.
  - destruct (generated_inlets g s) as [A B].
    apply (manual_update_sound _ _ c w Hf Hs A B).
    left. apply run_auto_mode_controller.
  - destruct (generated_inlets_by_region region g s) as [A B].
    apply (manual_update_sound _ _ c w Hf Hs A B).
    right. apply auto_update_controller.
Qed.

Lemma random_inputs_keep_inlets_ordered_witness :
  (0 <= m_FW fresh_controller /\ 0 <= m_SW fresh_controller)
  /\ 0 <= T1 (ui_controller
               (run_auto_mode initial_generator (constant_source 0.5)
                  fresh_controller (still_world 0))) <= 36.
Proof.
  assert (H : 0 <= m_FW fresh_controller /\ 0 <= m_SW fresh_controller)
    by (split; vm_compute; discriminate).
  split; [exact H |].
  destruct H as [H1 H2].
  exact (proj1 (proj1 (random_inputs_keep_inlets_ordered region_tropical
                         initial_generator (constant_source 0.5)
                         fresh_controller (still_world 0) H1 H2))).
Defined.

(** X21.  Actuators in range are an invariant of the three interface
    callers, and the flows they leave are in range.  After
    [auto_update] and after an accepted [run_manual_mode] the stored
    flows are those of the stored frequencies and counts; a rejected
    [run_manual_mode] leaves the actuators as they were. *)
Theorem interface_keeps_actuators_in_range
  (region : string) (g : generator) (s : random_source)
  (a b d e : option Q) (c : controller) (w : world) :
  actuators_in_range c ->
  let r1 := ui_controller (run_auto_mode g s c w) in
  let r2 := ui_controller (auto_update true region g s c w) in
  let out := fst (run_manual_mode a b d e c w) in
  (actuators_in_range r1 /\ flows_in_range r1)
  /\ (actuators_in_range r2 /\ flows_in_range r2
      /\ flows_follow_actuators r2)
  /\ actuators_in_range (snd out)
  /\ (fst out = calculation_done ->
      flows_in_range (snd out) /\ flows_follow_actuators (snd out)).
Proof.
  intros R r1 r2 out.
  split; [| split].
  - unfold r1. rewrite run_auto_mode_controller.
    apply manual_update_ranges. exact R.
  - unfold r2. rewrite auto_update_controller.
    apply update_ui_ranges, manual_update_ranges. exact R.
  - unfold out.
    destruct a as [t4 |], b as [t1 |], d as [dp1 |], e as [load |];
      try (split; [exact R | cbn; discriminate]).
    destruct (accepted_inputs_dec t1 dp1 load) as [A | N].
    + rewrite (run_manual_mode_done t4 t1 dp1 load c w A).
      cbn [fst snd].
      destruct (update_ui_ranges (after_manual_update t4 t1 dp1 load c w))
        as (U1 & U2 & U3);
        [apply manual_update_ranges; exact R |].
      split; [exact U1 | intros _; split; assumption].
    + destruct (run_manual_mode_rejected t4 t1 dp1 load c w N)
        as (N1 & _ & -> & _).
      split; [exact R | intro E; contradiction].
Qed.

Lemma interface_keeps_actuators_in_range_witness :
  actuators_in_range fresh_controller
  /\ flows_in_range
       (ui_controller
          (run_auto_mode initial_generator (constant_source 0.5)
             fresh_controller (still_world 0))).
Proof.
  assert (H : actuators_in_range fresh_controller).
  { unfold actuators_in_range, counts_in_range. vm_compute.
    intuition discriminate. }
  split; [exact H |].
  exact (proj2 (proj1 (interface_keeps_actuators_in_range region_tropical
                         initial_generator (constant_source 0.5)
                         None None None None
                         fresh_controller (still_world 0) H))).
Defined.

(** X22.  [run_manual_mode] applies all four inputs or none.  The
    calculation is done exactly when the four texts are numbers with
    [0 <= t1 <= 36], [0.1 <= dp1 <= 3.0] and [0 <= load <= 100] (the
    fresh-water inlet [t4] is not restricted); the number error is
    reported exactly when some text is not a number; in every other
    case the controller and the world are untouched; and after a done
    calculation the four inputs are the stored [T4], [T1], [DP1] and
    engine load, and nothing was recorded in the columns. *)
Theorem run_manual_mode_all_or_nothing
  (a b d e : option Q) (c : controller) (w : world) :
  let out := run_manual_mode a b d e c w in
  let r := snd (fst out) in
  (fst (fst out) = calculation_done <->
   exists t4 t1 dp1 load,
     a = Some t4 /\ b = Some t1 /\ d = Some dp1 /\ e = Some load
     /\ accepted_inputs t1 dp1 load)
  /\ (fst (fst out) = not_a_number <->
      a = None \/ b = None \/ d = None \/ e = None)
  /\ (fst (fst out) <> calculation_done -> r = c /\ snd out = w)
  /\ (fst (fst out) = calculation_done ->
      a = Some (T4 r) /\ b = Some (T1 r) /\ d = Some (DP1 r)
      /\ e = Some (engine_load r)
      /\ columns r = columns c /\ data_log r = data_log c).
Proof.
  cbv zeta.
  destruct a as [t4 |], b as [t1 |], d as [dp1 |], e as [load |];
    try (cbn [run_manual_mode ret fst snd];
         split; [split; [discriminate
                        | intros (x1 & x2 & x3 & x4 & E1 & E2 & E3 & E4 & _);
                          discriminate] |];
         split; [split; [intros _; tauto | reflexivity] |];
         split; [intros _; split; reflexivity | discriminate]).
  destruct (accepted_inputs_dec t1 dp1 load) as [A | N].
  - rewrite (run_manual_mode_done t4 t1 dp1 load c w A). cbn [fst snd].
    split; [split; [intros _; exists t4, t1, dp1, load; tauto
                   | reflexivity] |].
    split; [split; [discriminate
                   | intros [E | [E | [E | E]]]; discriminate] |].
    split; [intro E; contradiction |].
    intros _.
    destruct (manual_update_plant t4 t1 dp1 load c w)
      as ((E1 & E4 & Ed & El) & _ & _ & (Ec & Eg & _)).
    destruct (update_ui_fields (after_manual_update t4 t1 dp1 load c w))
      as (-> & _ & -> & _ & -> & -> & -> & ->).
    rewrite E1, E4, Ed, El, Ec, Eg. repeat split.
  - destruct (run_manual_mode_rejected t4 t1 dp1 load c w N)
      as (N1 & N2 & Ec & Ew).
    split; [split; [intro E; contradiction |] |].
    { intros (x1 & x2 & x3 & x4 & E1 & E2 & E3 & E4 & A).
      injection E2 as <-. injection E3 as <-. injection E4 as <-.
      contradiction. }
    split; [split; [intro E; contradiction
                   | intros [E | [E | [E | E]]]; discriminate] |].
    split; [intros _; split; assumption | intro E; contradiction].
Qed.

(** X23.  The interface adds only the flow refresh to a manual
    update: the second alarm check of [auto_update] and of
    [run_manual_mode] finds the alarm as [manual_update] left it, so
    the controller they leave is the one of [manual_update] with its
    flows recomputed; [run_auto_mode] leaves exactly the controller of
    [manual_update]; and an inactive [auto_update] does nothing. *)
Theorem interface_is_manual_update_with_refresh
  (region : string) (g : generator) (s : random_source)
  (t4 t1 dp1 load : Q) (c : controller) (w : world) :
  (let a := generate_t1_temperature_by_region region g s in
   let b :=
     generate_t4_temperature_by_region region (snd (fst a)) (snd a) in
   ui_controller (auto_update true region g s c w)
   = update_flow_rates
       (after_manual_update (fst (fst b)) (fst (fst a))
          (DP1 c) (engine_load c) c w))
  /\ (let a := generate_t1_temperature g s in
      let b := generate_t4_temperature (snd (fst a)) (snd a) in
      ui_controller (run_auto_mode g s c w)
      = after_manual_update (fst (fst b)) (fst (fst a))
          (DP1 c) (engine_load c) c w)
  /\ (fst (fst (run_manual_mode (Some t4) (Some t1) (Some dp1) (Some load)
                  c w)) = calculation_done ->
      snd (fst (run_manual_mode (Some t4) (Some t1) (Some dp1) (Some load)
                  c w))
      = update_flow_rates (after_manual_update t4 t1 dp1 load c w))
  /\ auto_update false region g s c w = (c, g, s, w).
Proof.
  split; [apply auto_update_controller |].
  split; [apply run_auto_mode_controller |].
  split; [| reflexivity].
  destruct (accepted_inputs_dec t1 dp1 load) as [A | N].
  - rewrite (run_manual_mode_done t4 t1 dp1 load c w A). reflexivity.
  - destruct (run_manual_mode_rejected t4 t1 dp1 load c w N) as (N1 & _).
    intro E. contradiction.
Qed.

(** * Export *)

Lemma format_times_total (format_time : Q -> option string) (l : list Q) :
  (forall t, In t l -> format_time t <> None) ->
  exists xs, format_times format_time l = Some xs /\ length xs = length l.
Proof.
  induction l as [| t l IH]; intro H.
  - exists []. split; reflexivity.
  - destruct IH as (xs & E & L).
    { intros u Hu. apply H. right. exact Hu. }
    destruct (format_time t) as [x |] eqn:Et.
    + exists (x :: xs). cbn [format_times]. rewrite Et, E.
      split; [reflexivity | cbn [length]; now rewrite L].
    + exfalso. apply (H t); [left; reflexivity | exact Et].
Qed.

Lemma table_row_rectangular (n i : nat) (table : list (list cell)) :
  Forall (fun col => length col = n) table -> (i < n)%nat ->
  exists r, table_row table i = Some r
            /\ length r = length table
            /\ forall j col d, nth_error table j = Some col ->
                               nth j r d = nth i col d.
Proof.
  intros H Hi. induction H as [| col table Hc _ IH].
  - exists []. split; [reflexivity |]. split; [reflexivity |].
    intros [| j] col d E; discriminate E.
  - destruct IH as (r & Er & Lr & Nr).
    destruct (nth_error col i) as [x |] eqn:Ex.
    + exists (x :: r). cbn [table_row]. rewrite Ex, Er.
      split; [reflexivity |]. split; [cbn [length]; now rewrite Lr |].
      intros [| j] col' d E; cbn [nth_error nth] in *.
      * injection E as <-. symmetry. apply nth_error_nth. exact Ex.
      * apply Nr. exact E.
    + apply nth_error_None in Ex. lia.
Qed.

Lemma write_rows_rectangular (n : nat) (table : list (list cell))
  (indices : list nat) :
  Forall (fun col => length col = n) table ->
  Forall (fun i => (i < n)%nat) indices ->
  exists rows,
    write_rows table indices = (rows, true)
    /\ length rows = length indices
    /\ Forall (fun r => length r = length table) rows
    /\ forall j col d, nth_error table j = Some col ->
                       map (fun r => nth j r d) rows
                       = map (fun i => nth i col d) indices.
Proof.
  intros Ht Hi. induction Hi as [| i indices Hlt _ IH].
  - exists []. repeat split; constructor.
  - destruct IH as (rows & Ew & Lw & Fw & Mw).
    destruct (table_row_rectangular n i table Ht Hlt) as (r & Er & Lr & Nr).
    exists (r :: rows). cbn [write_rows]. rewrite Er, Ew.
    split; [reflexivity |]. split; [cbn [length]; now rewrite Lw |].
    split; [constructor; assumption |].
    intros j col d E. cbn [map]. f_equal; [apply Nr | apply Mw]; exact E.
Qed.

Lemma map_nth_seq_all (col : list cell) (d : cell) :
  map (fun i => nth i col d) (seq 0 (length col)) = col.
Proof.
  induction col as [| x col IH].
  - reflexivity.
  - cbn [length seq map nth]. f_equal.
    rewrite <- seq_shift, map_map. exact IH.
Qed.

Lemma save_data_nonempty (format_time : Q -> option string)
  (open_ok : bool) (c : controller) :
  time_data (columns c) <> [] ->
  save_data format_time open_ok c
  = match format_times format_time (time_data (columns c)) with
    | None => (false, None)
    | Some times =>
        if negb open_ok then (false, None)
        else
          let (rows, ok) :=
            write_rows (save_data_table times (columns c))
              (seq 0 (length (time_data (columns c)))) in
          (ok, Some (save_data_header, rows))
    end.
Proof.
  intro H. unfold save_data.
  destruct (time_data (columns c)); [congruence | reflexivity].
Qed.

Lemma save_data_table_rectangular (n : nat) (times : list string)
  (s : series) :
  columns_have_length n s -> length times = n ->
  Forall (fun col => length col = n) (save_data_table times s).
Proof.
  unfold columns_have_length, column_lengths, save_data_table.
  intros H L.
  repeat match goal with
         | H : Forall _ (_ :: _) |- _ => inversion H; subst; clear H
         end.
  repeat constructor; rewrite length_map; congruence.
Qed.

Lemma save_data_aligned (format_time : Q -> option string) (n : nat)
  (c : controller) :
  columns_have_length n (columns c) -> (0 < n)%nat ->
  (forall t, In t (time_data (columns c)) -> format_time t <> None) ->
  exists times rows,
    format_times format_time (time_data (columns c)) = Some times
    /\ save_data format_time true c
       = (true, Some (save_data_header, rows))
    /\ length rows = n
    /\ Forall (fun r => length r = 12%nat) rows
    /\ forall j col d,
         nth_error (save_data_table times (columns c)) j = Some col ->
         map (fun r => nth j r d) rows = col.
Proof.
  intros H Hn Hf.
  assert (Lt : length (time_data (columns c)) = n).
  { unfold columns_have_length, column_lengths in H.
    inversion H; assumption. }
  destruct (format_times_total format_time _ Hf) as (times & Et & Ll).
  assert (R := save_data_table_rectangular n times (columns c) H
                 (eq_trans Ll Lt)).
  assert (I : Forall (fun i => (i < n)%nat)
                (seq 0 (length (time_data (columns c))))).
  { apply Forall_forall. intros i Hi. apply in_seq in Hi. lia. }
  destruct (write_rows_rectangular n _ _ R I)
    as (rows & Ew & Lw & Fw & Mw).
  exists times, rows.
  split; [exact Et |].
  split.
  { rewrite save_data_nonempty.
    - rewrite Et. cbn [negb]. rewrite Ew. reflexivity.
    - intro E. rewrite E in Lt. cbn [length] in Lt. lia. }
  split; [rewrite Lw, length_seq; exact Lt |].
  split; [exact Fw |].
  intros j col d E. rewrite (Mw j col d E), Lt.
  assert (Lc : length col = n).
  { apply nth_error_In in E.
    exact (proj1 (Forall_forall _ _) R col E). }
  rewrite <- Lc. apply map_nth_seq_all.
Qed.

(** X24.  With aligned, non-empty columns and time stamps that can be
    formatted, [save_data] returns [True] and writes the header and
    one row of twelve cells per recorded tick; read column by column
    the rows are the twelve columns of the controller, so no entry is
    lost, repeated or shifted.  No [IndexError] can occur. *)
Theorem save_data_writes_every_row
  (format_time : Q -> option string) (n : nat) (c : controller) :
  columns_have_length n (columns c) -> (0 < n)%nat ->
  (forall t, In t (time_data (columns c)) -> format_time t <> None) ->
  exists times rows,
    format_times format_time (time_data (columns c)) = Some times
    /\ save_data format_time true c
       = (true, Some (save_data_header, rows))
    /\ length rows = n
    /\ Forall (fun r => length r = 12%nat) rows
    /\ forall j col d,
         nth_error (save_data_table times (columns c)) j = Some col ->
         map (fun r => nth j r d) rows = col.
Proof. exact (save_data_aligned format_time n c). Qed.

Lemma tick_columns_aligned (n : nat) (c : controller) (w : world) :
  columns_have_length n (columns c) ->
  columns_have_length (Nat.min max_data_points (S n))
    (columns (tick c w)).
Proof.
  intro H.
  destruct (tick_history c w) as (c8 & [K _] & -> & _).
  apply limit_columns_lengths, append_columns_lengths.
  rewrite K. exact H.
Qed.

Lemma run_ticks_columns_aligned (k : nat) :
  forall (n : nat) (c : controller) (w : world),
    columns_have_length n (columns c) -> (n <= max_data_points)%nat ->
    columns_have_length (Nat.min max_data_points (k + n))
      (columns (fst (run_ticks k c w))).
Proof.
  induction k as [| k IH]; intros n c w H Hn.
  - cbn [run_ticks ret fst Nat.add].
    rewrite Nat.min_r by exact Hn. exact H.
  - rewrite run_ticks_step.
    assert (A := tick_columns_aligned n c w H).
    specialize (IH _ (tick c w) (snd (update_system c w)) A
                  (Nat.le_min_l _ _)).
    replace (Nat.min max_data_points (S k + n))
      with (Nat.min max_data_points
              (k + Nat.min max_data_points (S n))) by lia.
    exact IH.
Qed.

Lemma save_data_witness_state :
  columns_have_length 1 (columns (tick fresh_controller (still_world 0))).
Proof.
  apply (tick_columns_aligned 0 fresh_controller (still_world 0)).
  repeat constructor.
Qed.

Lemma save_data_writes_every_row_witness :
  (columns_have_length 1 (columns (tick fresh_controller (still_world 0)))
   /\ (0 < 1)%nat
   /\ forall t,
        In t (time_data (columns (tick fresh_controller (still_world 0)))) ->
        (fun _ : Q => Some "t"%string) t <> None)
  /\ exists times rows,
       format_times (fun _ => Some "t"%string)
         (time_data (columns (tick fresh_controller (still_world 0))))
       = Some times
       /\ save_data (fun _ => Some "t"%string) true
            (tick fresh_controller (still_world 0))
          = (true, Some (save_data_header, rows))
       /\ length rows = 1%nat
       /\ Forall (fun r => length r = 12%nat) rows
       /\ forall j col d,
            nth_error
              (save_data_table times
                 (columns (tick fresh_controller (still_world 0)))) j
            = Some col ->
            map (fun r => nth j r d) rows = col.
Proof.
  assert (H1 := save_data_witness_state).
  assert (H2 : (0 < 1)%nat) by lia.
  assert (H3 : forall t,
             In t (time_data
                     (columns (tick fresh_controller (still_world 0)))) ->
             (fun _ : Q => Some "t"%string) t <> None)
    by (intros t _; discriminate).
  split; [exact (conj H1 (conj H2 H3)) |].
  exact (save_data_writes_every_row (fun _ => Some "t"%string) 1
           (tick fresh_controller (still_world 0)) H1 H2 H3).
Defined.

(** X25.  The export follows the ticks.  A controller fresh from the
    constructor has nothing to save: [save_data] returns [False]
    without opening a file.  After [k >= 1] periodic ticks, whatever
    the world, and with a formatter that accepts every time stamp, it
    returns [True] and writes [min 1000 k] rows; when the file cannot
    be opened it returns [False]. *)
Theorem save_data_after_ticks
  (format_time : Q -> option string) (k : nat) (w : world) :
  (forall t, format_time t <> None) -> (0 < k)%nat ->
  let c := fst (run_ticks k fresh_controller w) in
  save_data format_time true fresh_controller = (false, None)
  /\ save_data format_time false c = (false, None)
  /\ exists rows,
       save_data format_time true c
       = (true, Some (save_data_header, rows))
       /\ length rows = Nat.min max_data_points k.
Proof.
  intros Hf Hk c.
  split; [reflexivity |].
  assert (A : columns_have_length (Nat.min max_data_points (k + 0))
                (columns c)).
  { apply run_ticks_columns_aligned.
    - repeat constructor.
    - unfold max_data_points. lia. }
  rewrite Nat.add_0_r in A.
  assert (P : (0 < Nat.min max_data_points k)%nat)
    by (unfold max_data_points; lia).
  destruct (save_data_aligned format_time _ c A P)
    as (times & rows & Et & Es & Lr & _).
  { intros t _. apply Hf. }
  split.
  - rewrite save_data_nonempty.
    + rewrite Et. reflexivity.
    + intro E.
      unfold columns_have_length, column_lengths in A.
      inversion A as [| x l Lt _]. rewrite E in Lt. cbn [length] in Lt.
      lia.
  - exists rows. split; assumption.
Qed.

Lemma save_data_after_ticks_witness :
  ((forall t : Q, (fun _ : Q => Some "t"%string) t <> None) /\ (0 < 2)%nat)
  /\ exists rows,
       save_data (fun _ => Some "t"%string) true
         (fst (run_ticks 2 fresh_controller (still_world 0)))
       = (true, Some (save_data_header, rows))
       /\ length rows = Nat.min max_data_points 2.
Proof.
  assert (H1 : forall t : Q, (fun _ : Q => Some "t"%string) t <> None)
    by (intro t; discriminate).
  assert (H2 : (0 < 2)%nat) by lia.
  split; [exact (conj H1 H2) |].
  exact (proj2 (proj2 (save_data_after_ticks (fun _ => Some "t"%string) 2
                         (still_world 0) H1 H2))).
Defined.

Lemma region_walk_restarts_witness :
  (unit_samples (constant_source 0.5)
   /\ is_direction (t1_direction initial_generator)
   /\ is_direction (t4_direction initial_generator))
  /\ 1.8 <= fst (fst (generate_t1_temperature_by_region region_polar
                        initial_generator (constant_source 0.5))) <= 2.2.
Proof.
  assert (U : unit_samples (constant_source 0.5)) by (intro k; cbn; lra).
  assert (D1 : is_direction (t1_direction initial_generator))
    by (left; reflexivity).
  assert (D4 : is_direction (t4_direction initial_generator))
    by (left; reflexivity).
  split; [exact (conj U (conj D1 D4)) |].
  exact (proj1 (proj1 (region_walk_restarts initial_generator
                         (constant_source 0.5) U D1 D4))).
Defined.
